(** * Campus event management: registration, attendance, feedback, reports

    A shallow embedding of the request handlers of [src/main.py], the
    validators of [src/schemas.py], the tables of [src/models.py] and two
    queries of [src/reports.py], with the properties of the registration /
    attendance lifecycle proved (or refuted) on it.

    Conventions.
    - A table is the list of its rows in insertion (rowid) order;
      [query.filter(p).first()] is [find p].
    - A handler reads the database, and writes reach it only at
      [db.commit()].  A handler that raises never commits ([get_db] closes
      the session), so a handler is a function [Store -> result (Store * A)]
      and [Raise] leaves the database as it was.
    - [datetime] values are integers: microseconds on the time line.
    - The clock ([datetime.now()]) is an argument of the handler. *)

From Stdlib Require Import ZArith List String Bool Lia QArith Qround.
From Stdlib Require Import Sorting.Sorted Sorting.Permutation.
Import ListNotations.
Local Open Scope string_scope.
Local Open Scope list_scope.
Local Open Scope Z_scope.

(* ===================================================================== *)
(** ** Errors and the handler monad *)

(** What a handler can raise: [HTTPException(status_code, detail)] in
    main.py, [ValueError(msg)] in the validators of schemas.py. *)
Inductive error : Type :=
| HTTPException (status_code : Z) (detail : string)
| ValueError (msg : string).

Inductive result (A : Type) : Type :=
| Ok (a : A)
| Raise (e : error).
Arguments Ok {A} a.
Arguments Raise {A} e.

Definition bind {A B : Type} (m : result A) (k : A -> result B) : result B :=
  match m with
  | Ok a => k a
  | Raise e => Raise e
  end.

Notation "x <- m ;; k" := (bind m (fun x => k))
  (at level 61, m at next level, right associativity).
Notation "m ;;; k" := (bind m (fun _ => k))
  (at level 61, right associativity).

(** [x = q.first(); if not x: raise e] *)
Definition first_or {A : Type} (o : option A) (e : error) : result A :=
  match o with
  | Some a => Ok a
  | None => Raise e
  end.

(** [if c: raise e] *)
Definition raise_if (c : bool) (e : error) : result unit :=
  if c then Raise e else Ok tt.

(** The database after a request: a handler that raised has not committed. *)
Definition db_after {S A : Type} (before : S) (r : result (S * A)) : S :=
  match r with
  | Ok (after, _) => after
  | Raise _ => before
  end.

Definition succeeded {A : Type} (r : result A) : bool :=
  match r with
  | Ok _ => true
  | Raise _ => false
  end.

Definition error_eqb (a b : error) : bool :=
  match a, b with
  | HTTPException c d, HTTPException c' d' => (c =? c') && String.eqb d d'
  | ValueError m, ValueError m' => String.eqb m m'
  | _, _ => false
  end.

(* ===================================================================== *)
(** ** models.py *)

Definition datetime : Type := Z.

(** [timedelta(minutes=m)], in microseconds. *)
Definition timedelta_minutes (m : Z) : Z := m * 60 * 1000000.

(** [status IN ('active', 'cancelled', 'completed')] *)
Inductive EventStatus : Type := EventActive | EventCancelled | EventCompleted.

(** [status IN ('registered', 'cancelled', 'attended')] *)
Inductive RegistrationStatus : Type := Registered | Cancelled | Attended.

(** [status IN ('absent', 'present', 'late')] *)
Inductive AttendanceStatus : Type := Absent | Present | Late.

Definition EventStatus_eqb (a b : EventStatus) : bool :=
  match a, b with
  | EventActive, EventActive
  | EventCancelled, EventCancelled
  | EventCompleted, EventCompleted => true
  | _, _ => false
  end.

Definition RegistrationStatus_eqb (a b : RegistrationStatus) : bool :=
  match a, b with
  | Registered, Registered | Cancelled, Cancelled | Attended, Attended => true
  | _, _ => false
  end.

Definition AttendanceStatus_eqb (a b : AttendanceStatus) : bool :=
  match a, b with
  | Absent, Absent | Present, Present | Late, Late => true
  | _, _ => false
  end.

(** The columns no modelled handler or query reads ([description],
    [location], [phone], [created_at], [registered_at], [submitted_at]) are
    left out of the rows. *)

Module Student.
Record t : Type := mk {
  id : Z;
  college_id : Z;
  student_id : string;
  name : string;
  email : string
}.
End Student.

Module Event.
Record t : Type := mk {
  id : Z;
  college_id : Z;
  title : string;
  event_type : string;
  start_time : datetime;
  end_time : datetime;
  max_capacity : Z;
  current_registrations : Z;
  status : EventStatus
}.

Definition set_current_registrations (v : Z) (e : t) : t :=
  mk (id e) (college_id e) (title e) (event_type e) (start_time e)
     (end_time e) (max_capacity e) v (status e).
End Event.

Module Registration.
Record t : Type := mk {
  id : Z;
  student_id : Z;
  event_id : Z;
  status : RegistrationStatus
}.

Definition set_status (s : RegistrationStatus) (r : t) : t :=
  mk (id r) (student_id r) (event_id r) s.
End Registration.

Module Attendance.
Record t : Type := mk {
  id : Z;
  registration_id : Z;
  check_in_time : option datetime;
  check_out_time : option datetime;
  status : AttendanceStatus
}.

Definition set_check_in (now : datetime) (s : AttendanceStatus) (a : t) : t :=
  mk (id a) (registration_id a) (Some now) (check_out_time a) s.

Definition set_check_out_time (now : datetime) (a : t) : t :=
  mk (id a) (registration_id a) (check_in_time a) (Some now) (status a).
End Attendance.

Module Feedback.
Record t : Type := mk {
  id : Z;
  registration_id : Z;
  rating : Z;
  comment : option string
}.
End Feedback.

(** The database: one list of rows per table. *)
Record Store : Type := mkStore {
  students : list Student.t;
  events : list Event.t;
  registrations : list Registration.t;
  attendance : list Attendance.t;
  feedback : list Feedback.t
}.

(** [sqlite_autoincrement]: the next primary key is one more than the
    largest key of the table (no modelled handler deletes a row). *)
Definition next_id (ids : list Z) : Z := 1 + fold_right Z.max 0 ids.

(** [UPDATE t SET ... WHERE p]: the rows that satisfy [p] are changed by
    [f], the others are kept. *)
Definition update_where {A : Type} (p : A -> bool) (f : A -> A) (rows : list A)
  : list A :=
  map (fun row => if p row then f row else row) rows.

Definition with_events (evs : list Event.t) (db : Store) : Store :=
  mkStore (students db) evs (registrations db) (attendance db) (feedback db).

Definition with_registrations (rs : list Registration.t) (db : Store) : Store :=
  mkStore (students db) (events db) rs (attendance db) (feedback db).

Definition with_attendance (ats : list Attendance.t) (db : Store) : Store :=
  mkStore (students db) (events db) (registrations db) ats (feedback db).

Definition with_feedback (fs : list Feedback.t) (db : Store) : Store :=
  mkStore (students db) (events db) (registrations db) (attendance db) fs.

(** The point lookups of the handlers. *)
Definition get_student_by_id (db : Store) (i : Z) : option Student.t :=
  find (fun s => Student.id s =? i) (students db).

Definition get_event_by_id (db : Store) (i : Z) : option Event.t :=
  find (fun e => Event.id e =? i) (events db).

Definition get_registration_by_id (db : Store) (i : Z) : option Registration.t :=
  find (fun r => Registration.id r =? i) (registrations db).

Definition get_attendance_of (db : Store) (rid : Z) : option Attendance.t :=
  find (fun a => Attendance.registration_id a =? rid) (attendance db).

(* ===================================================================== *)
(** ** schemas.py *)

Module RegistrationCreate.
Record t : Type := mk {
  student_id : Z;
  event_id : Z
}.
End RegistrationCreate.

Module AttendanceCreate.
Record t : Type := mk {
  registration_id : Z;
  action : string
}.
End AttendanceCreate.

Module FeedbackCreate.
Record t : Type := mk {
  registration_id : Z;
  rating : Z;
  comment : option string
}.
End FeedbackCreate.

(** The double quote character of the validator's message. *)
Definition dquote : string := String (Ascii.ascii_of_nat 34) EmptyString.

(** [AttendanceBase.action_must_be_valid] *)
Definition action_must_be_valid (v : string) : result string :=
  if negb (String.eqb v "check_in" || String.eqb v "check_out")
  then Raise (ValueError
               ("Action must be either " ++ dquote ++ "check_in" ++ dquote
                ++ " or " ++ dquote ++ "check_out" ++ dquote)%string)
  else Ok v.

(** [FeedbackBase.rating_must_be_valid] *)
Definition rating_must_be_valid (v : Z) : result Z :=
  if (v <? 1) || (v >? 5)
  then Raise (ValueError "Rating must be between 1 and 5")
  else Ok v.

(* ===================================================================== *)
(** ** main.py: registration *)

(** What [register_student] holds in its session when it reaches
    [db.commit()]: the new [Registration] object and the value it assigned
    to the [current_registrations] attribute of the event it loaded (the
    loaded value plus one). *)
Record PendingRegistration : Type := mkPending {
  pending_student_id : Z;
  pending_event_id : Z;
  pending_current_registrations : Z
}.

(** [register_student], from its first query to the assignment
    [event.current_registrations += 1]: reads only. *)
Definition register_student_session
    (now : datetime) (registration : RegistrationCreate.t) (db : Store)
  : result PendingRegistration :=
  let sid := RegistrationCreate.student_id registration in
  let eid := RegistrationCreate.event_id registration in
  student <- first_or (get_student_by_id db sid)
                      (HTTPException 404 "Student not found") ;;
  event <- first_or (get_event_by_id db eid)
                    (HTTPException 404 "Event not found") ;;
  raise_if (negb (EventStatus_eqb (Event.status event) EventActive))
           (HTTPException 400 "Event is not active for registration") ;;;
  raise_if (Event.start_time event <=? now)
           (HTTPException 400 "Cannot register for past events") ;;;
  let existing_registration :=
    find (fun r => (Registration.student_id r =? sid)
                   && (Registration.event_id r =? eid))
         (registrations db) in
  raise_if (match existing_registration with Some _ => true | None => false end)
           (HTTPException 400 "Student already registered for this event") ;;;
  raise_if (Event.current_registrations event >=? Event.max_capacity event)
           (HTTPException 400 "Event is at full capacity") ;;;
  Ok (mkPending sid eid (Event.current_registrations event + 1)).

(** [db.commit()] of [register_student]: the flush inserts the registration
    row (status column default ['registered']) and writes the assigned
    counter value, [UPDATE events SET current_registrations = v WHERE id]. *)
Definition register_student_commit (p : PendingRegistration) (db : Store)
  : Store * Registration.t :=
  let db_registration :=
    Registration.mk (next_id (map Registration.id (registrations db)))
                    (pending_student_id p) (pending_event_id p) Registered in
  (with_events
     (update_where (fun e => Event.id e =? pending_event_id p)
        (Event.set_current_registrations (pending_current_registrations p))
        (events db))
     (with_registrations (registrations db ++ [db_registration]) db),
   db_registration).

(** [POST /register/] *)
Definition register_student
    (now : datetime) (registration : RegistrationCreate.t) (db : Store)
  : result (Store * Registration.t) :=
  p <- register_student_session now registration db ;;
  Ok (register_student_commit p db).

(** [DELETE /register/{registration_id}] *)
Definition cancel_registration (registration_id : Z) (db : Store)
  : result (Store * string) :=
  registration <- first_or (get_registration_by_id db registration_id)
                           (HTTPException 404 "Registration not found") ;;
  let evs :=
    match get_event_by_id db (Registration.event_id registration) with
    | Some event =>
        if Event.current_registrations event >? 0
        then update_where (fun e => Event.id e =? Event.id event)
               (Event.set_current_registrations
                  (Event.current_registrations event - 1))
               (events db)
        else events db
    | None => events db
    end in
  let regs :=
    update_where (fun r => Registration.id r =? Registration.id registration)
                 (Registration.set_status Cancelled) (registrations db) in
  Ok (with_events evs (with_registrations regs db),
      "Registration cancelled successfully").

(* ===================================================================== *)
(** ** main.py: attendance *)

(** [Attendance(registration_id=...)] as its row is inserted: the next key,
    no timestamps, the column default ['absent'] (no handler reads the status
    of the new object before it assigns it or raises). *)
Definition Attendance_new (db : Store) (registration_id : Z) : Attendance.t :=
  Attendance.mk (next_id (map Attendance.id (attendance db)))
                registration_id None None Absent.

Definition is_set {A : Type} (o : option A) : bool :=
  match o with Some _ => true | None => false end.

(** The commit of [mark_attendance]: a new record is inserted with the
    attributes it has by then; a loaded record has its changed columns
    written by primary key. *)
Definition save_attendance
    (existing : option Attendance.t) (f : Attendance.t -> Attendance.t)
    (registration_id : Z) (db : Store) : Store * Attendance.t :=
  match existing with
  | Some a =>
      (with_attendance
         (update_where (fun x => Attendance.id x =? Attendance.id a) f
                       (attendance db)) db,
       f a)
  | None =>
      let a := f (Attendance_new db registration_id) in
      (with_attendance (attendance db ++ [a]) db, a)
  end.

(** [POST /attendance/], after the request body was validated. *)
Definition mark_attendance_handler
    (now : datetime) (req : AttendanceCreate.t) (db : Store)
  : result (Store * Attendance.t) :=
  let rid := AttendanceCreate.registration_id req in
  registration <- first_or (get_registration_by_id db rid)
                           (HTTPException 404 "Registration not found") ;;
  raise_if (negb (RegistrationStatus_eqb (Registration.status registration)
                                         Registered))
           (HTTPException 400 "Student is not registered for this event") ;;;
  let existing := get_attendance_of db rid in
  let attendance_record :=
    match existing with
    | Some a => a
    | None => Attendance_new db rid
    end in
  let current_time := now in
  if String.eqb (AttendanceCreate.action req) "check_in" then
    raise_if (is_set (Attendance.check_in_time attendance_record))
             (HTTPException 400 "Student already checked in") ;;;
    let status :=
      match get_event_by_id db (Registration.event_id registration) with
      | Some event =>
          if current_time >? Event.start_time event + timedelta_minutes 15
          then Late else Present
      | None => Present
      end in
    Ok (save_attendance existing (Attendance.set_check_in current_time status)
                        rid db)
  else if String.eqb (AttendanceCreate.action req) "check_out" then
    raise_if (negb (is_set (Attendance.check_in_time attendance_record)))
             (HTTPException 400 "Student must check in before checking out") ;;;
    raise_if (is_set (Attendance.check_out_time attendance_record))
             (HTTPException 400 "Student already checked out") ;;;
    Ok (save_attendance existing (Attendance.set_check_out_time current_time)
                        rid db)
  else
    Ok (save_attendance existing (fun a => a) rid db).

(** [POST /attendance/]: the body is validated ([AttendanceCreate]) before
    the handler runs. *)
Definition mark_attendance
    (now : datetime) (req : AttendanceCreate.t) (db : Store)
  : result (Store * Attendance.t) :=
  action_must_be_valid (AttendanceCreate.action req) ;;;
  mark_attendance_handler now req db.

Definition check_in (now : datetime) (registration_id : Z) (db : Store)
  : result (Store * Attendance.t) :=
  mark_attendance now (AttendanceCreate.mk registration_id "check_in") db.

Definition check_out (now : datetime) (registration_id : Z) (db : Store)
  : result (Store * Attendance.t) :=
  mark_attendance now (AttendanceCreate.mk registration_id "check_out") db.

(* ===================================================================== *)
(** ** main.py: feedback *)

(** [POST /feedback/], after the request body was validated. *)
Definition submit_feedback_handler (req : FeedbackCreate.t) (db : Store)
  : result (Store * Feedback.t) :=
  let rid := FeedbackCreate.registration_id req in
  registration <- first_or (get_registration_by_id db rid)
                           (HTTPException 404 "Registration not found") ;;
  let attended :=
    find (fun a => (Attendance.registration_id a =? rid)
                   && (AttendanceStatus_eqb (Attendance.status a) Present
                       || AttendanceStatus_eqb (Attendance.status a) Late))
         (attendance db) in
  raise_if (negb (is_set attended))
           (HTTPException 400
              "Only students who attended the event can submit feedback") ;;;
  let existing_feedback :=
    find (fun f => Feedback.registration_id f =? rid) (feedback db) in
  raise_if (is_set existing_feedback)
           (HTTPException 400 "Feedback already submitted for this event") ;;;
  let db_feedback :=
    Feedback.mk (next_id (map Feedback.id (feedback db))) rid
                (FeedbackCreate.rating req) (FeedbackCreate.comment req) in
  Ok (with_feedback (feedback db ++ [db_feedback]) db, db_feedback).

(** [POST /feedback/]: the body is validated ([FeedbackCreate], with
    [rating_must_be_valid]) before the handler runs. *)
Definition submit_feedback (req : FeedbackCreate.t) (db : Store)
  : result (Store * Feedback.t) :=
  rating_must_be_valid (FeedbackCreate.rating req) ;;;
  submit_feedback_handler req db.

(* ===================================================================== *)
(** ** reports.py: the SQL of the two reports, evaluated as SQLite does

    database.py configures SQLite.  The parts of its evaluation that the
    reports rely on:
    - [x / 0] is NULL, and a function of NULL is NULL (no error is raised);
    - in [ORDER BY ... DESC] the NULLs come last;
    - [LIMIT n] with a negative [n] keeps every row.
    NULL is [None].  A REAL is a rational here: the binary rounding of a
    double is not modelled. *)

Definition sqlite_div (num : Q) (den : Z) : option Q :=
  if den =? 0 then None else Some (num / inject_Z den)%Q.

(** [ROUND(x, 2)]: to the nearest hundredth, halves away from zero. *)
Definition sqlite_round2 (x : Q) : Q :=
  if Qle_bool 0 x
  then Qmake (Qfloor (x * 100 + (1 # 2))) 100
  else Qopp (Qmake (Qfloor ((- x) * 100 + (1 # 2))) 100).

Definition sqlite_round2_null (x : option Q) : option Q :=
  option_map sqlite_round2 x.

Definition sql_limit {A : Type} (limit : Z) (rows : list A) : list A :=
  if limit <? 0 then rows else firstn (Z.to_nat limit) rows.

(** [ORDER BY]: [before a b] says that [a] may stand before [b]; rows that
    tie keep the order they had (SQL leaves that order open). *)
Fixpoint insert_row {A : Type} (before : A -> A -> bool) (x : A) (l : list A)
  : list A :=
  match l with
  | [] => [x]
  | y :: l' => if before x y then x :: l else y :: insert_row before x l'
  end.

Definition order_by {A : Type} (before : A -> A -> bool) (rows : list A)
  : list A :=
  fold_right (insert_row before) [] rows.

(** [{college_filter}]: [AND e.college_id = :college_id] when the argument
    is truthy (neither [None] nor 0), nothing otherwise. *)
Definition college_filter (college_id : option Z) (e : Event.t) : bool :=
  match college_id with
  | Some c => if c =? 0 then true else Event.college_id e =? c
  | None => true
  end.

(** [events e LEFT JOIN registrations r ON e.id = r.event_id], the rows of
    one event: its registrations, or one row with a NULL registration. *)
Definition left_join_registrations (db : Store) (e : Event.t)
  : list (option Registration.t) :=
  match filter (fun r => Event.id e =? Registration.event_id r)
               (registrations db) with
  | [] => [None]
  | rs => map Some rs
  end.

(** [... LEFT JOIN attendance a ON r.id = a.registration_id] *)
Definition left_join_attendance (db : Store) (r : option Registration.t)
  : list (option Registration.t * option Attendance.t) :=
  match r with
  | None => [(None, None)]
  | Some reg =>
      match filter (fun a => Registration.id reg =? Attendance.registration_id a)
                   (attendance db) with
      | [] => [(r, None)]
      | ats => map (fun a => (r, Some a)) ats
      end
  end.

(** [COUNT(x.id)]: the rows of the group where [x] is not NULL. *)
Definition sql_count {A : Type} (col : list (option A)) : Z :=
  Z.of_nat (List.length (filter is_set col)).

(** [SUM(CASE WHEN a.status = s THEN 1 ELSE 0 END)] over a group. *)
Definition sum_case_status (s : AttendanceStatus)
    (col : list (option Attendance.t)) : Z :=
  fold_right Z.add 0
    (map (fun a =>
            match a with
            | Some att => if AttendanceStatus_eqb (Attendance.status att) s
                          then 1 else 0
            | None => 0
            end) col).

Module PopularityRow.
Record t : Type := mk {
  id : Z;
  title : string;
  event_type : string;
  start_time : datetime;
  max_capacity : Z;
  current_registrations : Z;
  total_registrations : Z;
  registration_percentage : option Q
}.
End PopularityRow.

(** The group of one event ([GROUP BY e.id, ...]: the key holds the primary
    key, so a group is an event) of [get_event_popularity_report]. *)
Definition popularity_row (db : Store) (e : Event.t) : PopularityRow.t :=
  PopularityRow.mk (Event.id e) (Event.title e) (Event.event_type e)
    (Event.start_time e) (Event.max_capacity e) (Event.current_registrations e)
    (sql_count (left_join_registrations db e))
    (sqlite_round2_null
       (sqlite_div (inject_Z (Event.current_registrations e) * 100)
                   (Event.max_capacity e))).

(** [ORDER BY total_registrations DESC, e.current_registrations DESC] *)
Definition popularity_before (a b : PopularityRow.t) : bool :=
  (PopularityRow.total_registrations a >? PopularityRow.total_registrations b)
  || ((PopularityRow.total_registrations a =? PopularityRow.total_registrations b)
      && (PopularityRow.current_registrations a
          >=? PopularityRow.current_registrations b)).

Definition popularity_scope (college_id : option Z) (e : Event.t) : bool :=
  EventStatus_eqb (Event.status e) EventActive && college_filter college_id e.

(** The query before [LIMIT]. *)
Definition popularity_ranking (db : Store) (college_id : option Z)
  : list PopularityRow.t :=
  order_by popularity_before
    (map (popularity_row db) (filter (popularity_scope college_id) (events db))).

(** [ReportGenerator.get_event_popularity_report] *)
Definition get_event_popularity_report
    (db : Store) (college_id : option Z) (limit : Z) : list PopularityRow.t :=
  sql_limit limit (popularity_ranking db college_id).

Module AttendanceSummaryRow.
Record t : Type := mk {
  event_id : Z;
  title : string;
  event_type : string;
  start_time : datetime;
  max_capacity : Z;
  current_registrations : Z;
  total_attendance_records : Z;
  present_count : Z;
  late_count : Z;
  absent_count : Z;
  attendance_percentage : option Q
}.
End AttendanceSummaryRow.

(** The joined rows of one event in [get_attendance_summary_report]. *)
Definition attendance_join (db : Store) (e : Event.t)
  : list (option Registration.t * option Attendance.t) :=
  flat_map (left_join_attendance db) (left_join_registrations db e).

Definition attendance_summary_row (db : Store) (e : Event.t)
  : AttendanceSummaryRow.t :=
  let col := map snd (attendance_join db e) in
  let present := sum_case_status Present col in
  let late := sum_case_status Late col in
  AttendanceSummaryRow.mk (Event.id e) (Event.title e) (Event.event_type e)
    (Event.start_time e) (Event.max_capacity e) (Event.current_registrations e)
    (sql_count col) present late (sum_case_status Absent col)
    (sqlite_round2_null
       (sqlite_div (inject_Z (present + late) * 100)
                   (Event.current_registrations e))).

(** [ORDER BY attendance_percentage DESC] *)
Definition attendance_before (a b : AttendanceSummaryRow.t) : bool :=
  match AttendanceSummaryRow.attendance_percentage a,
        AttendanceSummaryRow.attendance_percentage b with
  | Some x, Some y => Qle_bool y x
  | Some _, None => true
  | None, Some _ => false
  | None, None => true
  end.

Definition attendance_scope (college_id : option Z) (e : Event.t) : bool :=
  (EventStatus_eqb (Event.status e) EventActive
   || EventStatus_eqb (Event.status e) EventCompleted)
  && college_filter college_id e.

(** [ReportGenerator.get_attendance_summary_report] *)
Definition get_attendance_summary_report (db : Store) (college_id : option Z)
  : list AttendanceSummaryRow.t :=
  order_by attendance_before
    (map (attendance_summary_row db)
         (filter (attendance_scope college_id) (events db))).

(* ===================================================================== *)
(** ** The preconditions of [register], as the specification lists them *)

Inductive Precondition : Type :=
| StudentExists
| EventExists
| EventIsActive
| EventInFuture
| NoDuplicate
| HasCapacity.

(** The order in which the specification says they are checked. *)
Definition register_preconditions : list Precondition :=
  [StudentExists; EventExists; EventIsActive; EventInFuture; NoDuplicate;
   HasCapacity].

(** A registration row of the pair, whatever its status. *)
Definition registered_pair (sid eid : Z) (r : Registration.t) : bool :=
  (Registration.student_id r =? sid) && (Registration.event_id r =? eid).

Definition precondition_holds
    (now : datetime) (req : RegistrationCreate.t) (db : Store)
    (p : Precondition) : bool :=
  let sid := RegistrationCreate.student_id req in
  let eid := RegistrationCreate.event_id req in
  let on_event (f : Event.t -> bool) :=
    match get_event_by_id db eid with
    | Some e => f e
    | None => false
    end in
  match p with
  | StudentExists => existsb (fun s => Student.id s =? sid) (students db)
  | EventExists => existsb (fun e => Event.id e =? eid) (events db)
  | EventIsActive =>
      on_event (fun e => EventStatus_eqb (Event.status e) EventActive)
  | EventInFuture => on_event (fun e => now <? Event.start_time e)
  | NoDuplicate => negb (existsb (registered_pair sid eid) (registrations db))
  | HasCapacity =>
      on_event (fun e => Event.current_registrations e <? Event.max_capacity e)
  end.

(** The failure of each precondition, as main.py raises it. *)
Definition register_error (p : Precondition) : error :=
  match p with
  | StudentExists => HTTPException 404 "Student not found"
  | EventExists => HTTPException 404 "Event not found"
  | EventIsActive => HTTPException 400 "Event is not active for registration"
  | EventInFuture => HTTPException 400 "Cannot register for past events"
  | NoDuplicate => HTTPException 400 "Student already registered for this event"
  | HasCapacity => HTTPException 400 "Event is at full capacity"
  end.

Definition first_failing
    (now : datetime) (req : RegistrationCreate.t) (db : Store)
  : option Precondition :=
  find (fun p => negb (precondition_holds now req db p)) register_preconditions.

(** The database and the response of a registration that passed its checks:
    one new row with status [Registered], the counter of the event one
    higher, everything else as it was. *)
Definition registered_as
    (req : RegistrationCreate.t) (db : Store) (event : Event.t)
    (out : Store * Registration.t) : Prop :=
  let sid := RegistrationCreate.student_id req in
  let eid := RegistrationCreate.event_id req in
  let (db', r) := out in
  Registration.status r = Registered
  /\ Registration.student_id r = sid
  /\ Registration.event_id r = eid
  /\ registrations db' = registrations db ++ [r]
  /\ get_event_by_id db' eid
     = Some (Event.set_current_registrations
               (Event.current_registrations event + 1) event)
  /\ (forall i, i <> eid -> get_event_by_id db' i = get_event_by_id db i)
  /\ List.length (events db') = List.length (events db)
  /\ students db' = students db
  /\ attendance db' = attendance db
  /\ feedback db' = feedback db.

(* ===================================================================== *)
(** ** Sequences of register and cancel calls; the capacity counter *)

Inductive Operation : Type :=
| OpRegister (now : datetime) (student_id event_id : Z)
| OpCancel (registration_id : Z).

(** One call: whether it succeeded, and the database after it. *)
Definition apply_operation (op : Operation) (db : Store) : bool * Store :=
  match op with
  | OpRegister now sid eid =>
      let r := register_student now (RegistrationCreate.mk sid eid) db in
      (succeeded r, db_after db r)
  | OpCancel rid =>
      let r := cancel_registration rid db in
      (succeeded r, db_after db r)
  end.

Fixpoint run_operations (ops : list Operation) (db : Store) : Store :=
  match ops with
  | [] => db
  | op :: ops' => run_operations ops' (snd (apply_operation op db))
  end.

Fixpoint all_succeed (ops : list Operation) (db : Store) : bool :=
  match ops with
  | [] => true
  | op :: ops' =>
      fst (apply_operation op db)
      && all_succeed ops' (snd (apply_operation op db))
  end.

Definition is_register (eid : Z) (op : Operation) : bool :=
  match op with
  | OpRegister _ _ e => e =? eid
  | OpCancel _ => false
  end.

(** The cancel calls of a sequence that hit a registration of the event. *)
Fixpoint cancellations_of (eid : Z) (ops : list Operation) (db : Store) : Z :=
  match ops with
  | [] => 0
  | op :: ops' =>
      (match op with
       | OpCancel rid =>
           match get_registration_by_id db rid with
           | Some r => if Registration.event_id r =? eid then 1 else 0
           | None => 0
           end
       | OpRegister _ _ _ => 0
       end)
      + cancellations_of eid ops' (snd (apply_operation op db))
  end.

Definition registrations_of (eid : Z) (ops : list Operation) : Z :=
  Z.of_nat (List.length (filter (is_register eid) ops)).

(** A live registration of the event: a row whose status is not cancelled. *)
Definition is_live (eid : Z) (r : Registration.t) : bool :=
  (Registration.event_id r =? eid)
  && negb (RegistrationStatus_eqb (Registration.status r) Cancelled).

Definition live_registrations (db : Store) (eid : Z) : Z :=
  Z.of_nat (List.length (filter (is_live eid) (registrations db))).

Definition counter_of (db : Store) (eid : Z) : option Z :=
  option_map Event.current_registrations (get_event_by_id db eid).

(** [0 <= current_registrations <= max_capacity], the check constraints of
    the events table. *)
Definition counter_bounded (db : Store) : Prop :=
  forall e, In e (events db) ->
    0 <= Event.current_registrations e <= Event.max_capacity e.

(** The counter of every event is the number of its live registrations. *)
Definition counter_exact (db : Store) : Prop :=
  forall e, In e (events db) ->
    Event.current_registrations e = live_registrations db (Event.id e).

(** The primary key of the registrations table. *)
Definition registration_keys_unique (db : Store) : Prop :=
  NoDup (map Registration.id (registrations db)).

(** The primary key of the events table. *)
Definition event_keys_unique (db : Store) : Prop :=
  NoDup (map Event.id (events db)).

(** What the calls are meant to keep: the counter exact and within its
    bounds, on tables with distinct primary keys. *)
Definition counter_invariant (db : Store) : Prop :=
  counter_exact db /\ counter_bounded db
  /\ event_keys_unique db /\ registration_keys_unique db.

(** A cancel call whose registration is already cancelled. *)
Definition cancels_cancelled (op : Operation) (db : Store) : bool :=
  match op with
  | OpCancel rid =>
      match get_registration_by_id db rid with
      | Some r => RegistrationStatus_eqb (Registration.status r) Cancelled
      | None => false
      end
  | OpRegister _ _ _ => false
  end.

Fixpoint no_repeated_cancel (ops : list Operation) (db : Store) : bool :=
  match ops with
  | [] => true
  | op :: ops' =>
      negb (cancels_cancelled op db)
      && no_repeated_cancel ops' (snd (apply_operation op db))
  end.

(** [n] cancel calls on the same registration, each one required to
    succeed. *)
Fixpoint cancel_times (n : nat) (registration_id : Z) (db : Store)
  : result Store :=
  match n with
  | O => Ok db
  | S n' =>
      out <- cancel_registration registration_id db ;;
      cancel_times n' registration_id (fst out)
  end.

(** An active event of college 1 that starts at time 1000, and a student. *)
Definition sample_event (i max_capacity current_registrations : Z) : Event.t :=
  Event.mk i 1 "Tech talk" "seminar" 1000 2000 max_capacity
           current_registrations EventActive.

Definition cancel_message : string := "Registration cancelled successfully".

(** The counter after one cancel call: one less, but not below zero. *)
Definition decremented (c : Z) : Z := if c >? 0 then c - 1 else c.

Definition sample_student (i : Z) : Student.t :=
  Student.mk i 1 "S-001" "Student" "student@example.org".

(** Two students, one event with two seats, nobody registered. *)
Definition two_seat_db : Store :=
  mkStore [sample_student 1; sample_student 2] [sample_event 1 2 0] [] [] [].

(** Both students register, then the first registration is cancelled
    twice. *)
Definition double_cancel_calls : list Operation :=
  [OpRegister 0 1 1; OpRegister 0 2 1; OpCancel 1; OpCancel 1].

(** One student registers, and the registration is cancelled twice. *)
Definition cancel_at_zero_calls : list Operation :=
  [OpRegister 0 1 1; OpCancel 1; OpCancel 1].

(** One student registers and cancels. *)
Definition register_then_cancel : list Operation :=
  [OpRegister 0 1 1; OpCancel 1].

(* ===================================================================== *)
(** ** Two register calls that overlap

    Each call has its own session.  A call first runs its queries and
    checks ([register_student_session]) and later commits
    ([register_student_commit]); between the two, the other call may run. *)

Inductive RegisterCall : Type :=
| NotStarted (now : datetime) (req : RegistrationCreate.t)
| ReadyToCommit (p : PendingRegistration)
| Finished (r : result Registration.t).

Definition call_step (c : RegisterCall) (db : Store) : RegisterCall * Store :=
  match c with
  | NotStarted now req =>
      match register_student_session now req db with
      | Ok p => (ReadyToCommit p, db)
      | Raise e => (Finished (Raise e), db)
      end
  | ReadyToCommit p =>
      let (db', r) := register_student_commit p db in
      (Finished (Ok r), db')
  | Finished _ => (c, db)
  end.

Inductive Turn : Type := First | Second.

Record Race : Type := mkRace {
  race_db : Store;
  first_call : RegisterCall;
  second_call : RegisterCall
}.

Definition race_step (t : Turn) (s : Race) : Race :=
  match t with
  | First =>
      let (c, db) := call_step (first_call s) (race_db s) in
      mkRace db c (second_call s)
  | Second =>
      let (c, db) := call_step (second_call s) (race_db s) in
      mkRace db (first_call s) c
  end.

Fixpoint run_schedule (sched : list Turn) (s : Race) : Race :=
  match sched with
  | [] => s
  | t :: sched' => run_schedule sched' (race_step t s)
  end.

(** The orders in which the two steps of each call can run. *)
Definition interleavings : list (list Turn) :=
  [[First; First; Second; Second];
   [First; Second; First; Second];
   [First; Second; Second; First];
   [Second; First; First; Second];
   [Second; First; Second; First];
   [Second; Second; First; First]].

(** The orders in which one call commits before the other starts. *)
Definition serial_schedules : list (list Turn) :=
  [[First; First; Second; Second]; [Second; Second; First; First]].

Definition capacity_error : error :=
  HTTPException 400 "Event is at full capacity".

(** Exactly one of the two calls succeeded, and the other one failed
    because the event is full. *)
Definition one_success_one_full (s : Race) : bool :=
  match first_call s, second_call s with
  | Finished (Ok _), Finished (Raise e) => error_eqb e capacity_error
  | Finished (Raise e), Finished (Ok _) => error_eqb e capacity_error
  | _, _ => false
  end.

(** The race property of the specification as a test: after every
    interleaving, exactly one success and one full event. *)
Definition exclusive_under_every_interleaving (s : Race) : bool :=
  forallb (fun sched => one_success_one_full (run_schedule sched s))
          interleavings.

Definition both_succeeded (s : Race) : bool :=
  match first_call s, second_call s with
  | Finished (Ok _), Finished (Ok _) => true
  | _, _ => false
  end.

Definition start_race (db : Store) (now1 : datetime) (req1 : RegistrationCreate.t)
    (now2 : datetime) (req2 : RegistrationCreate.t) : Race :=
  mkRace db (NotStarted now1 req1) (NotStarted now2 req2).

(** Two students, one event with a single seat, nobody registered. *)
Definition last_seat_db : Store :=
  mkStore [sample_student 1; sample_student 2] [sample_event 1 1 0] [] [] [].

Definition last_seat_race : Race :=
  start_race last_seat_db 0 (RegistrationCreate.mk 1 1)
                          0 (RegistrationCreate.mk 2 1).

(* ===================================================================== *)
(** ** Attendance and feedback: the conditions of the specification *)

(** No attendance row has a check-out without a check-in. *)
Definition checked_out_after_check_in (db : Store) : Prop :=
  forall a, In a (attendance db) ->
    is_set (Attendance.check_out_time a) = true ->
    is_set (Attendance.check_in_time a) = true.

(** [registration_id ... unique=True] on the attendance table. *)
Definition attendance_unique (db : Store) : Prop :=
  NoDup (map Attendance.registration_id (attendance db)).

Definition attended (s : AttendanceStatus) : bool :=
  AttendanceStatus_eqb s Present || AttendanceStatus_eqb s Late.

Definition has_feedback (db : Store) (rid : Z) : bool :=
  existsb (fun f => Feedback.registration_id f =? rid) (feedback db).

(** The admission rule of the feedback gate, in the words of the
    specification. *)
Definition feedback_admitted (req : FeedbackCreate.t) (db : Store) : Prop :=
  let rid := FeedbackCreate.registration_id req in
  (exists r, get_registration_by_id db rid = Some r)
  /\ (exists a, get_attendance_of db rid = Some a
                /\ attended (Attendance.status a) = true)
  /\ has_feedback db rid = false
  /\ 1 <= FeedbackCreate.rating req <= 5.

Definition forbidden_error : error :=
  HTTPException 400 "Only students who attended the event can submit feedback".

Definition duplicate_feedback_error : error :=
  HTTPException 400 "Feedback already submitted for this event".

Definition invalid_rating_error : error :=
  ValueError "Rating must be between 1 and 5".

(* ===================================================================== *)
(** ** Reports: orders and the example of the specification *)

(** [a] ranks at least as high as [b]: more registrations, or as many and
    at least as many current registrations. *)
Definition popularity_order (a b : PopularityRow.t) : Prop :=
  PopularityRow.total_registrations a > PopularityRow.total_registrations b
  \/ (PopularityRow.total_registrations a = PopularityRow.total_registrations b
      /\ PopularityRow.current_registrations a
         >= PopularityRow.current_registrations b).

(** [n] registrations of the event, by the students 1 to [n], with keys
    from [first_key]. *)
Definition registrations_for (eid first_key : Z) (n : nat)
  : list Registration.t :=
  map (fun k => Registration.mk (first_key + Z.of_nat k) (1 + Z.of_nat k)
                                eid Registered)
      (seq 0 n).

(** Three events of one college with 5 of 10, 10 of 10 and 0 of 5 seats
    taken. *)
Definition three_events_db : Store :=
  mkStore (map (fun k => sample_student (1 + Z.of_nat k)) (seq 0 10))
          [sample_event 1 10 5; sample_event 2 10 10; sample_event 3 5 0]
          (registrations_for 1 1 5 ++ registrations_for 2 6 10)
          [] [].

Definition seats (r : PopularityRow.t) : Z * Z :=
  (PopularityRow.current_registrations r, PopularityRow.max_capacity r).

(* ===================================================================== *)
(** ** main.py: cancelling an event *)

Definition Event_set_status (s : EventStatus) (e : Event.t) : Event.t :=
  Event.mk (Event.id e) (Event.college_id e) (Event.title e)
           (Event.event_type e) (Event.start_time e) (Event.end_time e)
           (Event.max_capacity e) (Event.current_registrations e) s.

(** [DELETE /events/{event_id}] *)
Definition cancel_event (event_id : Z) (db : Store) : result (Store * string) :=
  event <- first_or (get_event_by_id db event_id)
                    (HTTPException 404 "Event not found") ;;
  Ok (with_events
        (update_where (fun e => Event.id e =? Event.id event)
                      (Event_set_status EventCancelled) (events db)) db,
      "Event cancelled successfully").

(* ===================================================================== *)
(** ** Requests in sequence *)

(** The requests that write to the registration, attendance and feedback
    tables, and the cancellation of an event. *)
Inductive Request : Type :=
| PostRegister (now : datetime) (body : RegistrationCreate.t)
| DeleteRegister (registration_id : Z)
| PostAttendance (now : datetime) (body : AttendanceCreate.t)
| PostFeedback (body : FeedbackCreate.t)
| DeleteEvent (event_id : Z).

(** The database after one request, served or rejected. *)
Definition serve (rq : Request) (db : Store) : Store :=
  match rq with
  | PostRegister now body => db_after db (register_student now body db)
  | DeleteRegister rid => db_after db (cancel_registration rid db)
  | PostAttendance now body => db_after db (mark_attendance now body db)
  | PostFeedback body => db_after db (submit_feedback body db)
  | DeleteEvent eid => db_after db (cancel_event eid db)
  end.

Fixpoint serve_all (rqs : list Request) (db : Store) : Store :=
  match rqs with
  | [] => db
  | rq :: rqs' => serve_all rqs' (serve rq db)
  end.

(** The (student, event) pair of a registration row. *)
Definition pair_of (r : Registration.t) : Z * Z :=
  (Registration.student_id r, Registration.event_id r).

(** What the registrations table is meant to satisfy: distinct primary
    keys, one row per (student, event) pair, and every row referring to a
    student and an event that exist. *)
Definition registrations_consistent (db : Store) : Prop :=
  NoDup (map Registration.id (registrations db))
  /\ NoDup (map pair_of (registrations db))
  /\ (forall r, In r (registrations db) ->
        is_set (get_student_by_id db (Registration.student_id r)) = true
        /\ is_set (get_event_by_id db (Registration.event_id r)) = true).

(** What the attendance table is meant to satisfy: distinct primary keys,
    one row per registration, every row referring to a registration that
    exists; and, as the handlers fill it, every row checked in with status
    present or late. *)
Definition attendance_consistent (db : Store) : Prop :=
  NoDup (map Attendance.id (attendance db))
  /\ attendance_unique db
  /\ (forall a, In a (attendance db) ->
        is_set (get_registration_by_id db (Attendance.registration_id a)) = true
        /\ is_set (Attendance.check_in_time a) = true
        /\ attended (Attendance.status a) = true).

(** What the feedback table is meant to satisfy: distinct primary keys, one
    row per registration, ratings from 1 to 5, and every row belonging to a
    registration whose attendance is present or late. *)
Definition feedback_consistent (db : Store) : Prop :=
  NoDup (map Feedback.id (feedback db))
  /\ NoDup (map Feedback.registration_id (feedback db))
  /\ (forall f, In f (feedback db) ->
        1 <= Feedback.rating f <= 5
        /\ is_set (get_registration_by_id db (Feedback.registration_id f)) = true
        /\ exists a, In a (attendance db)
                     /\ Attendance.registration_id a = Feedback.registration_id f
                     /\ attended (Attendance.status a) = true).

(** A database with students and events and nothing else. *)
Definition fresh_db (sts : list Student.t) (evs : list Event.t) : Store :=
  mkStore sts evs [] [] [].

(** What the caller of a handler sees: the returned entity or the error. *)
Definition response {A : Type} (r : result (Store * A)) : result A :=
  match r with
  | Ok (_, a) => Ok a
  | Raise e => Raise e
  end.

Definition not_registered_error : error :=
  HTTPException 400 "Student is not registered for this event".

Definition already_checked_in_error : error :=
  HTTPException 400 "Student already checked in".

Definition already_checked_out_error : error :=
  HTTPException 400 "Student already checked out".

(** A student registers, checks in and out, gives feedback, cancels and
    tries to register again; then the event is cancelled. *)
Definition sample_requests : list Request :=
  [PostRegister 0 (RegistrationCreate.mk 1 1);
   PostAttendance 5 (AttendanceCreate.mk 1 "check_in");
   PostAttendance 6 (AttendanceCreate.mk 1 "check_out");
   PostFeedback (FeedbackCreate.mk 1 5 None);
   DeleteRegister 1;
   PostRegister 0 (RegistrationCreate.mk 1 1);
   DeleteEvent 1].

(* ===================================================================== *)
(** ** main.py and schemas.py: creating events and students

    The colleges table is read by these handlers only; it is passed to them
    beside the database. *)

From Stdlib Require Import DecimalString Lqa.

Module College.
Record t : Type := mk {
  id : Z;
  name : string
}.
End College.

Definition get_college_by_id (colleges : list College.t) (i : Z)
  : option College.t :=
  find (fun c => College.id c =? i) colleges.

Module EventCreate.
Record t : Type := mk {
  college_id : Z;
  title : string;
  event_type : string;
  start_time : datetime;
  end_time : datetime;
  max_capacity : Z
}.
End EventCreate.

Module StudentCreate.
Record t : Type := mk {
  college_id : Z;
  student_id : string;
  name : string;
  email : string
}.
End StudentCreate.

(** [EventBase.end_time_must_be_after_start_time]; [start_time] is the
    entry of [values], present when the start time was itself valid. *)
Definition end_time_must_be_after_start_time
    (v : datetime) (start_time : option datetime) : result datetime :=
  match start_time with
  | Some s =>
      if v <=? s then Raise (ValueError "End time must be after start time")
      else Ok v
  | None => Ok v
  end.

(** [EventBase.max_capacity_must_be_positive] *)
Definition max_capacity_must_be_positive (v : Z) : result Z :=
  if v <=? 0 then Raise (ValueError "Max capacity must be positive") else Ok v.

Definition errors_of {A : Type} (r : result A) : list error :=
  match r with
  | Ok _ => []
  | Raise e => [e]
  end.

(** The errors that the validation of an [EventCreate] body collects, in the
    order of the fields. *)
Definition EventCreate_errors (event : EventCreate.t) : list error :=
  errors_of (end_time_must_be_after_start_time
               (EventCreate.end_time event)
               (Some (EventCreate.start_time event)))
  ++ errors_of (max_capacity_must_be_positive (EventCreate.max_capacity event)).

(** [POST /events/], after the request body was validated.  The new row
    takes the column defaults: no registrations, status active. *)
Definition create_event_handler
    (colleges : list College.t) (event : EventCreate.t) (db : Store)
  : result (Store * Event.t) :=
  college <- first_or (get_college_by_id colleges (EventCreate.college_id event))
                      (HTTPException 404 "College not found") ;;
  raise_if (EventCreate.end_time event <=? EventCreate.start_time event)
           (HTTPException 400 "End time must be after start time") ;;;
  let db_event :=
    Event.mk (next_id (map Event.id (events db)))
             (EventCreate.college_id event) (EventCreate.title event)
             (EventCreate.event_type event) (EventCreate.start_time event)
             (EventCreate.end_time event) (EventCreate.max_capacity event)
             0 EventActive in
  Ok (with_events (events db ++ [db_event]) db, db_event).

(** [POST /events/]: a body with validation errors does not reach the
    handler. *)
Definition create_event
    (colleges : list College.t) (event : EventCreate.t) (db : Store)
  : list error + result (Store * Event.t) :=
  match EventCreate_errors event with
  | [] => inr (create_event_handler colleges event db)
  | errors => inl errors
  end.


Definition with_students (sts : list Student.t) (db : Store) : Store :=
  mkStore sts (events db) (registrations db) (attendance db) (feedback db).

(** The student of a college with a given student id, as both handlers
    below look for it. *)
Definition get_student_of_college (db : Store) (college_id : Z)
    (student_id : string) : option Student.t :=
  find (fun s => (Student.college_id s =? college_id)
                 && String.eqb (Student.student_id s) student_id)
       (students db).

(** [POST /students/], after the request body was validated. *)
Definition create_student
    (colleges : list College.t) (student : StudentCreate.t) (db : Store)
  : result (Store * Student.t) :=
  college <- first_or (get_college_by_id colleges
                         (StudentCreate.college_id student))
                      (HTTPException 404 "College not found") ;;
  let existing_student :=
    get_student_of_college db (StudentCreate.college_id student)
                           (StudentCreate.student_id student) in
  raise_if (is_set existing_student)
           (HTTPException 400 "Student ID already exists in this college") ;;;
  let db_student :=
    Student.mk (next_id (map Student.id (students db)))
               (StudentCreate.college_id student)
               (StudentCreate.student_id student)
               (StudentCreate.name student) (StudentCreate.email student) in
  Ok (with_students (students db ++ [db_student]) db, db_student).

(** The key of a student within the colleges: (college, student id). *)
Definition student_key (s : Student.t) : Z * string :=
  (Student.college_id s, Student.student_id s).

Definition students_consistent (db : Store) : Prop :=
  NoDup (map Student.id (students db))
  /\ NoDup (map student_key (students db)).

(** *** The bulk creation of students *)

Definition show_nat (n : nat) : string :=
  NilEmpty.string_of_uint (Nat.to_uint n).

(** The keys of [student_data.dict()]: the fields of [StudentBase]. *)
Definition StudentCreate_dict_keys : list string :=
  ["college_id"; "student_id"; "name"; "email"; "phone"].

(** A call [f(k=v, **d)] raises [TypeError] when [d] has the key [k]. *)
Definition keyword_given_twice (keyword : string) (d_keys : list string)
  : bool :=
  existsb (String.eqb keyword) d_keys.

Record BulkResult : Type := mkBulkResult {
  created_count : nat;
  error_count : nat;
  created_students : list Student.t;
  bulk_errors : list string
}.

Section BulkCreate.

(** The text of the [TypeError] of a keyword given twice; it differs
    between Python versions. *)
Variable type_error_text : string.

(** The loop of [bulk_create_students] from row [i] on: the students added
    to the session and the error lines.  The duplicate query reads the
    database, which the session has not been flushed to. *)
Fixpoint bulk_rows (college_id : Z) (db : Store) (i : nat)
    (students : list StudentCreate.t)
  : list StudentCreate.t * list string :=
  match students with
  | [] => ([], [])
  | student_data :: rest =>
      let (created, errors) := bulk_rows college_id db (S i) rest in
      let existing :=
        get_student_of_college db college_id
                               (StudentCreate.student_id student_data) in
      if is_set existing then
        (created,
         ("Row " ++ show_nat (i + 1) ++ ": Student ID "
          ++ StudentCreate.student_id student_data ++ " already exists")%string
         :: errors)
      else if keyword_given_twice "college_id" StudentCreate_dict_keys then
        (created,
         ("Row " ++ show_nat (i + 1) ++ ": " ++ type_error_text)%string
         :: errors)
      else (student_data :: created, errors)
  end.

(** The commit of the students of the session: each takes the next key. *)
Fixpoint insert_students (college_id : Z) (created : list StudentCreate.t)
    (db : Store) : Store * list Student.t :=
  match created with
  | [] => (db, [])
  | c :: rest =>
      let s := Student.mk (next_id (map Student.id (students db))) college_id
                          (StudentCreate.student_id c) (StudentCreate.name c)
                          (StudentCreate.email c) in
      let (db', ss) := insert_students college_id rest
                         (with_students (students db ++ [s]) db) in
      (db', s :: ss)
  end.

(** [POST /bulk/students/] *)
Definition bulk_create_students
    (colleges : list College.t) (college_id : Z)
    (students : list StudentCreate.t) (db : Store)
  : result (Store * BulkResult) :=
  college <- first_or (get_college_by_id colleges college_id)
                      (HTTPException 404 "College not found") ;;
  let (created, errors) := bulk_rows college_id db 0 students in
  let (db', created_rows) :=
    match created with
    | [] => (db, [])
    | _ => insert_students college_id created db
    end in
  Ok (db', mkBulkResult (List.length created_rows) (List.length errors)
                        created_rows errors).

End BulkCreate.

Definition sample_colleges : list College.t := [College.mk 1 "College"].

(** A workshop of college 1 from 5000 to 6000 with three seats. *)
Definition sample_event_body : EventCreate.t :=
  EventCreate.mk 1 "Hackathon" "workshop" 5000 6000 3.

(* ===================================================================== *)
(** ** reports.py: the feedback summary *)

Module FeedbackSummaryRow.
Record t : Type := mk {
  event_id : Z;
  title : string;
  event_type : string;
  start_time : datetime;
  total_feedback : Z;
  average_rating : option Q;
  excellent_count : Z;
  good_count : Z;
  average_count : Z;
  poor_count : Z;
  terrible_count : Z
}.
End FeedbackSummaryRow.

(** [... LEFT JOIN feedback f ON r.id = f.registration_id], the feedback
    column of the rows of one registration. *)
Definition left_join_feedback (db : Store) (r : option Registration.t)
  : list (option Feedback.t) :=
  match r with
  | None => [None]
  | Some reg =>
      match filter (fun f => Registration.id reg =? Feedback.registration_id f)
                   (feedback db) with
      | [] => [None]
      | fs => map Some fs
      end
  end.

(** The feedback column of the joined rows of one event. *)
Definition feedback_join (db : Store) (e : Event.t) : list (option Feedback.t) :=
  flat_map (left_join_feedback db) (left_join_registrations db e).

(** [SUM(CASE WHEN f.rating = k THEN 1 ELSE 0 END)] over a group. *)
Definition sum_case_rating (k : Z) (col : list (option Feedback.t)) : Z :=
  fold_right Z.add 0
    (map (fun f =>
            match f with
            | Some fb => if Feedback.rating fb =? k then 1 else 0
            | None => 0
            end) col).

(** The sum of the ratings that are not NULL. *)
Definition sum_rating (col : list (option Feedback.t)) : Z :=
  fold_right Z.add 0
    (map (fun f => match f with Some fb => Feedback.rating fb | None => 0 end)
         col).

(** [AVG(f.rating)]: the mean of the ratings that are not NULL, NULL when
    there is none. *)
Definition avg_rating (col : list (option Feedback.t)) : option Q :=
  if sql_count col =? 0 then None
  else Some (inject_Z (sum_rating col) / inject_Z (sql_count col))%Q.

Definition feedback_summary_row (db : Store) (e : Event.t)
  : FeedbackSummaryRow.t :=
  let col := feedback_join db e in
  FeedbackSummaryRow.mk (Event.id e) (Event.title e) (Event.event_type e)
    (Event.start_time e) (sql_count col)
    (sqlite_round2_null (avg_rating col))
    (sum_case_rating 5 col) (sum_case_rating 4 col) (sum_case_rating 3 col)
    (sum_case_rating 2 col) (sum_case_rating 1 col).

(** [ORDER BY average_rating DESC] *)
Definition feedback_before (a b : FeedbackSummaryRow.t) : bool :=
  match FeedbackSummaryRow.average_rating a,
        FeedbackSummaryRow.average_rating b with
  | Some x, Some y => Qle_bool y x
  | Some _, None => true
  | None, Some _ => false
  | None, None => true
  end.

(** [ReportGenerator.get_feedback_summary_report], with
    [HAVING total_feedback > 0]. *)
Definition get_feedback_summary_report (db : Store) (college_id : option Z)
  : list FeedbackSummaryRow.t :=
  order_by feedback_before
    (filter (fun row => FeedbackSummaryRow.total_feedback row >? 0)
       (map (feedback_summary_row db)
            (filter (attendance_scope college_id) (events db)))).

(** Two students of one event, both checked in, with ratings 5 and 4. *)
Definition rated_db : Store :=
  serve_all
    [PostRegister 0 (RegistrationCreate.mk 1 1);
     PostRegister 0 (RegistrationCreate.mk 2 1);
     PostAttendance 5 (AttendanceCreate.mk 1 "check_in");
     PostAttendance 5 (AttendanceCreate.mk 2 "check_in");
     PostFeedback (FeedbackCreate.mk 1 5 None);
     PostFeedback (FeedbackCreate.mk 2 4 None)] two_seat_db.

(* ===================================================================== *)
(** ** reports.py: the breakdown of events by type *)

Module EventTypeRow.
Record t : Type := mk {
  event_type : string;
  total_events : Z;
  total_registrations : Z;
  avg_registrations : option Q;
  avg_registration_percentage : option Q
}.
End EventTypeRow.

(** [AVG(x)]: the mean of the values that are not NULL, NULL when there is
    none. *)
Definition sql_avg (vals : list (option Q)) : option Q :=
  match filter is_set vals with
  | [] => None
  | present =>
      Some (fold_right Qplus 0%Q
              (map (fun v => match v with Some q => q | None => 0%Q end) present)
            / inject_Z (Z.of_nat (List.length present)))%Q
  end.

(** The keys of [GROUP BY]: each value once, in the order of its first
    row. *)
Fixpoint distinct (keys : list string) : list string :=
  match keys with
  | [] => []
  | k :: rest => k :: filter (fun k' => negb (String.eqb k k')) (distinct rest)
  end.

Definition events_of_type (ty : string) (evs : list Event.t) : list Event.t :=
  filter (fun e => String.eqb (Event.event_type e) ty) evs.

Definition sum_registrations (evs : list Event.t) : Z :=
  fold_right Z.add 0 (map Event.current_registrations evs).

(** The group of one event type. *)
Definition breakdown_row (evs : list Event.t) (ty : string) : EventTypeRow.t :=
  let group := events_of_type ty evs in
  EventTypeRow.mk ty (Z.of_nat (List.length group)) (sum_registrations group)
    (sql_avg (map (fun e => Some (inject_Z (Event.current_registrations e)))
                  group))
    (sqlite_round2_null
       (sql_avg (map (fun e =>
                        sqlite_div (inject_Z (Event.current_registrations e) * 100)
                                   (Event.max_capacity e)) group))).

(** [ORDER BY total_registrations DESC] *)
Definition breakdown_before (a b : EventTypeRow.t) : bool :=
  EventTypeRow.total_registrations a >=? EventTypeRow.total_registrations b.

(** [ReportGenerator.get_event_type_breakdown] *)
Definition get_event_type_breakdown (db : Store) (college_id : option Z)
  : list EventTypeRow.t :=
  let evs := filter (popularity_scope college_id) (events db) in
  order_by breakdown_before
    (map (breakdown_row evs) (distinct (map Event.event_type evs))).

Definition sum_of {A : Type} (f : A -> Z) (l : list A) : Z :=
  fold_right Z.add 0 (map f l).

(* ===================================================================== *)
(** ** main.py: the event statistics endpoint *)



(** [if n:] for an optional integer: neither [None] nor 0. *)
Definition given_int (o : option Z) : option Z :=
  match o with
  | Some n => if n =? 0 then None else Some n
  | None => None
  end.





Section EventStatistics.

(** The rows of the popularity report come from a textual query, so their
    [start_time] is the value as the driver returns it.  Its comparisons
    with the [datetime] of the request, [e["start_time"] >= start_date] and
    [e["start_time"] <= end_date], are left open here, raising included. *)
Variable start_time_ge : PopularityRow.t -> datetime -> result bool.
Variable start_time_le : PopularityRow.t -> datetime -> result bool.


End EventStatistics.

(* ===================================================================== *)
(** ** main.py: listing registrations *)








(* ===================================================================== *)
(** ** reports.py: the participation of students *)

Module ParticipationRow.
Record t : Type := mk {
  id : Z;
  name : string;
  email : string;
  college_name : string;
  total_registrations : Z;
  total_attendance : Z;
  events_attended : Z;
  attendance_rate : option Q
}.
End ParticipationRow.

(** [COUNT(DISTINCT x)]: the different values of the group that are not
    NULL. *)
Definition count_distinct (col : list (option Z)) : Z :=
  Z.of_nat
    (List.length
       (nodup Z.eq_dec
          (flat_map (fun v => match v with Some z => [z] | None => [] end)
                    col))).

(** [SUM(CASE WHEN a.status IN ('present', 'late') THEN 1 ELSE 0 END)] *)
Definition sum_case_attended (col : list (option Attendance.t)) : Z :=
  fold_right Z.add 0
    (map (fun a =>
            match a with
            | Some att => if attended (Attendance.status att) then 1 else 0
            | None => 0
            end) col).

(** [students s LEFT JOIN registrations r ON s.id = r.student_id], the rows
    of one student. *)
Definition left_join_student_registrations (db : Store) (s : Student.t)
  : list (option Registration.t) :=
  match filter (fun r => Student.id s =? Registration.student_id r)
               (registrations db) with
  | [] => [None]
  | rs => map Some rs
  end.

(** The joined rows of one student in [get_student_participation_report]. *)
Definition participation_join (db : Store) (s : Student.t)
  : list (option Registration.t * option Attendance.t) :=
  flat_map (left_join_attendance db) (left_join_student_registrations db s).

Definition participation_row (db : Store) (s : Student.t) (c : College.t)
  : ParticipationRow.t :=
  let rows := participation_join db s in
  let total_registrations :=
    count_distinct
      (map (fun row => option_map Registration.event_id (fst row)) rows) in
  let events_attended := sum_case_attended (map snd rows) in
  ParticipationRow.mk (Student.id s) (Student.name s) (Student.email s)
    (College.name c) total_registrations
    (count_distinct
       (map (fun row => option_map Attendance.registration_id (snd row)) rows))
    events_attended
    (sqlite_round2_null
       (sqlite_div (inject_Z events_attended * 100) total_registrations)).

(** [ORDER BY events_attended DESC, attendance_rate DESC]; NULL is the
    smallest value. *)
Definition participation_before (a b : ParticipationRow.t) : bool :=
  (ParticipationRow.events_attended a >? ParticipationRow.events_attended b)
  || ((ParticipationRow.events_attended a =? ParticipationRow.events_attended b)
      && match ParticipationRow.attendance_rate a,
               ParticipationRow.attendance_rate b with
         | Some x, Some y => Qle_bool y x
         | Some _, None => true
         | None, Some _ => false
         | None, None => true
         end).

(** [{college_filter}] of this report: [WHERE s.college_id = :college_id]
    when the argument is truthy. *)
Definition student_scope (college_id : option Z) (s : Student.t) : bool :=
  match given_int college_id with
  | Some c => Student.college_id s =? c
  | None => true
  end.

(** [students s JOIN colleges c ON s.college_id = c.id]: the college of the
    student, by its primary key; a student without one is left out. *)
Definition join_college (colleges : list College.t) (s : Student.t)
  : list (Student.t * College.t) :=
  match get_college_by_id colleges (Student.college_id s) with
  | Some c => [(s, c)]
  | None => []
  end.

(** [ReportGenerator.get_student_participation_report]; the students table
    has one group per row, [s.id] being its primary key. *)
Definition get_student_participation_report (db : Store)
    (colleges : list College.t) (college_id : option Z) (limit : Z)
  : list ParticipationRow.t :=
  sql_limit limit
    (order_by participation_before
       (filter (fun row => ParticipationRow.total_registrations row >? 0)
          (map (fun sc => participation_row db (fst sc) (snd sc))
               (flat_map (join_college colleges)
                         (filter (student_scope college_id) (students db)))))).

(** [ReportGenerator.get_top_active_students] *)
Definition get_top_active_students (db : Store) (colleges : list College.t)
    (college_id : option Z) (limit : Z) : list ParticipationRow.t :=
  get_student_participation_report db colleges college_id limit.

(** The registrations of a student, cancelled ones included. *)
Definition registrations_of_student (db : Store) (s : Z)
  : list Registration.t :=
  filter (fun r => s =? Registration.student_id r) (registrations db).

(* ===================================================================== *)
(** ** The integers of the database *)

(** [INTEGER]: SQLite holds signed 64-bit integers.  The driver binds no
    other integer to a statement: it raises [OverflowError] before the
    statement runs, so a lookup by such a key or an insert of such a value
    is answered by that error, not by the handler. *)
Definition sqlite_integer (z : Z) : Prop := - 2 ^ 63 <= z < 2 ^ 63.

(* ===================================================================== *)
(** ** The preconditions of [register], with the duplicate of the
    specification *)

(** "An existing non-cancelled Registration for the pair". *)
Definition live_pair (sid eid : Z) (r : Registration.t) : bool :=
  registered_pair sid eid r
  && negb (RegistrationStatus_eqb (Registration.status r) Cancelled).

(** The preconditions in the words of the specification: they differ from
    [precondition_holds], which follows the queries of [register_student],
    in the duplicate only. *)
Definition precondition_as_specified
    (now : datetime) (req : RegistrationCreate.t) (db : Store)
    (p : Precondition) : bool :=
  match p with
  | NoDuplicate =>
      negb (existsb (live_pair (RegistrationCreate.student_id req)
                               (RegistrationCreate.event_id req))
                    (registrations db))
  | _ => precondition_holds now req db p
  end.

(** Both students register, then the second one cancels. *)
Definition second_student_cancels : list Operation :=
  [OpRegister 0 1 1; OpRegister 0 2 1; OpCancel 2].

(* ===================================================================== *)
(** ** Lemmas on lookups and updates *)

Lemma existsb_find {A : Type} (p : A -> bool) (l : list A) :
  existsb p l = is_set (find p l).
Proof.
  induction l as [|x l IH]; simpl; [reflexivity|].
  destruct (p x); simpl; [reflexivity | exact IH].
Qed.

Lemma find_update_where_same {A : Type} (p : A -> bool) (f : A -> A) l :
  (forall x, p (f x) = p x) ->
  find p (update_where p f l) = option_map f (find p l).
Proof.
  intros Hf. induction l as [|x l IH]; simpl; [reflexivity|].
  destruct (p x) eqn:Hx.
  - rewrite Hf, Hx. reflexivity.
  - rewrite Hx. exact IH.
Qed.

Lemma find_update_where_other {A : Type} (p q : A -> bool) (f : A -> A) l :
  (forall x, p (f x) = p x) ->
  (forall x, q x = true -> p x = false) ->
  find p (update_where q f l) = find p l.
Proof.
  intros Hf Hq. induction l as [|x l IH]; simpl; [reflexivity|].
  destruct (q x) eqn:Hx.
  - rewrite Hf, (Hq x Hx). exact IH.
  - destruct (p x); [reflexivity | exact IH].
Qed.

Lemma update_where_length {A : Type} (p : A -> bool) (f : A -> A) l :
  List.length (update_where p f l) = List.length l.
Proof. unfold update_where. apply length_map. Qed.

Lemma get_event_set_counter_same db evs i v :
  get_event_by_id
    (with_events
       (update_where (fun e => Event.id e =? i)
                     (Event.set_current_registrations v) evs) db) i
  = option_map (Event.set_current_registrations v)
               (find (fun e => Event.id e =? i) evs).
Proof.
  unfold get_event_by_id; simpl.
  apply (find_update_where_same (fun e => Event.id e =? i)).
  reflexivity.
Qed.

Lemma get_event_set_counter_other db evs i j v :
  j <> i ->
  get_event_by_id
    (with_events
       (update_where (fun e => Event.id e =? i)
                     (Event.set_current_registrations v) evs) db) j
  = find (fun e => Event.id e =? j) evs.
Proof.
  intros Hji. unfold get_event_by_id; simpl.
  apply find_update_where_other; [reflexivity|].
  intros x Hx. apply Z.eqb_eq in Hx. apply Z.eqb_neq. congruence.
Qed.

Lemma find_some_key {A : Type} (key : A -> Z) (i : Z) l x :
  find (fun y => key y =? i) l = Some x -> key x = i.
Proof.
  intros H. apply find_some in H. destruct H as [_ H].
  now apply Z.eqb_eq in H.
Qed.

(** A registration that passes every check of [register_student_session]. *)
Lemma register_student_ok now req db student event :
  get_student_by_id db (RegistrationCreate.student_id req) = Some student ->
  get_event_by_id db (RegistrationCreate.event_id req) = Some event ->
  Event.status event = EventActive ->
  now < Event.start_time event ->
  find (registered_pair (RegistrationCreate.student_id req)
                        (RegistrationCreate.event_id req))
       (registrations db) = None ->
  Event.current_registrations event < Event.max_capacity event ->
  register_student now req db
  = Ok (register_student_commit
          (mkPending (RegistrationCreate.student_id req)
                     (RegistrationCreate.event_id req)
                     (Event.current_registrations event + 1)) db).
Proof.
  intros Hs He Hact Hfut Hdup Hcap.
  unfold register_student, register_student_session.
  rewrite Hs, He; simpl. rewrite Hact; simpl.
  replace (Event.start_time event <=? now) with false
    by (symmetry; apply Z.leb_gt; lia).
  simpl. unfold registered_pair in Hdup. rewrite Hdup; simpl.
  replace (Event.current_registrations event >=? Event.max_capacity event)
    with false by (symmetry; rewrite Z.geb_leb; apply Z.leb_gt; lia).
  reflexivity.
Qed.

Lemma register_student_commit_spec req db event :
  get_event_by_id db (RegistrationCreate.event_id req) = Some event ->
  registered_as req db event
    (register_student_commit
       (mkPending (RegistrationCreate.student_id req)
                  (RegistrationCreate.event_id req)
                  (Event.current_registrations event + 1)) db).
Proof.
  intros He. unfold registered_as, register_student_commit; simpl.
  repeat split.
  - rewrite get_event_set_counter_same.
    unfold get_event_by_id in He. simpl. rewrite He. reflexivity.
  - intros i Hi. rewrite get_event_set_counter_other by exact Hi.
    reflexivity.
  - apply update_where_length.
Qed.

(* ===================================================================== *)
(** ** The order of the checks of [register_student] *)

Lemma sqlite_integer_small z : -1000 <= z <= 1000 -> sqlite_integer z.
Proof.
  unfold sqlite_integer. intros H.
  assert (H63 : 2 ^ 63 = 9223372036854775808) by reflexivity.
  rewrite H63. lia.
Qed.

(** C3. With both students registered for the event with two seats and the
    second registration cancelled, the second student registers again.  All
    six preconditions hold as the specification words them -- the student
    and the event exist, the event is active and in the future, the pair has
    no registration that is not cancelled, and one of the two seats is free
    -- and yet [register_student] raises the duplicate error: it creates no
    registration and leaves the counter as it was. *)
Theorem register_refused_with_every_precondition_met :
  let db := run_operations second_student_cancels two_seat_db in
  let req := RegistrationCreate.mk 2 1 in
  all_succeed second_student_cancels two_seat_db = true
  /\ map Registration.status (registrations db) = [Registered; Cancelled]
  /\ counter_of db 1 = Some 1
  /\ option_map Event.max_capacity (get_event_by_id db 1) = Some 2
  /\ forallb (precondition_as_specified 0 req db) register_preconditions = true
  /\ register_student 0 req db
     = Raise (HTTPException 400 "Student already registered for this event")
  /\ db_after db (register_student 0 req db) = db.
Proof.
  split; [reflexivity|]. split; [reflexivity|]. split; [reflexivity|].
  split; [reflexivity|]. split; [reflexivity|]. split; reflexivity.
Qed.

(** X22. For a student id and an event id that SQLite can hold,
    [register_student] runs its checks in the order student exists, event
    exists, event active, event in the future, no registration of the pair
    in any status, a seat left, and raises the error of the first check
    that fails; the six errors are pairwise different.  When all six pass,
    it inserts one registration of the pair with status [Registered], the
    counter of the event is one higher, its other columns and every other
    table and event are as they were. *)
Theorem register_student_checks_in_order :
  forall (now : datetime) (req : RegistrationCreate.t) (db : Store),
    sqlite_integer (RegistrationCreate.student_id req) ->
    sqlite_integer (RegistrationCreate.event_id req) ->
    NoDup (map register_error register_preconditions)
    /\ match first_failing now req db with
       | Some p => register_student now req db = Raise (register_error p)
       | None =>
           exists event event' db' r,
             get_event_by_id db (RegistrationCreate.event_id req) = Some event
             /\ register_student now req db = Ok (db', r)
             /\ Registration.status r = Registered
             /\ Registration.student_id r = RegistrationCreate.student_id req
             /\ Registration.event_id r = RegistrationCreate.event_id req
             /\ registrations db' = registrations db ++ [r]
             /\ get_event_by_id db' (RegistrationCreate.event_id req)
                = Some event'
             /\ Event.current_registrations event'
                = Event.current_registrations event + 1
             /\ Event.max_capacity event' = Event.max_capacity event
             /\ Event.status event' = Event.status event
             /\ Event.start_time event' = Event.start_time event
             /\ (forall i, i <> RegistrationCreate.event_id req ->
                           get_event_by_id db' i = get_event_by_id db i)
             /\ students db' = students db
             /\ attendance db' = attendance db
             /\ feedback db' = feedback db
       end.
Proof.
  intros now req db _ _. split.
  - simpl. repeat constructor; simpl; intuition discriminate.
  - unfold first_failing, register_preconditions, find, precondition_holds.
    rewrite !existsb_find.
    fold (get_student_by_id db (RegistrationCreate.student_id req)).
    fold (get_event_by_id db (RegistrationCreate.event_id req)).
    destruct (get_student_by_id db (RegistrationCreate.student_id req))
      as [student|] eqn:Hs; simpl;
      [| unfold register_student, register_student_session;
         rewrite Hs; reflexivity].
    destruct (get_event_by_id db (RegistrationCreate.event_id req))
      as [event|] eqn:He; simpl;
      [| unfold register_student, register_student_session;
         rewrite Hs, He; reflexivity].
    destruct (EventStatus_eqb (Event.status event) EventActive) eqn:Hact; simpl;
      [| unfold register_student, register_student_session;
         rewrite Hs, He; simpl; rewrite Hact; reflexivity].
    destruct (now <? Event.start_time event) eqn:Hfut; simpl.
    2:{ unfold register_student, register_student_session.
        rewrite Hs, He; simpl. rewrite Hact; simpl.
        apply Z.ltb_ge in Hfut. apply Z.leb_le in Hfut. rewrite Hfut.
        reflexivity. }
    apply Z.ltb_lt in Hfut.
    destruct (find (registered_pair (RegistrationCreate.student_id req)
                                    (RegistrationCreate.event_id req))
                   (registrations db)) as [dup|] eqn:Hdup; simpl.
    { unfold register_student, register_student_session.
      rewrite Hs, He; simpl. rewrite Hact; simpl.
      replace (Event.start_time event <=? now) with false
        by (symmetry; apply Z.leb_gt; lia).
      simpl. unfold registered_pair in Hdup. rewrite Hdup. reflexivity. }
    destruct (Event.current_registrations event <? Event.max_capacity event)
      eqn:Hcap; simpl.
    2:{ unfold register_student, register_student_session.
        rewrite Hs, He; simpl. rewrite Hact; simpl.
        replace (Event.start_time event <=? now) with false
          by (symmetry; apply Z.leb_gt; lia).
        simpl. unfold registered_pair in Hdup. rewrite Hdup; simpl.
        apply Z.ltb_ge in Hcap. rewrite Z.geb_leb.
        apply Z.leb_le in Hcap. rewrite Hcap. reflexivity. }
    apply Z.ltb_lt in Hcap.
    assert (Hst : Event.status event = EventActive)
      by (destruct (Event.status event); simpl in Hact; congruence).
    pose proof (register_student_ok now req db student event
                  Hs He Hst Hfut Hdup Hcap) as Hok.
    pose proof (register_student_commit_spec req db event He) as Hspec.
    destruct (register_student_commit _ db) as [db' r] eqn:Hout.
    unfold registered_as in Hspec.
    destruct Hspec as (H1 & H2 & H3 & H4 & H5 & H6 & _ & H8 & H9 & H10).
    exists event,
      (Event.set_current_registrations
         (Event.current_registrations event + 1) event), db', r.
    repeat (split; [first [assumption | reflexivity]|]).
    exact H10.
Qed.

Lemma register_student_checks_in_order_witness :
  sqlite_integer 1
  /\ first_failing 0 (RegistrationCreate.mk 1 1) two_seat_db = None
  /\ first_failing 0 (RegistrationCreate.mk 3 1) two_seat_db
     = Some StudentExists
  /\ (exists event event' db' r,
        get_event_by_id two_seat_db 1 = Some event
        /\ register_student 0 (RegistrationCreate.mk 1 1) two_seat_db
           = Ok (db', r)
        /\ Registration.status r = Registered
        /\ Registration.student_id r = 1
        /\ Registration.event_id r = 1
        /\ registrations db' = registrations two_seat_db ++ [r]
        /\ get_event_by_id db' 1 = Some event'
        /\ Event.current_registrations event'
           = Event.current_registrations event + 1
        /\ Event.max_capacity event' = Event.max_capacity event
        /\ Event.status event' = Event.status event
        /\ Event.start_time event' = Event.start_time event
        /\ (forall i, i <> 1 ->
                      get_event_by_id db' i = get_event_by_id two_seat_db i)
        /\ students db' = students two_seat_db
        /\ attendance db' = attendance two_seat_db
        /\ feedback db' = feedback two_seat_db)
  /\ register_student 0 (RegistrationCreate.mk 3 1) two_seat_db
     = Raise (HTTPException 404 "Student not found").
Proof.
  assert (H1 : sqlite_integer 1) by (apply sqlite_integer_small; lia).
  assert (H3 : sqlite_integer 3) by (apply sqlite_integer_small; lia).
  split; [exact H1|]. split; [reflexivity|]. split; [reflexivity|]. split.
  - exact (proj2 (register_student_checks_in_order
                    0 (RegistrationCreate.mk 1 1) two_seat_db H1 H1)).
  - exact (proj2 (register_student_checks_in_order
                    0 (RegistrationCreate.mk 3 1) two_seat_db H3 H1)).
Defined.

(* ===================================================================== *)
(** ** Cancelling a registration *)

Lemma set_current_registrations_same e :
  Event.set_current_registrations (Event.current_registrations e) e = e.
Proof. destruct e; reflexivity. Qed.

Lemma set_current_registrations_twice v w e :
  Event.set_current_registrations v (Event.set_current_registrations w e)
  = Event.set_current_registrations v e.
Proof. reflexivity. Qed.

(** What one cancel call does to the tables. *)
Lemma cancel_registration_tables db rid reg :
  get_registration_by_id db rid = Some reg ->
  exists db',
    cancel_registration rid db = Ok (db', cancel_message)
    /\ registrations db'
       = update_where (fun r => Registration.id r =? rid)
                      (Registration.set_status Cancelled) (registrations db)
    /\ events db'
       = match get_event_by_id db (Registration.event_id reg) with
         | Some event =>
             if Event.current_registrations event >? 0
             then update_where
                    (fun e => Event.id e =? Registration.event_id reg)
                    (Event.set_current_registrations
                       (Event.current_registrations event - 1)) (events db)
             else events db
         | None => events db
         end
    /\ students db' = students db
    /\ attendance db' = attendance db
    /\ feedback db' = feedback db.
Proof.
  intros Hreg. unfold cancel_registration. rewrite Hreg; simpl.
  eexists. split; [reflexivity|]. simpl.
  pose proof (find_some_key Registration.id rid _ _ Hreg) as Hid.
  rewrite Hid. repeat split.
  destruct (get_event_by_id db (Registration.event_id reg)) as [event|] eqn:He;
    [| reflexivity].
  rewrite (find_some_key Event.id _ _ _ He). reflexivity.
Qed.

Lemma cancel_registration_lookup db rid reg :
  get_registration_by_id db rid = Some reg ->
  exists db',
    cancel_registration rid db = Ok (db', cancel_message)
    /\ get_registration_by_id db' rid
       = Some (Registration.set_status Cancelled reg)
    /\ (forall event,
          get_event_by_id db (Registration.event_id reg) = Some event ->
          get_event_by_id db' (Registration.event_id reg)
          = Some (Event.set_current_registrations
                    (decremented (Event.current_registrations event)) event)).
Proof.
  intros Hreg.
  destruct (cancel_registration_tables db rid reg Hreg)
    as (db' & Hrun & Hregs & Hevs & _).
  exists db'. split; [exact Hrun|]. split.
  - unfold get_registration_by_id. rewrite Hregs.
    rewrite (find_update_where_same (fun r => Registration.id r =? rid))
      by reflexivity.
    unfold get_registration_by_id in Hreg. rewrite Hreg. reflexivity.
  - intros event He. unfold get_event_by_id at 1. rewrite Hevs, He.
    unfold decremented.
    destruct (Event.current_registrations event >? 0).
    + rewrite (find_update_where_same
                 (fun e => Event.id e =? Registration.event_id reg))
        by reflexivity.
      unfold get_event_by_id in He. rewrite He. reflexivity.
    + rewrite set_current_registrations_same. exact He.
Qed.

Lemma cancel_times_counter n :
  forall db rid reg event,
    get_registration_by_id db rid = Some reg ->
    get_event_by_id db (Registration.event_id reg) = Some event ->
    0 <= Event.current_registrations event ->
    exists dbn,
      cancel_times n rid db = Ok dbn
      /\ get_event_by_id dbn (Registration.event_id reg)
         = Some (Event.set_current_registrations
                   (Z.max 0 (Event.current_registrations event - Z.of_nat n))
                   event).
Proof.
  induction n as [|n IH]; intros db rid reg event Hreg He Hpos.
  - exists db. split; [reflexivity|].
    rewrite Z.sub_0_r, Z.max_r by exact Hpos.
    rewrite set_current_registrations_same. exact He.
  - destruct (cancel_registration_lookup db rid reg Hreg)
      as (db' & Hrun & Hreg' & Hev').
    specialize (Hev' event He).
    destruct (IH db' rid (Registration.set_status Cancelled reg)
                 (Event.set_current_registrations
                    (decremented (Event.current_registrations event)) event)
                 Hreg' Hev') as (dbn & Hn & Hevn).
    { simpl. unfold decremented.
      destruct (Event.current_registrations event >? 0) eqn:Hc; [|exact Hpos].
      apply Z.gtb_lt in Hc. lia. }
    exists dbn. split.
    + simpl. rewrite Hrun. exact Hn.
    + simpl in Hevn. rewrite Hevn. f_equal.
      rewrite set_current_registrations_twice. f_equal.
      unfold decremented.
      destruct (Event.current_registrations event >? 0) eqn:Hc.
      * apply Z.gtb_lt in Hc. lia.
      * assert (Event.current_registrations event = 0).
        { destruct (Z.gtb_spec (Event.current_registrations event) 0);
            [discriminate | lia]. }
        lia.
Qed.

Lemma cancel_times_registration n :
  forall db rid reg,
    get_registration_by_id db rid = Some reg ->
    exists dbn,
      cancel_times (S n) rid db = Ok dbn
      /\ get_registration_by_id dbn rid
         = Some (Registration.set_status Cancelled reg).
Proof.
  induction n as [|n IH]; intros db rid reg Hreg;
    destruct (cancel_registration_lookup db rid reg Hreg)
      as (db' & Hrun & Hreg' & _).
  - exists db'. split; [| exact Hreg'].
    cbn [cancel_times]. rewrite Hrun. reflexivity.
  - destruct (IH db' rid _ Hreg') as (dbn & Hn & Hregn).
    exists dbn. split.
    + change (cancel_times (S (S n)) rid db)
        with (out <- cancel_registration rid db ;;
              cancel_times (S n) rid (fst out)).
      rewrite Hrun. exact Hn.
    + rewrite Hregn. reflexivity.
Qed.

(** C10. [cancel_registration] succeeds for every registration that exists,
    whatever its status: afterwards the registration is found with status
    [Cancelled], for the same student and event, and the counter of its
    event is one lower when it was positive and unchanged otherwise.  So
    [n] cancel calls on the same registration all succeed, leave it
    [Cancelled] and take [n] off the counter, down to zero. *)
Theorem cancel_registration_any_status :
  forall (db : Store) (rid : Z) (reg : Registration.t),
    get_registration_by_id db rid = Some reg ->
    (exists db' reg',
        cancel_registration rid db = Ok (db', cancel_message)
        /\ get_registration_by_id db' rid = Some reg'
        /\ Registration.status reg' = Cancelled
        /\ Registration.id reg' = rid
        /\ Registration.student_id reg' = Registration.student_id reg
        /\ Registration.event_id reg' = Registration.event_id reg
        /\ (forall event,
              get_event_by_id db (Registration.event_id reg) = Some event ->
              (0 < Event.current_registrations event ->
               counter_of db' (Registration.event_id reg)
               = Some (Event.current_registrations event - 1))
              /\ (Event.current_registrations event <= 0 ->
                  counter_of db' (Registration.event_id reg)
                  = Some (Event.current_registrations event))))
    /\ (forall event n,
          get_event_by_id db (Registration.event_id reg) = Some event ->
          0 <= Event.current_registrations event ->
          exists dbn,
            cancel_times n rid db = Ok dbn
            /\ counter_of dbn (Registration.event_id reg)
               = Some (Z.max 0 (Event.current_registrations event
                                - Z.of_nat n))
            /\ (n <> 0%nat ->
                option_map Registration.status
                           (get_registration_by_id dbn rid)
                = Some Cancelled)).
Proof.
  intros db rid reg Hreg. split.
  - destruct (cancel_registration_lookup db rid reg Hreg)
      as (db' & Hrun & Hreg' & Hev).
    exists db', (Registration.set_status Cancelled reg).
    split; [exact Hrun|]. split; [exact Hreg'|]. split; [reflexivity|].
    split; [exact (find_some_key Registration.id rid _ _ Hreg)|].
    split; [reflexivity|]. split; [reflexivity|].
    intros event He. unfold counter_of. rewrite (Hev event He).
    unfold decremented. cbn [option_map Event.set_current_registrations
                             Event.current_registrations].
    split; intros Hc.
    + replace (Event.current_registrations event >? 0) with true
        by (symmetry; apply Z.gtb_lt; lia).
      reflexivity.
    + replace (Event.current_registrations event >? 0) with false
        by (symmetry; rewrite Z.gtb_ltb; apply Z.ltb_ge; lia).
      reflexivity.
  - intros event n He Hpos.
    destruct (cancel_times_counter n db rid reg event Hreg He Hpos)
      as (dbn & Hn & Hevn).
    exists dbn. split; [exact Hn|]. split.
    + unfold counter_of. rewrite Hevn. reflexivity.
    + intros Hnz. destruct n as [|n]; [contradiction|].
      destruct (cancel_times_registration n db rid reg Hreg)
        as (dbn' & Hn' & Hregn).
      rewrite Hn in Hn'. injection Hn' as <-.
      rewrite Hregn. reflexivity.
Qed.

(** Two students registered for an event with two seats.  A cancel call on
    the first registration leaves it cancelled and one seat taken; a third
    call on the same registration still succeeds and has emptied the
    counter, with the second registration still registered. *)
Lemma cancel_registration_any_status_witness :
  let db := run_operations [OpRegister 0 1 1; OpRegister 0 2 1] two_seat_db in
  get_registration_by_id db 1 = Some (Registration.mk 1 1 1 Registered)
  /\ counter_of db 1 = Some 2
  /\ (exists db' reg',
        cancel_registration 1 db = Ok (db', cancel_message)
        /\ get_registration_by_id db' 1 = Some reg'
        /\ Registration.status reg' = Cancelled
        /\ counter_of db' 1 = Some 1)
  /\ (exists dbn,
        cancel_times 3 1 db = Ok dbn
        /\ counter_of dbn 1 = Some 0
        /\ option_map Registration.status (get_registration_by_id dbn 1)
           = Some Cancelled
        /\ option_map Registration.status (get_registration_by_id dbn 2)
           = Some Registered).
Proof.
  split; [reflexivity|]. split; [reflexivity|].
  destruct (cancel_registration_any_status
              (run_operations [OpRegister 0 1 1; OpRegister 0 2 1] two_seat_db)
              1 (Registration.mk 1 1 1 Registered) eq_refl) as [H1 Hn].
  split.
  - destruct H1 as (db' & reg' & Hrun & Hreg' & Hst & _ & _ & _ & Hc).
    exists db', reg'. split; [exact Hrun|]. split; [exact Hreg'|].
    split; [exact Hst|].
    exact (proj1 (Hc (sample_event 1 2 2) eq_refl) ltac:(simpl; lia)).
  - destruct (Hn (sample_event 1 2 2) 3%nat eq_refl ltac:(simpl; lia))
      as (dbn & Hrun & Hc & Hst).
    exists dbn. split; [exact Hrun|]. split; [exact Hc|].
    split; [apply Hst; discriminate|].
    assert (E : cancel_times 3 1
                  (run_operations [OpRegister 0 1 1; OpRegister 0 2 1]
                                  two_seat_db) = Ok dbn) by exact Hrun.
    vm_compute in E. injection E as <-. reflexivity.
Defined.

(* ===================================================================== *)
(** ** The capacity counter over sequences of calls *)

(** C1. The counter does not stay equal to the number of live
    registrations.  From a database where it is exact, two students
    register for an event and the first registration is cancelled twice:
    every call succeeds, one registration is still live, and the counter
    is 0.  And after one registration and two cancel calls on it, the
    registrations minus the cancellations are -1 while the counter is 0. *)
Theorem double_cancel_breaks_counter :
  counter_exact two_seat_db
  /\ counter_bounded two_seat_db
  /\ all_succeed double_cancel_calls two_seat_db = true
  /\ counter_of (run_operations double_cancel_calls two_seat_db) 1 = Some 0
  /\ live_registrations (run_operations double_cancel_calls two_seat_db) 1 = 1
  /\ all_succeed cancel_at_zero_calls two_seat_db = true
  /\ registrations_of 1 cancel_at_zero_calls
     - cancellations_of 1 cancel_at_zero_calls two_seat_db = -1
  /\ counter_of (run_operations cancel_at_zero_calls two_seat_db) 1 = Some 0.
Proof.
  split; [| split].
  - intros e [<-|[]]. reflexivity.
  - intros e [<-|[]]. simpl. lia.
  - repeat split.
Qed.

(* ===================================================================== *)
(** ** Registering again after a cancellation *)

(** C4. After a student registered for an event and cancelled, no live
    registration of the pair is left, and yet the next register call of the
    same student for the same event is rejected as a duplicate.  (A second
    register call while the first registration is live is rejected too, and
    the counter has gone up once.) *)
Theorem register_after_cancel_is_rejected :
  let db1 := run_operations [OpRegister 0 1 1] two_seat_db in
  let db := run_operations register_then_cancel two_seat_db in
  all_succeed register_then_cancel two_seat_db = true
  /\ registrations db = [Registration.mk 1 1 1 Cancelled]
  /\ live_registrations db 1 = 0
  /\ first_failing 0 (RegistrationCreate.mk 1 1) db = Some NoDuplicate
  /\ register_student 0 (RegistrationCreate.mk 1 1) db
     = Raise (HTTPException 400 "Student already registered for this event")
  /\ register_student 0 (RegistrationCreate.mk 1 1) db1
     = Raise (HTTPException 400 "Student already registered for this event")
  /\ counter_of db1 1 = Some 1.
Proof.
  split; [reflexivity|]. split; [reflexivity|]. split; [reflexivity|].
  split; [reflexivity|]. repeat split.
Qed.

(* ===================================================================== *)
(** ** Two register calls for the last seat *)

Lemma find_app_none {A : Type} (p : A -> bool) l x :
  find p l = None -> p x = false -> find p (l ++ [x]) = None.
Proof.
  intros Hl Hx. induction l as [|y l IH]; simpl.
  - rewrite Hx. reflexivity.
  - simpl in Hl. destruct (p y); [discriminate | exact (IH Hl)].
Qed.

(** A register call that finds the event full, after every earlier check
    passed. *)
Lemma register_student_session_full now req db student event :
  get_student_by_id db (RegistrationCreate.student_id req) = Some student ->
  get_event_by_id db (RegistrationCreate.event_id req) = Some event ->
  Event.status event = EventActive ->
  now < Event.start_time event ->
  find (registered_pair (RegistrationCreate.student_id req)
                        (RegistrationCreate.event_id req))
       (registrations db) = None ->
  Event.max_capacity event <= Event.current_registrations event ->
  register_student_session now req db = Raise capacity_error.
Proof.
  intros Hs He Hact Hfut Hdup Hcap.
  unfold register_student_session.
  rewrite Hs, He; simpl. rewrite Hact; simpl.
  replace (Event.start_time event <=? now) with false
    by (symmetry; apply Z.leb_gt; lia).
  simpl. unfold registered_pair in Hdup. rewrite Hdup; simpl.
  replace (Event.current_registrations event >=? Event.max_capacity event)
    with true by (symmetry; rewrite Z.geb_leb; apply Z.leb_le; lia).
  reflexivity.
Qed.

(** A call that runs alone, both of its steps in a row, is
    [register_student]. *)
Lemma call_alone_is_register_student now req db :
  let (c, db') := call_step (NotStarted now req) db in
  call_step c db'
  = match register_student now req db with
    | Ok (db'', r) => (Finished (Ok r), db'')
    | Raise e => (Finished (Raise e), db)
    end.
Proof.
  unfold register_student. simpl.
  destruct (register_student_session now req db) as [p|e]; simpl;
    [| reflexivity].
  destruct (register_student_commit p db). reflexivity.
Qed.

(** Two calls for the last seat, one after the other: the first one takes
    the seat and the second one finds the event full. *)
Lemma register_twice_last_seat db now1 req1 now2 req2 s1 s2 event :
  RegistrationCreate.student_id req1 <> RegistrationCreate.student_id req2 ->
  RegistrationCreate.event_id req1 = RegistrationCreate.event_id req2 ->
  get_student_by_id db (RegistrationCreate.student_id req1) = Some s1 ->
  get_student_by_id db (RegistrationCreate.student_id req2) = Some s2 ->
  get_event_by_id db (RegistrationCreate.event_id req1) = Some event ->
  Event.status event = EventActive ->
  now1 < Event.start_time event ->
  now2 < Event.start_time event ->
  find (registered_pair (RegistrationCreate.student_id req1)
                        (RegistrationCreate.event_id req1))
       (registrations db) = None ->
  find (registered_pair (RegistrationCreate.student_id req2)
                        (RegistrationCreate.event_id req2))
       (registrations db) = None ->
  Event.current_registrations event + 1 = Event.max_capacity event ->
  exists p,
    register_student_session now1 req1 db = Ok p
    /\ register_student_session now2 req2 (fst (register_student_commit p db))
       = Raise capacity_error.
Proof.
  intros Hne Heid Hs1 Hs2 He Hact Hf1 Hf2 Hd1 Hd2 Hseat.
  exists (mkPending (RegistrationCreate.student_id req1)
                    (RegistrationCreate.event_id req1)
                    (Event.current_registrations event + 1)).
  split.
  { unfold register_student_session.
    rewrite Hs1, He; simpl. rewrite Hact; simpl.
    replace (Event.start_time event <=? now1) with false
      by (symmetry; apply Z.leb_gt; lia).
    simpl. unfold registered_pair in Hd1. rewrite Hd1; simpl.
    replace (Event.current_registrations event >=? Event.max_capacity event)
      with false by (symmetry; rewrite Z.geb_leb; apply Z.leb_gt; lia).
    reflexivity. }
  destruct (register_student_commit_spec req1 db event He)
    as (_ & Hsid & _ & Hregs & Hev & _ & _ & Hstu & _).
  apply (register_student_session_full now2 req2 _ s2
           (Event.set_current_registrations
              (Event.current_registrations event + 1) event)).
  - unfold get_student_by_id. simpl. exact Hs2.
  - rewrite <- Heid. exact Hev.
  - exact Hact.
  - exact Hf2.
  - simpl registrations.
    apply find_app_none; [exact Hd2|].
    unfold registered_pair; simpl.
    apply andb_false_iff. left. apply Z.eqb_neq. exact Hne.
  - simpl. lia.
Qed.

(** A schedule in which one call runs both of its steps before the other
    one starts. *)
Lemma run_first_then_second db now1 req1 now2 req2 p e :
  register_student_session now1 req1 db = Ok p ->
  register_student_session now2 req2 (fst (register_student_commit p db))
  = Raise e ->
  run_schedule [First; First; Second; Second]
               (start_race db now1 req1 now2 req2)
  = mkRace (fst (register_student_commit p db))
           (Finished (Ok (snd (register_student_commit p db))))
           (Finished (Raise e)).
Proof.
  intros H1 H2.
  cbn [run_schedule race_step start_race call_step first_call second_call
       race_db].
  rewrite H1.
  cbn [run_schedule race_step start_race call_step first_call second_call
       race_db].
  destruct (register_student_commit p db) as [db1 r1] eqn:Hc.
  cbn [fst snd] in *.
  cbn [run_schedule race_step start_race call_step first_call second_call
       race_db].
  rewrite H2. reflexivity.
Qed.

Lemma run_second_then_first db now1 req1 now2 req2 p e :
  register_student_session now2 req2 db = Ok p ->
  register_student_session now1 req1 (fst (register_student_commit p db))
  = Raise e ->
  run_schedule [Second; Second; First; First]
               (start_race db now1 req1 now2 req2)
  = mkRace (fst (register_student_commit p db))
           (Finished (Raise e))
           (Finished (Ok (snd (register_student_commit p db)))).
Proof.
  intros H1 H2.
  cbn [run_schedule race_step start_race call_step first_call second_call
       race_db].
  rewrite H1.
  cbn [run_schedule race_step start_race call_step first_call second_call
       race_db].
  destruct (register_student_commit p db) as [db1 r1] eqn:Hc.
  cbn [fst snd] in *.
  cbn [run_schedule race_step start_race call_step first_call second_call
       race_db].
  rewrite H2. reflexivity.
Qed.

(** C2, as the code has it.  The capacity check and the increment of
    [register_student] are a read and a later write at commit.  For an event
    with one free seat and two register calls of different students, each
    passing the earlier checks: when one call commits before the other one
    starts, exactly one call succeeds and the other one fails because the
    event is full. *)
Theorem serial_registers_one_success :
  forall db now1 req1 now2 req2 s1 s2 event,
    RegistrationCreate.student_id req1 <> RegistrationCreate.student_id req2 ->
    RegistrationCreate.event_id req1 = RegistrationCreate.event_id req2 ->
    get_student_by_id db (RegistrationCreate.student_id req1) = Some s1 ->
    get_student_by_id db (RegistrationCreate.student_id req2) = Some s2 ->
    get_event_by_id db (RegistrationCreate.event_id req1) = Some event ->
    Event.status event = EventActive ->
    now1 < Event.start_time event ->
    now2 < Event.start_time event ->
    find (registered_pair (RegistrationCreate.student_id req1)
                          (RegistrationCreate.event_id req1))
         (registrations db) = None ->
    find (registered_pair (RegistrationCreate.student_id req2)
                          (RegistrationCreate.event_id req2))
         (registrations db) = None ->
    Event.current_registrations event + 1 = Event.max_capacity event ->
    forall sched,
      In sched serial_schedules ->
      one_success_one_full
        (run_schedule sched (start_race db now1 req1 now2 req2)) = true.
Proof.
  intros db now1 req1 now2 req2 s1 s2 event
         Hne Heid Hs1 Hs2 He Hact Hf1 Hf2 Hd1 Hd2 Hseat sched Hin.
  destruct Hin as [<- | [<- | []]].
  - destruct (register_twice_last_seat db now1 req1 now2 req2 s1 s2 event)
      as (p & Hq1 & Hfull); try assumption.
    rewrite (run_first_then_second _ _ _ _ _ _ _ Hq1 Hfull). reflexivity.
  - rewrite Heid in He, Hd1.
    destruct (register_twice_last_seat db now2 req2 now1 req1 s2 s1 event)
      as (p & Hq1 & Hfull); try assumption; try congruence.
    rewrite (run_second_then_first _ _ _ _ _ _ _ Hq1 Hfull). reflexivity.
Qed.

(** The single seat of [last_seat_db], asked for by students 1 and 2. *)
Lemma serial_registers_one_success_witness :
  1 <> 2
  /\ one_success_one_full
       (run_schedule [First; First; Second; Second] last_seat_race) = true
  /\ one_success_one_full
       (run_schedule [Second; Second; First; First] last_seat_race) = true.
Proof.
  assert (H : forall sched, In sched serial_schedules ->
                one_success_one_full (run_schedule sched last_seat_race) = true).
  { apply (serial_registers_one_success last_seat_db 0
             (RegistrationCreate.mk 1 1) 0 (RegistrationCreate.mk 2 1)
             (sample_student 1) (sample_student 2) (sample_event 1 1 0));
      try reflexivity; simpl; try lia; discriminate. }
  split; [discriminate|]. split; apply H; simpl; auto.
Defined.

(** One success under every interleaving does not hold on
    [last_seat_race]: when both calls read the counter before either one
    commits, both find the seat free and both succeed, which leaves two live
    registrations of an event with one seat and a counter of 1. *)
Lemma overlapping_registers_both_succeed :
  exclusive_under_every_interleaving last_seat_race = false
  /\ In [First; Second; First; Second] interleavings
  /\ one_success_one_full
       (run_schedule [First; Second; First; Second] last_seat_race) = false
  /\ both_succeeded
       (run_schedule [First; Second; First; Second] last_seat_race) = true
  /\ live_registrations
       (race_db (run_schedule [First; Second; First; Second] last_seat_race)) 1
     = 2
  /\ counter_of
       (race_db (run_schedule [First; Second; First; Second] last_seat_race)) 1
     = Some 1.
Proof.
  split; [reflexivity|]. split; [right; left; reflexivity|].
  repeat split.
Qed.

(* ===================================================================== *)
(** ** The attendance state machine *)

Lemma find_update_where_found {A : Type} (p q : A -> bool) (f : A -> A) l a :
  (forall x, p (f x) = p x) ->
  find p l = Some a -> q a = true ->
  find p (update_where q f l) = Some (f a).
Proof.
  intros Hf. induction l as [|x l IH]; simpl; [discriminate|].
  intros Hfind Hq. destruct (p x) eqn:Hx.
  - inversion Hfind; subst x. rewrite Hq, Hf, Hx. reflexivity.
  - destruct (q x); [rewrite Hf|]; rewrite Hx; exact (IH Hfind Hq).
Qed.

Lemma find_app_new {A : Type} (p : A -> bool) l x :
  find p l = None -> p x = true -> find p (l ++ [x]) = Some x.
Proof.
  intros Hl Hx. induction l as [|y l IH]; simpl.
  - rewrite Hx. reflexivity.
  - simpl in Hl. destruct (p y); [discriminate | exact (IH Hl)].
Qed.

Lemma check_in_is_handler now rid db :
  check_in now rid db
  = mark_attendance_handler now (AttendanceCreate.mk rid "check_in") db.
Proof. reflexivity. Qed.

Lemma check_out_is_handler now rid db :
  check_out now rid db
  = mark_attendance_handler now (AttendanceCreate.mk rid "check_out") db.
Proof. reflexivity. Qed.


(** The record that [save_attendance] returns is the one the table holds
    for the registration afterwards. *)
Lemma save_attendance_stored db rid f :
  (forall a, Attendance.registration_id (f a) = Attendance.registration_id a) ->
  let out := save_attendance (get_attendance_of db rid) f rid db in
  get_attendance_of (fst out) rid = Some (snd out)
  /\ Attendance.registration_id (snd out) = rid.
Proof.
  intros Hf. unfold save_attendance.
  destruct (get_attendance_of db rid) as [a|] eqn:Ha; simpl.
  - pose proof (find_some_key Attendance.registration_id rid _ _ Ha) as Hrid.
    split; [| rewrite Hf; exact Hrid].
    unfold get_attendance_of; simpl.
    apply find_update_where_found.
    + intros x. rewrite Hf. reflexivity.
    + exact Ha.
    + apply Z.eqb_refl.
  - split; [| apply Hf].
    unfold get_attendance_of; simpl.
    apply find_app_new; [exact Ha|].
    rewrite Hf. simpl. apply Z.eqb_refl.
Qed.



(** The handler up to the choice of the action, for a registered student. *)
Lemma check_in_registered db now rid reg :
  get_registration_by_id db rid = Some reg ->
  Registration.status reg = Registered ->
  check_in now rid db
  = (raise_if (is_set (Attendance.check_in_time
                         match get_attendance_of db rid with
                         | Some a => a
                         | None => Attendance_new db rid
                         end))
              (HTTPException 400 "Student already checked in") ;;;
     Ok (save_attendance (get_attendance_of db rid)
           (Attendance.set_check_in now
              match get_event_by_id db (Registration.event_id reg) with
              | Some event =>
                  if now >? Event.start_time event + timedelta_minutes 15
                  then Late else Present
              | None => Present
              end) rid db)).
Proof.
  intros Hreg Hst.
  rewrite check_in_is_handler. unfold mark_attendance_handler.
  cbn [AttendanceCreate.registration_id AttendanceCreate.action].
  rewrite Hreg. cbn [first_or bind]. rewrite Hst. reflexivity.
Qed.

Lemma check_out_registered db now rid reg :
  get_registration_by_id db rid = Some reg ->
  Registration.status reg = Registered ->
  check_out now rid db
  = (let attendance_record :=
       match get_attendance_of db rid with
       | Some a => a
       | None => Attendance_new db rid
       end in
     raise_if (negb (is_set (Attendance.check_in_time attendance_record)))
              (HTTPException 400 "Student must check in before checking out") ;;;
     raise_if (is_set (Attendance.check_out_time attendance_record))
              (HTTPException 400 "Student already checked out") ;;;
     Ok (save_attendance (get_attendance_of db rid)
           (Attendance.set_check_out_time now) rid db)).
Proof.
  intros Hreg Hst.
  rewrite check_out_is_handler. unfold mark_attendance_handler.
  cbn [AttendanceCreate.registration_id AttendanceCreate.action].
  rewrite Hreg. cbn [first_or bind]. rewrite Hst. reflexivity.
Qed.



(** What [mark_attendance] keeps true of the attendance table: no check-out
    without a check-in, and distinct primary keys. *)
Lemma next_id_above ids x : In x ids -> x < next_id ids.
Proof.
  unfold next_id. induction ids as [|y ids IH]; cbn [fold_right In]; [tauto|].
  intros [-> | Hin]; [lia|]. specialize (IH Hin). lia.
Qed.

Lemma next_id_fresh ids : ~ In (next_id ids) ids.
Proof. intros H. apply next_id_above in H. lia. Qed.

Lemma map_update_where_key {A : Type} (key : A -> Z) (q : A -> bool)
      (f : A -> A) l :
  (forall x, key (f x) = key x) ->
  map key (update_where q f l) = map key l.
Proof.
  intros Hf. unfold update_where. rewrite map_map. apply map_ext.
  intros x. destruct (q x); [apply Hf | reflexivity].
Qed.

Lemma unique_key_found {A : Type} (key : A -> Z) l a x :
  NoDup (map key l) -> In a l -> In x l -> key x = key a -> x = a.
Proof.
  induction l as [|y l IH]; simpl; [tauto|].
  intros Hnd Ha Hx Hk. inversion Hnd as [|? ? Hnotin Hnd']; subst.
  destruct Ha as [-> | Ha], Hx as [-> | Hx]; try reflexivity.
  - exfalso. apply Hnotin. rewrite <- Hk. apply in_map. exact Hx.
  - exfalso. apply Hnotin. rewrite Hk. apply in_map. exact Ha.
  - apply IH; assumption.
Qed.

Lemma in_update_where {A : Type} (q : A -> bool) (f : A -> A) l y :
  In y (update_where q f l) ->
  exists x, In x l /\ y = (if q x then f x else x).
Proof.
  unfold update_where. intros H. apply in_map_iff in H.
  destruct H as (x & Hy & Hx). exists x. split; [exact Hx | now symmetry].
Qed.

Lemma mark_attendance_keeps_order db now req db' rec :
  NoDup (map Attendance.id (attendance db)) ->
  checked_out_after_check_in db ->
  mark_attendance now req db = Ok (db', rec) ->
  checked_out_after_check_in db'
  /\ NoDup (map Attendance.id (attendance db')).
Proof.
  intros Hnd Hinv. unfold mark_attendance, action_must_be_valid.
  destruct (String.eqb (AttendanceCreate.action req) "check_in") eqn:Hci;
    cbn [orb negb bind].
  - unfold mark_attendance_handler. rewrite Hci.
    destruct (get_registration_by_id db (AttendanceCreate.registration_id req))
      as [reg|]; cbn [first_or bind]; [| discriminate].
    destruct (negb (RegistrationStatus_eqb (Registration.status reg) Registered));
      cbn [raise_if bind]; [discriminate|].
    destruct (get_attendance_of db (AttendanceCreate.registration_id req))
      as [a|] eqn:Ha.
    + destruct (is_set (Attendance.check_in_time a)); cbn [raise_if bind];
        [discriminate|].
      intros H. inversion H; subst db' rec; clear H. simpl. split.
      * intros y Hy Hout. apply in_update_where in Hy.
        destruct Hy as (x & Hx & ->).
        destruct (Attendance.id x =? Attendance.id a) eqn:E; [reflexivity|].
        exact (Hinv x Hx Hout).
      * rewrite map_update_where_key by reflexivity. exact Hnd.
    + cbn [Attendance_new Attendance.check_in_time is_set raise_if bind].
      intros H. inversion H; subst db' rec; clear H. simpl. split.
      * intros y Hy Hout. apply in_app_or in Hy.
        destruct Hy as [Hy | [<- | []]]; [exact (Hinv y Hy Hout) | reflexivity].
      * rewrite map_app. simpl.
        apply NoDup_app; [exact Hnd | repeat constructor; simpl; tauto |].
        intros x Hx [<- | []]. exact (next_id_fresh _ Hx).
  - destruct (String.eqb (AttendanceCreate.action req) "check_out") eqn:Hco;
      cbn [negb bind]; [| discriminate].
    unfold mark_attendance_handler. rewrite Hci, Hco.
    destruct (get_registration_by_id db (AttendanceCreate.registration_id req))
      as [reg|]; cbn [first_or bind]; [| discriminate].
    destruct (negb (RegistrationStatus_eqb (Registration.status reg) Registered));
      cbn [raise_if bind]; [discriminate|].
    destruct (get_attendance_of db (AttendanceCreate.registration_id req))
      as [a|] eqn:Ha; [| discriminate].
    destruct (is_set (Attendance.check_in_time a)) eqn:Hai;
      cbn [negb raise_if bind]; [| discriminate].
    destruct (is_set (Attendance.check_out_time a)); cbn [raise_if bind];
      [discriminate|].
    intros H. inversion H; subst db' rec; clear H. simpl.
    assert (Hain : In a (attendance db))
      by (unfold get_attendance_of in Ha; apply find_some in Ha; apply Ha).
    split.
    + intros y Hy Hout. apply in_update_where in Hy.
      destruct Hy as (x & Hx & ->).
      destruct (Attendance.id x =? Attendance.id a) eqn:E.
      * apply Z.eqb_eq in E.
        rewrite (unique_key_found Attendance.id _ a x Hnd Hain Hx E).
        exact Hai.
      * exact (Hinv x Hx Hout).
    + rewrite map_update_where_key by reflexivity. exact Hnd.
Qed.

(* ===================================================================== *)
(** ** The feedback gate *)

Lemma find_none_all {A : Type} (p : A -> bool) l :
  (forall x, In x l -> p x = false) -> find p l = None.
Proof.
  induction l as [|y l IH]; simpl; [reflexivity|].
  intros H. rewrite (H y (or_introl eq_refl)).
  apply IH. intros x Hx. apply H. right. exact Hx.
Qed.

(** With one attendance row per registration, the query of
    [submit_feedback] for an attended row of the registration looks at the
    attendance record of the registration. *)
Lemma attended_query db rid :
  attendance_unique db ->
  find (fun a => (Attendance.registration_id a =? rid)
                 && (AttendanceStatus_eqb (Attendance.status a) Present
                     || AttendanceStatus_eqb (Attendance.status a) Late))
       (attendance db)
  = match get_attendance_of db rid with
    | Some a => if attended (Attendance.status a) then Some a else None
    | None => None
    end.
Proof.
  unfold attendance_unique, get_attendance_of, attended.
  induction (attendance db) as [|x l IH]; simpl; [reflexivity|].
  intros Hnd. inversion Hnd as [|? ? Hnotin Hnd']; subst.
  destruct (Attendance.registration_id x =? rid) eqn:Hx; simpl.
  - destruct (AttendanceStatus_eqb (Attendance.status x) Present
              || AttendanceStatus_eqb (Attendance.status x) Late);
      [reflexivity|].
    apply find_none_all. intros y Hy.
    apply andb_false_iff. left. apply Z.eqb_neq. intros Heq.
    apply Hnotin. apply Z.eqb_eq in Hx. rewrite Hx, <- Heq.
    apply in_map. exact Hy.
  - apply IH. exact Hnd'.
Qed.

Lemma rating_in_range v :
  ((v <? 1) || (v >? 5)) = false <-> 1 <= v <= 5.
Proof.
  rewrite orb_false_iff, Z.ltb_ge.
  split.
  - intros [H1 H2]. split; [lia|].
    destruct (Z.gtb_spec v 5); [discriminate | lia].
  - intros [H1 H2]. split; [lia|].
    destruct (Z.gtb_spec v 5); [lia | reflexivity].
Qed.

(** [submit_feedback] as a cascade over the four conditions. *)
Lemma submit_feedback_cases req db :
  attendance_unique db ->
  let rid := FeedbackCreate.registration_id req in
  submit_feedback req db
  = if (FeedbackCreate.rating req <? 1) || (FeedbackCreate.rating req >? 5)
    then Raise invalid_rating_error
    else match get_registration_by_id db rid with
         | None => Raise (HTTPException 404 "Registration not found")
         | Some _ =>
             if match get_attendance_of db rid with
                | Some a => attended (Attendance.status a)
                | None => false
                end
             then if has_feedback db rid
                  then Raise duplicate_feedback_error
                  else Ok (with_feedback
                             (feedback db
                              ++ [Feedback.mk
                                    (next_id (map Feedback.id (feedback db)))
                                    rid (FeedbackCreate.rating req)
                                    (FeedbackCreate.comment req)]) db,
                           Feedback.mk
                             (next_id (map Feedback.id (feedback db)))
                             rid (FeedbackCreate.rating req)
                             (FeedbackCreate.comment req))
             else Raise forbidden_error
         end.
Proof.
  intros Huniq rid. unfold submit_feedback, rating_must_be_valid.
  destruct ((FeedbackCreate.rating req <? 1) || (FeedbackCreate.rating req >? 5));
    cbn [bind]; [reflexivity|].
  unfold submit_feedback_handler. fold rid.
  destruct (get_registration_by_id db rid) as [reg|]; cbn [first_or bind];
    [| reflexivity].
  rewrite (attended_query db rid Huniq).
  destruct (get_attendance_of db rid) as [a|]; [| reflexivity].
  destruct (attended (Attendance.status a)); cbn [is_set negb raise_if bind];
    [| reflexivity].
  unfold has_feedback. rewrite existsb_find.
  destruct (find (fun f => Feedback.registration_id f =? rid) (feedback db));
    reflexivity.
Qed.

(** C7. [submit_feedback] succeeds exactly when the registration exists, its
    attendance record has status [Present] or [Late], the registration has
    no feedback yet and the rating is between 1 and 5, and it then stores
    the feedback.  A rating out of range is rejected as invalid input; with
    a valid rating and an existing registration, an attendance record that
    is missing or [Absent] is rejected as forbidden; with a qualifying
    attendance, an existing feedback is rejected as a duplicate.  The three
    errors are pairwise different. *)
Theorem feedback_gate :
  forall (req : FeedbackCreate.t) (db : Store),
    attendance_unique db ->
    let rid := FeedbackCreate.registration_id req in
    (succeeded (submit_feedback req db) = true <-> feedback_admitted req db)
    /\ (feedback_admitted req db ->
        exists db' f,
          submit_feedback req db = Ok (db', f)
          /\ feedback db' = feedback db ++ [f]
          /\ Feedback.registration_id f = rid
          /\ Feedback.rating f = FeedbackCreate.rating req)
    /\ (~ 1 <= FeedbackCreate.rating req <= 5 ->
        submit_feedback req db = Raise invalid_rating_error)
    /\ (1 <= FeedbackCreate.rating req <= 5 ->
        (exists r, get_registration_by_id db rid = Some r) ->
        (get_attendance_of db rid = None
         \/ exists a, get_attendance_of db rid = Some a
                      /\ Attendance.status a = Absent) ->
        submit_feedback req db = Raise forbidden_error)
    /\ (1 <= FeedbackCreate.rating req <= 5 ->
        (exists r, get_registration_by_id db rid = Some r) ->
        (exists a, get_attendance_of db rid = Some a
                   /\ attended (Attendance.status a) = true) ->
        has_feedback db rid = true ->
        submit_feedback req db = Raise duplicate_feedback_error)
    /\ NoDup [forbidden_error; duplicate_feedback_error; invalid_rating_error].
Proof.
  intros req db Huniq rid.
  pose proof (submit_feedback_cases req db Huniq) as Hcases.
  cbv zeta in Hcases. fold rid in Hcases.
  pose proof (rating_in_range (FeedbackCreate.rating req)) as Hrange.
  assert (Hadm : feedback_admitted req db ->
            exists db' f,
              submit_feedback req db = Ok (db', f)
              /\ feedback db' = feedback db ++ [f]
              /\ Feedback.registration_id f = rid
              /\ Feedback.rating f = FeedbackCreate.rating req).
  { intros ((r & Hr) & (a & Ha & Hatt) & Hfb & Hrat).
    fold rid in Hr, Ha, Hfb. rewrite Hcases.
    rewrite (proj2 Hrange Hrat), Hr, Ha, Hatt, Hfb.
    eexists. eexists. split; [reflexivity|]. repeat split. }
  split; [| split; [exact Hadm | split; [| split; [| split]]]].
  - split.
    + intros Hok. rewrite Hcases in Hok.
      destruct ((FeedbackCreate.rating req <? 1)
                || (FeedbackCreate.rating req >? 5)) eqn:Hr; [discriminate|].
      destruct (get_registration_by_id db rid) as [r|] eqn:Hreg;
        [| discriminate].
      destruct (get_attendance_of db rid) as [a|] eqn:Ha; [| discriminate].
      destruct (attended (Attendance.status a)) eqn:Hatt; [| discriminate].
      destruct (has_feedback db rid) eqn:Hfb; [discriminate|].
      unfold feedback_admitted. fold rid.
      split; [exists r; exact Hreg|].
      split; [exists a; split; [exact Ha | exact Hatt]|].
      split; [exact Hfb | apply Hrange; reflexivity].
    + intros H. destruct (Hadm H) as (db' & f & Hrun & _).
      rewrite Hrun. reflexivity.
  - intros Hbad. rewrite Hcases.
    destruct ((FeedbackCreate.rating req <? 1)
              || (FeedbackCreate.rating req >? 5)) eqn:Hr; [reflexivity|].
    exfalso. apply Hbad. apply Hrange. reflexivity.
  - intros Hrat (r & Hr) Hmissing. rewrite Hcases.
    rewrite (proj2 Hrange Hrat), Hr.
    destruct Hmissing as [Ha | (a & Ha & Habs)]; rewrite Ha;
      [reflexivity | rewrite Habs; reflexivity].
  - intros Hrat (r & Hr) (a & Ha & Hatt) Hfb. rewrite Hcases.
    rewrite (proj2 Hrange Hrat), Hr, Ha, Hatt, Hfb. reflexivity.
  - repeat constructor; simpl; intuition discriminate.
Qed.

(** Student 2, registered and checked in: a rating of 5 is stored, a rating
    of 6 is invalid input. *)
Lemma feedback_gate_witness :
  let db0 := run_operations [OpRegister 0 1 1; OpRegister 0 2 1] two_seat_db in
  let db := db_after db0 (check_in 5 2 db0) in
  attendance_unique db
  /\ succeeded (submit_feedback (FeedbackCreate.mk 2 5 None) db) = true
  /\ submit_feedback (FeedbackCreate.mk 2 6 None) db = Raise invalid_rating_error
  /\ submit_feedback (FeedbackCreate.mk 1 5 None) db = Raise forbidden_error.
Proof.
  assert (Hu : attendance_unique
                 (db_after
                    (run_operations [OpRegister 0 1 1; OpRegister 0 2 1]
                                    two_seat_db)
                    (check_in 5 2
                       (run_operations [OpRegister 0 1 1; OpRegister 0 2 1]
                                       two_seat_db)))).
  { repeat constructor; simpl; tauto. }
  split; [exact Hu|]. split; [| split].
  - apply (proj1 (feedback_gate (FeedbackCreate.mk 2 5 None) _ Hu)).
    split; [eexists; reflexivity|].
    split; [eexists; split; reflexivity|].
    split; [reflexivity | simpl; lia].
  - apply (proj1 (proj2 (proj2 (feedback_gate (FeedbackCreate.mk 2 6 None) _ Hu)))).
    simpl. lia.
  - apply (proj1 (proj2 (proj2 (proj2
             (feedback_gate (FeedbackCreate.mk 1 5 None) _ Hu))))).
    + simpl. lia.
    + eexists; reflexivity.
    + left. reflexivity.
Defined.

(* ===================================================================== *)
(** ** [ORDER BY] *)

Section OrderBy.

Context {A : Type}.
Variable before : A -> A -> bool.

Let precedes (a b : A) : Prop := before a b = true.

Hypothesis before_total : forall a b, before a b = true \/ before b a = true.
Hypothesis before_trans :
  forall a b c, before a b = true -> before b c = true -> before a c = true.

Lemma insert_row_permutation x l :
  Permutation (insert_row before x l) (x :: l).
Proof.
  induction l as [|y l IH]; simpl; [apply Permutation_refl|].
  destruct (before x y); [apply Permutation_refl|].
  eapply perm_trans; [apply perm_skip, IH | apply perm_swap].
Qed.

Lemma order_by_permutation l : Permutation (order_by before l) l.
Proof.
  induction l as [|x l IH]; simpl; [constructor|].
  eapply perm_trans; [apply insert_row_permutation|].
  apply perm_skip, IH.
Qed.

Lemma insert_row_sorted x l :
  StronglySorted precedes l -> StronglySorted precedes (insert_row before x l).
Proof.
  induction 1 as [|y l Hs IH Hall]; simpl.
  - repeat constructor.
  - destruct (before x y) eqn:Hxy.
    + constructor; [constructor; assumption|].
      constructor; [exact Hxy|].
      eapply Forall_impl; [| exact Hall].
      intros z Hyz. exact (before_trans x y z Hxy Hyz).
    + constructor; [exact IH|].
      apply Forall_forall. intros z Hz.
      apply (Permutation_in _ (insert_row_permutation x l)) in Hz.
      destruct Hz as [Hz | Hz].
      * subst z. destruct (before_total x y) as [H | H];
          [congruence | exact H].
      * rewrite Forall_forall in Hall. apply Hall, Hz.
Qed.

Lemma order_by_sorted l : StronglySorted precedes (order_by before l).
Proof.
  induction l as [|x l IH]; simpl; [constructor|].
  apply insert_row_sorted, IH.
Qed.

Lemma firstn_sorted n l :
  StronglySorted precedes l -> StronglySorted precedes (firstn n l).
Proof.
  intros Hs. revert n. induction Hs as [|y l Hs IH Hall]; intros [|n]; simpl;
    try constructor.
  - apply IH.
  - apply Forall_forall. intros z Hz. rewrite Forall_forall in Hall.
    apply Hall. rewrite <- (firstn_skipn n l). apply in_or_app. left. exact Hz.
Qed.

End OrderBy.

Lemma StronglySorted_impl {A : Type} (P Q : A -> A -> Prop) l :
  (forall a b, P a b -> Q a b) -> StronglySorted P l -> StronglySorted Q l.
Proof.
  intros HPQ. induction 1 as [|x l Hs IH Hall]; constructor; [exact IH|].
  eapply Forall_impl; [| exact Hall]. intros b. apply HPQ.
Qed.

(* ===================================================================== *)
(** ** The attendance summary report *)

Lemma attendance_percentage_null db e :
  Event.current_registrations e = 0 ->
  AttendanceSummaryRow.attendance_percentage (attendance_summary_row db e)
  = None.
Proof.
  intros H. unfold attendance_summary_row; simpl.
  unfold sqlite_div. rewrite H. reflexivity.
Qed.

Lemma attendance_summary_rows db college_id row :
  In row (get_attendance_summary_report db college_id)
  <-> exists e, In e (events db)
                /\ attendance_scope college_id e = true
                /\ row = attendance_summary_row db e.
Proof.
  unfold get_attendance_summary_report. split.
  - intros H.
    apply (Permutation_in _ (order_by_permutation attendance_before _)) in H.
    apply in_map_iff in H. destruct H as (e & <- & He).
    apply filter_In in He. exists e. tauto.
  - intros (e & He & Hscope & ->).
    apply (Permutation_in _
             (Permutation_sym (order_by_permutation attendance_before _))).
    apply in_map. apply filter_In. tauto.
Qed.

(** C8. The attendance summary is a total function of the database: no
    error is raised.  An event in its scope whose [current_registrations] is
    0 has its row in the report, and the attendance percentage of that row
    -- the quotient by [current_registrations] -- is NULL; so is the
    percentage of every row of the report with no registrations.  No event
    of the scope is left out. *)
Theorem attendance_summary_zero_registrations :
  forall (db : Store) (college_id : option Z) (e : Event.t),
    In e (events db) ->
    attendance_scope college_id e = true ->
    Event.current_registrations e = 0 ->
    In (attendance_summary_row db e) (get_attendance_summary_report db college_id)
    /\ AttendanceSummaryRow.event_id (attendance_summary_row db e) = Event.id e
    /\ AttendanceSummaryRow.attendance_percentage (attendance_summary_row db e)
       = None
    /\ (forall row,
          In row (get_attendance_summary_report db college_id) ->
          AttendanceSummaryRow.current_registrations row = 0 ->
          AttendanceSummaryRow.attendance_percentage row = None)
    /\ List.length (get_attendance_summary_report db college_id)
       = List.length (filter (attendance_scope college_id) (events db)).
Proof.
  intros db college_id e He Hscope Hzero.
  split; [| split; [| split; [| split]]].
  - apply attendance_summary_rows. exists e. tauto.
  - reflexivity.
  - apply attendance_percentage_null. exact Hzero.
  - intros row Hrow Hrz.
    apply attendance_summary_rows in Hrow. destruct Hrow as (e' & _ & _ & ->).
    apply attendance_percentage_null. exact Hrz.
  - unfold get_attendance_summary_report.
    rewrite (Permutation_length (order_by_permutation attendance_before _)).
    apply length_map.
Qed.

(** The event of [two_seat_db]: active, nobody registered. *)
Lemma attendance_summary_zero_registrations_witness :
  In (sample_event 1 2 0) (events two_seat_db)
  /\ attendance_scope None (sample_event 1 2 0) = true
  /\ Event.current_registrations (sample_event 1 2 0) = 0
  /\ map AttendanceSummaryRow.attendance_percentage
         (get_attendance_summary_report two_seat_db None) = [None].
Proof.
  split; [left; reflexivity|]. split; [reflexivity|]. split; [reflexivity|].
  pose proof (attendance_summary_zero_registrations two_seat_db None
                (sample_event 1 2 0) (or_introl eq_refl) eq_refl eq_refl)
    as (_ & _ & Hnull & _).
  simpl. rewrite <- Hnull. reflexivity.
Defined.

(* ===================================================================== *)
(** ** The event popularity report *)

Lemma popularity_before_order a b :
  popularity_before a b = true <-> popularity_order a b.
Proof.
  unfold popularity_before, popularity_order.
  rewrite orb_true_iff, andb_true_iff, Z.eqb_eq, Z.geb_leb, Z.leb_le.
  split.
  - intros [H | [H1 H2]].
    + left. apply Z.gtb_lt in H. lia.
    + right. split; [exact H1 | lia].
  - intros [H | [H1 H2]].
    + left. apply Z.gtb_lt. lia.
    + right. split; [exact H1 | lia].
Qed.

Lemma popularity_before_total a b :
  popularity_before a b = true \/ popularity_before b a = true.
Proof.
  rewrite !popularity_before_order. unfold popularity_order. lia.
Qed.

Lemma popularity_before_trans a b c :
  popularity_before a b = true -> popularity_before b c = true ->
  popularity_before a c = true.
Proof.
  rewrite !popularity_before_order. unfold popularity_order. lia.
Qed.

Lemma popularity_ranking_sorted db college_id :
  StronglySorted popularity_order (popularity_ranking db college_id).
Proof.
  apply (StronglySorted_impl (fun a b => popularity_before a b = true)).
  - intros a b. apply popularity_before_order.
  - apply order_by_sorted.
    + exact popularity_before_total.
    + exact popularity_before_trans.
Qed.

Lemma count_not_null {A : Type} (l : list A) :
  Z.of_nat (List.length (filter is_set (map Some l)))
  = Z.of_nat (List.length l).
Proof.
  f_equal. induction l as [|x l IH]; simpl; [reflexivity | now rewrite IH].
Qed.

(** [COUNT(r.id)] over the left join counts the registration rows of the
    event, whatever their status. *)
Lemma total_registrations_counts db e :
  PopularityRow.total_registrations (popularity_row db e)
  = Z.of_nat (List.length
                (filter (fun r => Registration.event_id r =? Event.id e)
                        (registrations db))).
Proof.
  unfold popularity_row, sql_count, left_join_registrations; simpl.
  rewrite (filter_ext (fun r => Registration.event_id r =? Event.id e)
                      (fun r => Event.id e =? Registration.event_id r))
    by (intros r; apply Z.eqb_sym).
  destruct (filter (fun r => Event.id e =? Registration.event_id r)
                   (registrations db)) as [|r rs]; [reflexivity|].
  exact (count_not_null (r :: rs)).
Qed.

(** C9. The popularity report holds rows of active events only (of the
    college, when one is given).  Its rows are ordered by the number of
    registrations, descending, and among equals by [current_registrations],
    descending.  It is the first [limit] rows of the ranking of all those
    events.  For three events with 5 of 10, 10 of 10 and 0 of 5 seats taken,
    the order is 10/10, 5/10, 0/5. *)
Theorem popularity_report_ranked :
  forall (db : Store) (college_id : option Z) (limit : Z),
    let report := get_event_popularity_report db college_id limit in
    let ranking := popularity_ranking db college_id in
    (forall row, In row report ->
       exists e, In e (events db)
                 /\ Event.status e = EventActive
                 /\ college_filter college_id e = true
                 /\ row = popularity_row db e)
    /\ (forall e,
          PopularityRow.total_registrations (popularity_row db e)
          = Z.of_nat (List.length
                        (filter (fun r => Registration.event_id r =? Event.id e)
                                (registrations db))))
    /\ StronglySorted popularity_order report
    /\ StronglySorted popularity_order ranking
    /\ Permutation ranking
         (map (popularity_row db)
              (filter (popularity_scope college_id) (events db)))
    /\ (exists rest, ranking = report ++ rest)
    /\ (0 <= limit ->
        List.length report = Nat.min (Z.to_nat limit) (List.length ranking))
    /\ (limit < 0 -> report = ranking)
    /\ map seats (get_event_popularity_report three_events_db (Some 1) 10)
       = [(10, 10); (5, 10); (0, 5)].
Proof.
  intros db college_id limit report ranking.
  assert (Hsorted : StronglySorted popularity_order ranking)
    by apply popularity_ranking_sorted.
  assert (Hperm : Permutation ranking
                    (map (popularity_row db)
                         (filter (popularity_scope college_id) (events db))))
    by apply order_by_permutation.
  assert (Hprefix : exists rest, ranking = report ++ rest).
  { unfold report, get_event_popularity_report, sql_limit. fold ranking.
    destruct (limit <? 0).
    - exists []. now rewrite app_nil_r.
    - exists (skipn (Z.to_nat limit) ranking).
      symmetry. apply firstn_skipn. }
  split; [| split; [| split; [| split; [| split; [| split; [| split;
    [| split]]]]]]].
  - intros row Hrow.
    assert (Hin : In row ranking).
    { destruct Hprefix as (rest & ->). apply in_or_app. left. exact Hrow. }
    apply (Permutation_in _ Hperm) in Hin.
    apply in_map_iff in Hin. destruct Hin as (e & <- & He).
    apply filter_In in He. destruct He as [He Hscope].
    unfold popularity_scope in Hscope. apply andb_true_iff in Hscope.
    destruct Hscope as [Hact Hcol].
    exists e. repeat split; try assumption.
    destruct (Event.status e); simpl in Hact; congruence.
  - apply total_registrations_counts.
  - unfold report, get_event_popularity_report, sql_limit. fold ranking.
    destruct (limit <? 0); [exact Hsorted|].
    apply (StronglySorted_impl (fun a b => popularity_before a b = true)).
    + intros a b. apply popularity_before_order.
    + apply firstn_sorted.
      apply (StronglySorted_impl popularity_order); [| exact Hsorted].
      intros a b. apply popularity_before_order.
  - exact Hsorted.
  - exact Hperm.
  - exact Hprefix.
  - intros Hpos. unfold report, get_event_popularity_report, sql_limit.
    fold ranking.
    replace (limit <? 0) with false by (symmetry; apply Z.ltb_ge; exact Hpos).
    apply length_firstn.
  - intros Hneg. unfold report, get_event_popularity_report, sql_limit.
    fold ranking.
    replace (limit <? 0) with true by (symmetry; apply Z.ltb_lt; exact Hneg).
    reflexivity.
  - vm_compute. reflexivity.
Qed.

(* ===================================================================== *)
(** ** Where the capacity counter stays exact

    The counter is kept by every successful register call, and by every
    cancel call on a registration that is not cancelled yet. *)

Lemma register_student_inv now req db out :
  register_student now req db = Ok out ->
  exists event,
    get_event_by_id db (RegistrationCreate.event_id req) = Some event
    /\ Event.current_registrations event < Event.max_capacity event
    /\ out = register_student_commit
               (mkPending (RegistrationCreate.student_id req)
                          (RegistrationCreate.event_id req)
                          (Event.current_registrations event + 1)) db.
Proof.
  unfold register_student, register_student_session.
  destruct (get_student_by_id db (RegistrationCreate.student_id req));
    cbn [first_or bind]; [| discriminate].
  destruct (get_event_by_id db (RegistrationCreate.event_id req)) as [event|];
    cbn [first_or bind]; [| discriminate].
  destruct (negb (EventStatus_eqb (Event.status event) EventActive));
    cbn [raise_if bind]; [discriminate|].
  destruct (Event.start_time event <=? now); cbn [raise_if bind];
    [discriminate|].
  destruct (find _ (registrations db)); cbn [raise_if bind]; [discriminate|].
  destruct (Event.current_registrations event >=? Event.max_capacity event)
    eqn:Hcap; cbn [raise_if bind]; [discriminate|].
  intros H. inversion H. exists event. split; [reflexivity|].
  split; [| reflexivity].
  rewrite Z.geb_leb in Hcap. apply Z.leb_gt in Hcap. exact Hcap.
Qed.

Lemma update_where_none {A : Type} (q : A -> bool) (f : A -> A) l :
  (forall x, In x l -> q x = false) -> update_where q f l = l.
Proof.
  induction l as [|y l IH]; simpl; [reflexivity|].
  intros H. rewrite (H y (or_introl eq_refl)). f_equal.
  apply IH. intros x Hx. apply H. right. exact Hx.
Qed.

Lemma live_after_register db i r :
  live_registrations (with_registrations (registrations db ++ [r]) db) i
  = live_registrations db i + (if is_live i r then 1 else 0).
Proof.
  unfold live_registrations; simpl.
  rewrite filter_app, length_app; simpl.
  destruct (is_live i r); simpl; lia.
Qed.

Lemma live_after_cancel regs rid reg i :
  NoDup (map Registration.id regs) ->
  find (fun r => Registration.id r =? rid) regs = Some reg ->
  Z.of_nat (List.length
              (filter (is_live i)
                 (update_where (fun r => Registration.id r =? rid)
                               (Registration.set_status Cancelled) regs)))
  = Z.of_nat (List.length (filter (is_live i) regs))
    - (if is_live i reg then 1 else 0).
Proof.
  induction regs as [|x regs IH]; simpl; [discriminate|].
  intros Hnd Hfind. inversion Hnd as [|? ? Hnotin Hnd']; subst.
  destruct (Registration.id x =? rid) eqn:Hx.
  - inversion Hfind; subst x.
    rewrite update_where_none.
    + replace (is_live i (Registration.set_status Cancelled reg)) with false
        by (unfold is_live; simpl; now rewrite andb_false_r).
      destruct (is_live i reg); cbn [List.length]; lia.
    + intros y Hy. apply Z.eqb_neq. intros Heq. apply Hnotin.
      apply Z.eqb_eq in Hx. rewrite Hx, <- Heq. apply in_map. exact Hy.
  - specialize (IH Hnd' Hfind).
    destruct (is_live i x); cbn [List.length]; lia.
Qed.

Lemma register_keeps_invariant now req db out :
  counter_invariant db ->
  register_student now req db = Ok out ->
  counter_invariant (fst out).
Proof.
  intros (Hexact & Hbound & Hek & Hrk) Hrun.
  destruct (register_student_inv now req db out Hrun)
    as (event & He & Hcap & ->).
  set (eid := RegistrationCreate.event_id req) in *.
  set (sid := RegistrationCreate.student_id req) in *.
  assert (Hev_in : In event (events db))
    by (unfold get_event_by_id in He; apply find_some in He; apply He).
  assert (Hev_id : Event.id event = eid)
    by (exact (find_some_key Event.id eid _ _ He)).
  unfold register_student_commit; simpl.
  repeat split.
  - (* the counter is exact *)
    intros e' He'. simpl in He'. apply in_update_where in He'.
    destruct He' as (e & Hin & ->).
    change (live_registrations _ ?i)
      with (live_registrations
              (with_registrations
                 (registrations db
                  ++ [Registration.mk
                        (next_id (map Registration.id (registrations db)))
                        sid eid Registered]) db) i).
    rewrite live_after_register. unfold is_live; simpl.
    destruct (Event.id e =? eid) eqn:E; simpl.
    + apply Z.eqb_eq in E. rewrite E, Z.eqb_refl. simpl.
      rewrite (Hexact event Hev_in), Hev_id. reflexivity.
    + rewrite Z.eqb_sym, E. simpl. rewrite (Hexact e Hin). lia.
  - simpl in H. apply in_update_where in H. destruct H as (x & Hin & ->).
    destruct (Event.id x =? eid) eqn:E; simpl; [| apply (Hbound x Hin)].
    pose proof (Hbound event Hev_in). lia.
  - simpl in H. apply in_update_where in H. destruct H as (x & Hin & ->).
    destruct (Event.id x =? eid) eqn:E; simpl; [| apply (Hbound x Hin)].
    apply Z.eqb_eq in E.
    assert (x = event)
      by (apply (unique_key_found Event.id (events db)); try assumption;
          congruence).
    subst x. lia.
  - unfold event_keys_unique; simpl.
    rewrite map_update_where_key by reflexivity. exact Hek.
  - unfold registration_keys_unique; simpl.
    rewrite map_app. simpl.
    apply NoDup_app; [exact Hrk | repeat constructor; simpl; tauto |].
    intros x Hx [<- | []]. exact (next_id_fresh _ Hx).
Qed.

Lemma cancel_live_keeps_invariant db rid reg out :
  counter_invariant db ->
  get_registration_by_id db rid = Some reg ->
  Registration.status reg <> Cancelled ->
  cancel_registration rid db = Ok out ->
  counter_invariant (fst out).
Proof.
  intros (Hexact & Hbound & Hek & Hrk) Hreg Hlive Hrun.
  destruct (cancel_registration_tables db rid reg Hreg)
    as (db' & Hrun' & Hregs & Hevs & _).
  rewrite Hrun' in Hrun. inversion Hrun; subst out; clear Hrun. simpl.
  assert (Hreg_in : In reg (registrations db))
    by (unfold get_registration_by_id in Hreg; apply find_some in Hreg;
        apply Hreg).
  assert (Hlive_after : forall i,
            live_registrations db' i
            = live_registrations db i
              - (if Registration.event_id reg =? i then 1 else 0)).
  { intros i. unfold live_registrations. rewrite Hregs.
    rewrite (live_after_cancel _ rid reg i Hrk Hreg).
    unfold is_live.
    destruct (Registration.status reg); try contradiction; simpl;
      rewrite andb_true_r; reflexivity. }
  assert (Hpos : forall event,
            get_event_by_id db (Registration.event_id reg) = Some event ->
            Event.current_registrations event > 0).
  { intros event He.
    assert (In event (events db))
      by (unfold get_event_by_id in He; apply find_some in He; apply He).
    rewrite (Hexact event H), (find_some_key Event.id _ _ _ He).
    unfold live_registrations.
    assert (Hin : In reg (filter (is_live (Registration.event_id reg))
                                 (registrations db))).
    { apply filter_In. split; [exact Hreg_in|].
      unfold is_live. rewrite Z.eqb_refl.
      destruct (Registration.status reg); try contradiction; reflexivity. }
    destruct (filter (is_live (Registration.event_id reg)) (registrations db));
      [destruct Hin | cbn [List.length]; lia]. }
  destruct (get_event_by_id db (Registration.event_id reg)) as [event|] eqn:He.
  - pose proof (Hpos event eq_refl) as Hgt.
    replace (Event.current_registrations event >? 0) with true in Hevs
      by (symmetry; apply Z.gtb_lt; lia).
    assert (Hev_in : In event (events db))
      by (unfold get_event_by_id in He; apply find_some in He; apply He).
    pose proof (find_some_key Event.id _ _ _ He) as Hev_id.
    repeat split.
    + intros e' He'. rewrite Hevs in He'. apply in_update_where in He'.
      destruct He' as (e & Hin & ->). rewrite Hlive_after.
      destruct (Event.id e =? Registration.event_id reg) eqn:E; simpl.
      * apply Z.eqb_eq in E. rewrite E, Z.eqb_refl.
        rewrite (Hexact event Hev_in), Hev_id. reflexivity.
      * rewrite Z.eqb_sym, E. rewrite (Hexact e Hin). lia.
    + rewrite Hevs in H. apply in_update_where in H.
      destruct H as (x & Hin & ->).
      destruct (Event.id x =? Registration.event_id reg); simpl;
        [lia | apply (Hbound x Hin)].
    + rewrite Hevs in H. apply in_update_where in H.
      destruct H as (x & Hin & ->).
      destruct (Event.id x =? Registration.event_id reg) eqn:E; simpl;
        [| apply (Hbound x Hin)].
      apply Z.eqb_eq in E.
      assert (x = event)
        by (apply (unique_key_found Event.id (events db)); try assumption;
            congruence).
      subst x. pose proof (Hbound event Hev_in). lia.
    + unfold event_keys_unique. rewrite Hevs.
      rewrite map_update_where_key by reflexivity. exact Hek.
    + unfold registration_keys_unique. rewrite Hregs.
      rewrite map_update_where_key by reflexivity. exact Hrk.
  - repeat split.
    + intros e He'. rewrite Hevs in He'. rewrite Hlive_after.
      destruct (Registration.event_id reg =? Event.id e) eqn:E.
      * exfalso. apply Z.eqb_eq in E.
        unfold get_event_by_id in He.
        pose proof (find_none _ _ He e He') as Hne. simpl in Hne.
        apply Z.eqb_neq in Hne. congruence.
      * rewrite (Hexact e He'). lia.
    + rewrite Hevs in H. apply (Hbound e H).
    + rewrite Hevs in H. apply (Hbound e H).
    + unfold event_keys_unique. rewrite Hevs. exact Hek.
    + unfold registration_keys_unique. rewrite Hregs.
      rewrite map_update_where_key by reflexivity. exact Hrk.
Qed.

(** X1. Over a sequence of calls none of which cancels a registration that is
    already cancelled, the counter of every event stays the number of its
    live registrations, between 0 and the capacity. *)
Theorem counter_kept_without_repeated_cancel :
  forall (ops : list Operation) (db : Store),
    counter_invariant db ->
    no_repeated_cancel ops db = true ->
    counter_invariant (run_operations ops db).
Proof.
  induction ops as [|op ops IH]; intros db Hinv Hops; [exact Hinv|].
  simpl in Hops. apply andb_true_iff in Hops. destruct Hops as [Hop Hrest].
  simpl. apply IH; [| exact Hrest].
  destruct op as [now sid eid | rid]; simpl.
  - destruct (register_student now (RegistrationCreate.mk sid eid) db)
      as [out|e] eqn:Hrun; simpl; [| exact Hinv].
    pose proof (register_keeps_invariant _ _ _ _ Hinv Hrun) as H.
    destruct out. exact H.
  - destruct (cancel_registration rid db) as [out|e] eqn:Hrun; simpl;
      [| exact Hinv].
    simpl in Hop.
    destruct (get_registration_by_id db rid) as [reg|] eqn:Hreg.
    + assert (Hlive : Registration.status reg <> Cancelled)
        by (intros Hc; rewrite Hc in Hop; discriminate Hop).
      pose proof (cancel_live_keeps_invariant _ _ _ _ Hinv Hreg Hlive Hrun) as H.
      destruct out. exact H.
    + unfold cancel_registration in Hrun. rewrite Hreg in Hrun.
      discriminate Hrun.
Qed.

Lemma counter_kept_without_repeated_cancel_witness :
  counter_invariant two_seat_db
  /\ no_repeated_cancel [OpRegister 0 1 1; OpRegister 0 2 1; OpCancel 1]
                        two_seat_db = true
  /\ counter_invariant
       (run_operations [OpRegister 0 1 1; OpRegister 0 2 1; OpCancel 1]
                       two_seat_db).
Proof.
  assert (H0 : counter_invariant two_seat_db).
  { split; [| split; [| split]].
    - intros e [<- | []]. reflexivity.
    - intros e [<- | []]. simpl. lia.
    - repeat constructor; simpl; tauto.
    - constructor. }
  split; [exact H0|]. split; [reflexivity|].
  apply counter_kept_without_repeated_cancel; [exact H0 | reflexivity].
Defined.

(** The duplicate check of [register_student] looks at every registration
    row of the pair and not at its status: a row that is [Cancelled] rejects
    the call like one that is [Registered]. *)
Lemma register_rejected_whatever_status now req db student event r :
  get_student_by_id db (RegistrationCreate.student_id req) = Some student ->
  get_event_by_id db (RegistrationCreate.event_id req) = Some event ->
  Event.status event = EventActive ->
  now < Event.start_time event ->
  In r (registrations db) ->
  Registration.student_id r = RegistrationCreate.student_id req ->
  Registration.event_id r = RegistrationCreate.event_id req ->
  register_student now req db = Raise (register_error NoDuplicate).
Proof.
  intros Hs He Hact Hfut Hin Hsid Heid.
  unfold register_student, register_student_session.
  rewrite Hs, He; simpl. rewrite Hact; simpl.
  replace (Event.start_time event <=? now) with false
    by (symmetry; apply Z.leb_gt; lia).
  simpl.
  destruct (find _ (registrations db)) as [dup|] eqn:Hdup; [reflexivity|].
  exfalso. pose proof (find_none _ _ Hdup r Hin) as Hr. simpl in Hr.
  rewrite Hsid, Heid, !Z.eqb_refl in Hr. discriminate Hr.
Qed.

(* ===================================================================== *)
(** ** What a served request looked up, and what it wrote *)

Lemma is_set_find_key {A : Type} (key : A -> Z) (i : Z) (l : list A) :
  is_set (find (fun x => key x =? i) l)
  = existsb (fun k => k =? i) (map key l).
Proof.
  induction l as [|x l IH]; simpl; [reflexivity|].
  destruct (key x =? i); simpl; [reflexivity | exact IH].
Qed.

Lemma register_student_shape now req db out :
  register_student now req db = Ok out ->
  exists student event,
    get_student_by_id db (RegistrationCreate.student_id req) = Some student
    /\ get_event_by_id db (RegistrationCreate.event_id req) = Some event
    /\ Event.status event = EventActive
    /\ now < Event.start_time event
    /\ find (registered_pair (RegistrationCreate.student_id req)
                             (RegistrationCreate.event_id req))
            (registrations db) = None
    /\ Event.current_registrations event < Event.max_capacity event
    /\ out = register_student_commit
               (mkPending (RegistrationCreate.student_id req)
                          (RegistrationCreate.event_id req)
                          (Event.current_registrations event + 1)) db.
Proof.
  unfold register_student, register_student_session.
  destruct (get_student_by_id db (RegistrationCreate.student_id req))
    as [student|]; cbn [first_or bind]; [| discriminate].
  destruct (get_event_by_id db (RegistrationCreate.event_id req)) as [event|];
    cbn [first_or bind]; [| discriminate].
  destruct (EventStatus_eqb (Event.status event) EventActive) eqn:Hact;
    cbn [negb raise_if bind]; [| discriminate].
  destruct (Event.start_time event <=? now) eqn:Hfut; cbn [raise_if bind];
    [discriminate|].
  fold (registered_pair (RegistrationCreate.student_id req)
                        (RegistrationCreate.event_id req)).
  destruct (find _ (registrations db)) eqn:Hdup; cbn [raise_if bind];
    [discriminate|].
  destruct (Event.current_registrations event >=? Event.max_capacity event)
    eqn:Hcap; cbn [raise_if bind]; [discriminate|].
  intros H. inversion H. exists student, event.
  repeat split; try reflexivity.
  - destruct (Event.status event); simpl in Hact; congruence.
  - apply Z.leb_gt in Hfut. exact Hfut.
  - rewrite Z.geb_leb in Hcap. apply Z.leb_gt in Hcap. exact Hcap.
Qed.

Lemma mark_attendance_shape now req db out :
  mark_attendance now req db = Ok out ->
  let rid := AttendanceCreate.registration_id req in
  exists reg,
    get_registration_by_id db rid = Some reg
    /\ Registration.status reg = Registered
    /\ ((AttendanceCreate.action req = "check_in"
         /\ (forall a, get_attendance_of db rid = Some a ->
                       Attendance.check_in_time a = None)
         /\ exists st,
              attended st = true
              /\ out = save_attendance (get_attendance_of db rid)
                         (Attendance.set_check_in now st) rid db)
        \/ (AttendanceCreate.action req = "check_out"
            /\ exists a,
                 get_attendance_of db rid = Some a
                 /\ is_set (Attendance.check_in_time a) = true
                 /\ Attendance.check_out_time a = None
                 /\ out = save_attendance (Some a)
                            (Attendance.set_check_out_time now) rid db)).
Proof.
  intros Hrun rid. unfold mark_attendance, action_must_be_valid in Hrun.
  unfold mark_attendance_handler in Hrun. fold rid in Hrun.
  destruct (String.eqb (AttendanceCreate.action req) "check_in") eqn:Hci.
  - cbn [orb negb bind] in Hrun.
    destruct (get_registration_by_id db rid) as [reg|];
      cbn [first_or bind] in Hrun; [| discriminate].
    destruct (RegistrationStatus_eqb (Registration.status reg) Registered)
      eqn:Hst; cbn [negb raise_if bind] in Hrun; [| discriminate].
    exists reg. split; [reflexivity|]. split.
    { destruct (Registration.status reg); simpl in Hst; congruence. }
    left. split; [apply String.eqb_eq; exact Hci|].
    destruct (get_attendance_of db rid) as [a|] eqn:Ha.
    + destruct (Attendance.check_in_time a) eqn:Hin;
        cbn [is_set raise_if bind] in Hrun; [discriminate|].
      split; [intros a' Ha'; inversion Ha'; subst a'; exact Hin|].
      inversion Hrun. eexists. split; [| reflexivity].
      destruct (get_event_by_id db (Registration.event_id reg)) as [ev|];
        [destruct (now >? _)|]; reflexivity.
    + cbn [Attendance_new Attendance.check_in_time is_set raise_if bind] in Hrun.
      split; [intros a' Ha'; discriminate Ha'|].
      inversion Hrun. eexists. split; [| reflexivity].
      destruct (get_event_by_id db (Registration.event_id reg)) as [ev|];
        [destruct (now >? _)|]; reflexivity.
  - destruct (String.eqb (AttendanceCreate.action req) "check_out") eqn:Hco;
      cbn [orb negb bind] in Hrun; [| discriminate].
    destruct (get_registration_by_id db rid) as [reg|];
      cbn [first_or bind] in Hrun; [| discriminate].
    destruct (RegistrationStatus_eqb (Registration.status reg) Registered)
      eqn:Hst; cbn [negb raise_if bind] in Hrun; [| discriminate].
    exists reg. split; [reflexivity|]. split.
    { destruct (Registration.status reg); simpl in Hst; congruence. }
    right. split; [apply String.eqb_eq; exact Hco|].
    destruct (get_attendance_of db rid) as [a|] eqn:Ha; [| discriminate].
    destruct (is_set (Attendance.check_in_time a)) eqn:Hin;
      cbn [negb raise_if bind] in Hrun; [| discriminate].
    destruct (Attendance.check_out_time a) eqn:Hout;
      cbn [is_set raise_if bind] in Hrun; [discriminate|].
    exists a. inversion Hrun. repeat split; assumption.
Qed.

Lemma submit_feedback_shape req db out :
  submit_feedback req db = Ok out ->
  let rid := FeedbackCreate.registration_id req in
  1 <= FeedbackCreate.rating req <= 5
  /\ (exists reg, get_registration_by_id db rid = Some reg)
  /\ (exists a, In a (attendance db)
                /\ Attendance.registration_id a = rid
                /\ attended (Attendance.status a) = true)
  /\ find (fun f => Feedback.registration_id f =? rid) (feedback db) = None
  /\ out = (with_feedback
              (feedback db
               ++ [Feedback.mk (next_id (map Feedback.id (feedback db))) rid
                               (FeedbackCreate.rating req)
                               (FeedbackCreate.comment req)]) db,
            Feedback.mk (next_id (map Feedback.id (feedback db))) rid
                        (FeedbackCreate.rating req)
                        (FeedbackCreate.comment req)).
Proof.
  intros Hrun rid. unfold submit_feedback, rating_must_be_valid in Hrun.
  destruct ((FeedbackCreate.rating req <? 1) || (FeedbackCreate.rating req >? 5))
    eqn:Hr; cbn [bind] in Hrun; [discriminate|].
  unfold submit_feedback_handler in Hrun. fold rid in Hrun.
  destruct (get_registration_by_id db rid) as [reg|];
    cbn [first_or bind] in Hrun; [| discriminate].
  destruct (find _ (attendance db)) as [a|] eqn:Ha;
    cbn [is_set negb raise_if bind] in Hrun; [| discriminate].
  destruct (find _ (feedback db)) as [f|] eqn:Hf;
    cbn [is_set raise_if bind] in Hrun; [discriminate|].
  split; [apply rating_in_range; exact Hr|].
  split; [exists reg; reflexivity|]. split.
  - apply find_some in Ha. destruct Ha as [Hin Hp].
    apply andb_true_iff in Hp. destruct Hp as [Hrid Hatt].
    exists a. split; [exact Hin|]. split; [apply Z.eqb_eq; exact Hrid|].
    exact Hatt.
  - split; [reflexivity|]. inversion Hrun. reflexivity.
Qed.

Lemma cancel_event_shape eid db out :
  cancel_event eid db = Ok out ->
  exists event,
    get_event_by_id db eid = Some event
    /\ out = (with_events
                (update_where (fun e => Event.id e =? eid)
                              (Event_set_status EventCancelled) (events db)) db,
              "Event cancelled successfully").
Proof.
  unfold cancel_event.
  destruct (get_event_by_id db eid) as [event|] eqn:He; cbn [first_or bind];
    [| discriminate].
  intros H. inversion H. exists event. split; [reflexivity|].
  rewrite (find_some_key Event.id eid _ _ He). reflexivity.
Qed.

(** The tables a request leaves alone. *)
Lemma save_attendance_frame existing f rid db :
  let db' := fst (save_attendance existing f rid db) in
  students db' = students db /\ events db' = events db
  /\ registrations db' = registrations db /\ feedback db' = feedback db.
Proof. destruct existing; simpl; repeat split. Qed.

Lemma db_after_ok {A : Type} (db : Store) (out : Store * A) :
  db_after db (Ok out) = fst out.
Proof. destruct out; reflexivity. Qed.

Lemma register_student_frame now req db out :
  register_student now req db = Ok out ->
  students (fst out) = students db
  /\ attendance (fst out) = attendance db
  /\ feedback (fst out) = feedback db
  /\ map Event.id (events (fst out)) = map Event.id (events db).
Proof.
  intros H.
  destruct (register_student_shape _ _ _ _ H)
    as (? & ? & _ & _ & _ & _ & _ & _ & ->).
  simpl. repeat split. apply map_update_where_key. reflexivity.
Qed.

Lemma cancel_registration_frame rid db out :
  cancel_registration rid db = Ok out ->
  students (fst out) = students db
  /\ attendance (fst out) = attendance db
  /\ feedback (fst out) = feedback db
  /\ map Event.id (events (fst out)) = map Event.id (events db)
  /\ registrations (fst out)
     = update_where (fun r => Registration.id r =? rid)
                    (Registration.set_status Cancelled) (registrations db).
Proof.
  intros H.
  destruct (get_registration_by_id db rid) as [reg|] eqn:Hreg.
  - destruct (cancel_registration_tables db rid reg Hreg)
      as (db' & Hrun & Hregs & Hevs & Hs & Ha & Hf).
    rewrite Hrun in H. inversion H; subst out. simpl.
    repeat split; try assumption.
    rewrite Hevs.
    destruct (get_event_by_id db (Registration.event_id reg)) as [event|];
      [| reflexivity].
    destruct (Event.current_registrations event >? 0); [| reflexivity].
    apply map_update_where_key. reflexivity.
  - unfold cancel_registration in H. rewrite Hreg in H. discriminate H.
Qed.

Lemma mark_attendance_frame now req db out :
  mark_attendance now req db = Ok out ->
  students (fst out) = students db /\ events (fst out) = events db
  /\ registrations (fst out) = registrations db
  /\ feedback (fst out) = feedback db.
Proof.
  intros H.
  destruct (mark_attendance_shape _ _ _ _ H)
    as (reg & _ & _ & [(_ & _ & st & _ & ->) | (_ & a & _ & _ & _ & ->)]);
    apply save_attendance_frame.
Qed.

Lemma submit_feedback_frame req db out :
  submit_feedback req db = Ok out ->
  students (fst out) = students db /\ events (fst out) = events db
  /\ registrations (fst out) = registrations db
  /\ attendance (fst out) = attendance db.
Proof.
  intros H. destruct (submit_feedback_shape _ _ _ H) as (_ & _ & _ & _ & ->).
  simpl. repeat split.
Qed.

Lemma cancel_event_frame eid db out :
  cancel_event eid db = Ok out ->
  students (fst out) = students db
  /\ registrations (fst out) = registrations db
  /\ attendance (fst out) = attendance db
  /\ feedback (fst out) = feedback db
  /\ map Event.id (events (fst out)) = map Event.id (events db).
Proof.
  intros H. destruct (cancel_event_shape _ _ _ H) as (? & _ & ->).
  simpl. repeat split. apply map_update_where_key. reflexivity.
Qed.

(** No request changes the students, or the keys of the events. *)
Lemma serve_students_events rq db :
  students (serve rq db) = students db
  /\ map Event.id (events (serve rq db)) = map Event.id (events db).
Proof.
  destruct rq as [now body | rid | now body | body | eid]; simpl.
  - destruct (register_student now body db) as [out|] eqn:H; [| tauto].
    rewrite db_after_ok. pose proof (register_student_frame _ _ _ _ H). tauto.
  - destruct (cancel_registration rid db) as [out|] eqn:H; [| tauto].
    rewrite db_after_ok. pose proof (cancel_registration_frame _ _ _ H). tauto.
  - destruct (mark_attendance now body db) as [out|] eqn:H; [| tauto].
    rewrite db_after_ok.
    destruct (mark_attendance_frame _ _ _ _ H) as (-> & -> & _). tauto.
  - destruct (submit_feedback body db) as [out|] eqn:H; [| tauto].
    rewrite db_after_ok.
    destruct (submit_feedback_frame _ _ _ H) as (-> & -> & _). tauto.
  - destruct (cancel_event eid db) as [out|] eqn:H; [| tauto].
    rewrite db_after_ok. pose proof (cancel_event_frame _ _ _ H). tauto.
Qed.

(* ===================================================================== *)
(** ** The registrations table over any sequence of requests *)

Lemma map_update_where_proj {A B : Type} (g : A -> B) (q : A -> bool)
      (f : A -> A) l :
  (forall x, g (f x) = g x) -> map g (update_where q f l) = map g l.
Proof.
  intros Hf. unfold update_where. rewrite map_map. apply map_ext.
  intros x. destruct (q x); [apply Hf | reflexivity].
Qed.

Lemma student_lookup_ext db db' i :
  students db' = students db ->
  is_set (get_student_by_id db' i) = is_set (get_student_by_id db i).
Proof. unfold get_student_by_id. intros ->. reflexivity. Qed.

Lemma event_lookup_ext db db' i :
  map Event.id (events db') = map Event.id (events db) ->
  is_set (get_event_by_id db' i) = is_set (get_event_by_id db i).
Proof.
  unfold get_event_by_id. intros H.
  rewrite !(is_set_find_key Event.id), H. reflexivity.
Qed.

Lemma registration_lookup_ext db db' i :
  map Registration.id (registrations db')
  = map Registration.id (registrations db) ->
  is_set (get_registration_by_id db' i) = is_set (get_registration_by_id db i).
Proof.
  unfold get_registration_by_id. intros H.
  rewrite !(is_set_find_key Registration.id), H. reflexivity.
Qed.

Lemma registrations_consistent_transfer db db' :
  students db' = students db ->
  map Event.id (events db') = map Event.id (events db) ->
  map Registration.id (registrations db')
  = map Registration.id (registrations db) ->
  map pair_of (registrations db') = map pair_of (registrations db) ->
  registrations_consistent db -> registrations_consistent db'.
Proof.
  intros Hs He Hid Hpair (Hk & Hp & Hfk).
  split; [rewrite Hid; exact Hk|]. split; [rewrite Hpair; exact Hp|].
  intros r' Hr'.
  assert (Hin : In (pair_of r') (map pair_of (registrations db)))
    by (rewrite <- Hpair; apply in_map; exact Hr').
  apply in_map_iff in Hin. destruct Hin as (r & Heq & Hr).
  destruct (Hfk r Hr) as [H1 H2].
  unfold pair_of in Heq. injection Heq as E1 E2.
  rewrite (student_lookup_ext db db' _ Hs), (event_lookup_ext db db' _ He).
  rewrite <- E1, <- E2. split; assumption.
Qed.

Lemma registered_pair_absent sid eid regs :
  find (registered_pair sid eid) regs = None ->
  ~ In (sid, eid) (map pair_of regs).
Proof.
  intros Hnone Hin. apply in_map_iff in Hin. destruct Hin as (r & Heq & Hr).
  pose proof (find_none _ _ Hnone r Hr) as H.
  unfold registered_pair in H. unfold pair_of in Heq. inversion Heq.
  subst. rewrite !Z.eqb_refl in H. discriminate H.
Qed.

Lemma registrations_consistent_serve rq db :
  registrations_consistent db -> registrations_consistent (serve rq db).
Proof.
  intros Hinv.
  destruct (serve_students_events rq db) as [Hs He].
  destruct rq as [now body | rid | now body | body | eid]; simpl in *.
  - destruct (register_student now body db) as [out|] eqn:H; [| exact Hinv].
    rewrite db_after_ok in *.
    destruct (register_student_shape _ _ _ _ H)
      as (student & event & Hst & Hev & _ & _ & Hdup & _ & ->).
    destruct Hinv as (Hk & Hp & Hfk).
    unfold registrations_consistent. simpl registrations.
    split; [| split].
    + rewrite map_app. simpl.
      apply NoDup_app; [exact Hk | repeat constructor; simpl; tauto |].
      intros x Hx [<- | []]. exact (next_id_fresh _ Hx).
    + rewrite map_app. simpl.
      apply NoDup_app; [exact Hp | repeat constructor; simpl; tauto |].
      intros x Hx [<- | []].
      exact (registered_pair_absent _ _ _ Hdup Hx).
    + intros r Hr. rewrite (student_lookup_ext db _ _ Hs).
      rewrite (event_lookup_ext db _ _ He).
      apply in_app_or in Hr. destruct Hr as [Hr | [<- | []]].
      * exact (Hfk r Hr).
      * simpl. rewrite Hst, Hev. split; reflexivity.
  - destruct (cancel_registration rid db) as [out|] eqn:H; [| exact Hinv].
    rewrite db_after_ok in *.
    destruct (cancel_registration_frame _ _ _ H) as (_ & _ & _ & _ & Hregs).
    apply (registrations_consistent_transfer db); try assumption;
      rewrite Hregs; apply map_update_where_proj; reflexivity.
  - destruct (mark_attendance now body db) as [out|] eqn:H; [| exact Hinv].
    rewrite db_after_ok in *.
    destruct (mark_attendance_frame _ _ _ _ H) as (_ & _ & Hregs & _).
    apply (registrations_consistent_transfer db); try assumption;
      rewrite Hregs; reflexivity.
  - destruct (submit_feedback body db) as [out|] eqn:H; [| exact Hinv].
    rewrite db_after_ok in *.
    destruct (submit_feedback_frame _ _ _ H) as (_ & _ & Hregs & _).
    apply (registrations_consistent_transfer db); try assumption;
      rewrite Hregs; reflexivity.
  - destruct (cancel_event eid db) as [out|] eqn:H; [| exact Hinv].
    rewrite db_after_ok in *.
    destruct (cancel_event_frame _ _ _ H) as (_ & Hregs & _).
    apply (registrations_consistent_transfer db); try assumption;
      rewrite Hregs; reflexivity.
Qed.

(** X2. Whatever requests are served, in whatever order, the registrations
    table keeps distinct keys, holds at most one row per (student, event)
    pair -- cancelled rows included -- and every row refers to a student
    and an event that exist. *)
Theorem registrations_stay_consistent :
  forall (rqs : list Request) (db : Store),
    registrations_consistent db ->
    registrations_consistent (serve_all rqs db).
Proof.
  induction rqs as [|rq rqs IH]; intros db Hinv; [exact Hinv|].
  simpl. apply IH. apply registrations_consistent_serve. exact Hinv.
Qed.

(* ===================================================================== *)
(** ** The attendance and feedback tables over any sequence of requests *)

(** No request removes a registration or changes its key. *)
Lemma serve_registration_keys rq db :
  exists added,
    map Registration.id (registrations (serve rq db))
    = map Registration.id (registrations db) ++ added.
Proof.
  destruct rq as [now body | rid | now body | body | eid]; simpl.
  - destruct (register_student now body db) as [out|] eqn:H;
      [| exists []; now rewrite app_nil_r].
    rewrite db_after_ok.
    destruct (register_student_shape _ _ _ _ H)
      as (? & ? & _ & _ & _ & _ & _ & _ & ->).
    simpl. rewrite map_app. eexists. reflexivity.
  - exists []. rewrite app_nil_r.
    destruct (cancel_registration rid db) as [out|] eqn:H; [| reflexivity].
    rewrite db_after_ok.
    destruct (cancel_registration_frame _ _ _ H) as (_ & _ & _ & _ & ->).
    apply map_update_where_proj. reflexivity.
  - exists []. rewrite app_nil_r.
    destruct (mark_attendance now body db) as [out|] eqn:H; [| reflexivity].
    rewrite db_after_ok.
    destruct (mark_attendance_frame _ _ _ _ H) as (_ & _ & -> & _).
    reflexivity.
  - exists []. rewrite app_nil_r.
    destruct (submit_feedback body db) as [out|] eqn:H; [| reflexivity].
    rewrite db_after_ok.
    destruct (submit_feedback_frame _ _ _ H) as (_ & _ & -> & _).
    reflexivity.
  - exists []. rewrite app_nil_r.
    destruct (cancel_event eid db) as [out|] eqn:H; [| reflexivity].
    rewrite db_after_ok.
    destruct (cancel_event_frame _ _ _ H) as (_ & -> & _). reflexivity.
Qed.

Lemma serve_registration_lookup rq db i :
  is_set (get_registration_by_id db i) = true ->
  is_set (get_registration_by_id (serve rq db) i) = true.
Proof.
  unfold get_registration_by_id.
  rewrite !(is_set_find_key Registration.id).
  destruct (serve_registration_keys rq db) as (added & ->).
  rewrite existsb_app. intros ->. reflexivity.
Qed.

(** The attendance table after a request that is not a served
    [PostAttendance] is the one before. *)
Lemma serve_attendance_other rq db :
  (forall now body, rq <> PostAttendance now body) ->
  attendance (serve rq db) = attendance db.
Proof.
  intros Hrq.
  destruct rq as [now body | rid | now body | body | eid]; simpl.
  - destruct (register_student now body db) as [out|] eqn:H; [| reflexivity].
    rewrite db_after_ok. apply (register_student_frame _ _ _ _ H).
  - destruct (cancel_registration rid db) as [out|] eqn:H; [| reflexivity].
    rewrite db_after_ok. apply (cancel_registration_frame _ _ _ H).
  - exfalso. exact (Hrq now body eq_refl).
  - destruct (submit_feedback body db) as [out|] eqn:H; [| reflexivity].
    rewrite db_after_ok. apply (submit_feedback_frame _ _ _ H).
  - destruct (cancel_event eid db) as [out|] eqn:H; [| reflexivity].
    rewrite db_after_ok. apply (cancel_event_frame _ _ _ H).
Qed.

Lemma attendance_key_absent rid ats :
  find (fun a => Attendance.registration_id a =? rid) ats = None ->
  ~ In rid (map Attendance.registration_id ats).
Proof.
  intros Hnone Hin. apply in_map_iff in Hin. destruct Hin as (a & Heq & Ha).
  pose proof (find_none _ _ Hnone a Ha) as H. simpl in H.
  rewrite Heq, Z.eqb_refl in H. discriminate H.
Qed.

(** A served check-in or check-out, on a consistent attendance table. *)
Lemma attendance_consistent_saved db rid reg existing f :
  attendance_consistent db ->
  get_registration_by_id db rid = Some reg ->
  existing = get_attendance_of db rid ->
  (forall a, Attendance.id (f a) = Attendance.id a) ->
  (forall a, Attendance.registration_id (f a) = Attendance.registration_id a) ->
  (forall a,
     is_set (Attendance.check_in_time a) = true ->
     attended (Attendance.status a) = true ->
     is_set (Attendance.check_in_time (f a)) = true
     /\ attended (Attendance.status (f a)) = true) ->
  (existing = None ->
   is_set (Attendance.check_in_time (f (Attendance_new db rid))) = true
   /\ attended (Attendance.status (f (Attendance_new db rid))) = true) ->
  attendance_consistent (fst (save_attendance existing f rid db)).
Proof.
  intros (Hk & Hu & Hrows) Hreg -> Hid Hrid Hf Hnew.
  assert (Hregs : forall db', registrations db' = registrations db ->
            forall i, get_registration_by_id db' i = get_registration_by_id db i)
    by (intros db' E i; unfold get_registration_by_id; now rewrite E).
  unfold save_attendance.
  destruct (get_attendance_of db rid) as [a|] eqn:Ha; simpl.
  - split; [| split].
    + simpl. rewrite map_update_where_key by exact Hid. exact Hk.
    + unfold attendance_unique. simpl.
      rewrite map_update_where_key by exact Hrid. exact Hu.
    + simpl attendance. intros y Hy. apply in_update_where in Hy.
      destruct Hy as (x & Hx & ->).
      unfold get_registration_by_id; simpl.
      destruct (Hrows x Hx) as (Hfk & Hin & Hatt).
      destruct (Attendance.id x =? Attendance.id a).
      * rewrite Hrid. split; [exact Hfk|]. apply Hf; assumption.
      * repeat split; assumption.
  - split; [| split].
    + simpl. rewrite map_app. simpl.
      apply NoDup_app; [exact Hk | repeat constructor; simpl; tauto |].
      intros x Hx [Heq | []]. rewrite Hid in Heq. simpl in Heq.
      rewrite <- Heq in Hx. exact (next_id_fresh _ Hx).
    + unfold attendance_unique. simpl. rewrite map_app. simpl.
      apply NoDup_app; [exact Hu | repeat constructor; simpl; tauto |].
      intros x Hx [Heq | []]. rewrite Hrid in Heq. simpl in Heq.
      rewrite <- Heq in Hx.
      exact (attendance_key_absent _ _ Ha Hx).
    + simpl attendance. intros y Hy.
      unfold get_registration_by_id; simpl.
      apply in_app_or in Hy. destruct Hy as [Hy | [<- | []]].
      * exact (Hrows y Hy).
      * rewrite Hrid. simpl.
        unfold get_registration_by_id in Hreg. rewrite Hreg.
        split; [reflexivity|]. apply Hnew. reflexivity.
Qed.

Lemma attendance_consistent_serve rq db :
  attendance_consistent db -> attendance_consistent (serve rq db).
Proof.
  intros Hinv.
  assert (Hother : attendance (serve rq db) = attendance db ->
                   attendance_consistent (serve rq db)).
  { intros E. destruct Hinv as (Hk & Hu & Hrows).
    unfold attendance_consistent, attendance_unique. rewrite E.
    split; [exact Hk|]. split; [exact Hu|].
    intros a Ha. destruct (Hrows a Ha) as (Hfk & Hin & Hatt).
    split; [| split; assumption].
    apply serve_registration_lookup. exact Hfk. }
  destruct rq as [now body | rid | now body | body | eid];
    try (apply Hother; apply serve_attendance_other; discriminate).
  simpl. destruct (mark_attendance now body db) as [out|] eqn:H;
    [| exact Hinv].
  rewrite db_after_ok.
  destruct (mark_attendance_shape _ _ _ _ H)
    as (reg & Hreg & _ & [(_ & _ & st & Hst & ->) | (_ & a & Ha & Hin & _ & ->)]).
  - apply (attendance_consistent_saved db _ reg); try assumption;
      try reflexivity.
    + intros x _ _. simpl. split; [reflexivity | exact Hst].
    + intros _. simpl. split; [reflexivity | exact Hst].
  - apply (attendance_consistent_saved db _ reg); try assumption;
      try reflexivity; [symmetry; exact Ha | | discriminate].
    intros x Hx1 Hx2. simpl. split; assumption.
Qed.

(** X3. Whatever requests are served, the attendance table keeps distinct keys
    and one row per registration, each row belongs to a registration that
    exists, and each row is checked in with status present or late: no
    request stores a row with status absent. *)
Theorem attendance_stays_consistent :
  forall (rqs : list Request) (db : Store),
    attendance_consistent db ->
    attendance_consistent (serve_all rqs db).
Proof.
  induction rqs as [|rq rqs IH]; intros db Hinv; [exact Hinv|].
  simpl. apply IH. apply attendance_consistent_serve. exact Hinv.
Qed.

(** An attendance row that counts as attended is never lost or demoted. *)
Lemma serve_attended_persists rq db a :
  In a (attendance db) ->
  attended (Attendance.status a) = true ->
  exists a', In a' (attendance (serve rq db))
             /\ Attendance.registration_id a' = Attendance.registration_id a
             /\ attended (Attendance.status a') = true.
Proof.
  intros Ha Hatt.
  assert (Hother : attendance (serve rq db) = attendance db ->
            exists a', In a' (attendance (serve rq db))
                       /\ Attendance.registration_id a'
                          = Attendance.registration_id a
                       /\ attended (Attendance.status a') = true).
  { intros E. exists a. rewrite E. repeat split; assumption. }
  destruct rq as [now body | rid | now body | body | eid];
    try (apply Hother; apply serve_attendance_other; discriminate).
  simpl. destruct (mark_attendance now body db) as [out|] eqn:H;
    [| exists a; repeat split; assumption].
  rewrite db_after_ok.
  assert (Hsave : forall existing f,
            (forall x, Attendance.registration_id (f x)
                       = Attendance.registration_id x) ->
            (forall x, attended (Attendance.status x) = true ->
                       attended (Attendance.status (f x)) = true) ->
            exists a',
              In a' (attendance
                       (fst (save_attendance existing f
                               (AttendanceCreate.registration_id body) db)))
              /\ Attendance.registration_id a' = Attendance.registration_id a
              /\ attended (Attendance.status a') = true).
  { intros existing f Hrid Hf. unfold save_attendance.
    destruct existing as [e|]; simpl.
    - exists (if Attendance.id a =? Attendance.id e then f a else a).
      split.
      + unfold update_where.
        apply (in_map (fun row => if Attendance.id row =? Attendance.id e
                                  then f row else row)).
        exact Ha.
      + destruct (Attendance.id a =? Attendance.id e);
          [split; [apply Hrid | apply Hf; exact Hatt] | split; [reflexivity | exact Hatt]].
    - exists a. split; [apply in_or_app; left; exact Ha|].
      split; [reflexivity | exact Hatt]. }
  destruct (mark_attendance_shape _ _ _ _ H)
    as (reg & _ & _ & [(_ & _ & st & Hst & ->) | (_ & e & _ & _ & _ & ->)]).
  - apply Hsave; [reflexivity|]. intros x _. exact Hst.
  - apply Hsave; [reflexivity|]. intros x Hx. exact Hx.
Qed.

Lemma feedback_key_absent rid fs :
  find (fun f => Feedback.registration_id f =? rid) fs = None ->
  ~ In rid (map Feedback.registration_id fs).
Proof.
  intros Hnone Hin. apply in_map_iff in Hin. destruct Hin as (f & Heq & Hf).
  pose proof (find_none _ _ Hnone f Hf) as H. simpl in H.
  rewrite Heq, Z.eqb_refl in H. discriminate H.
Qed.

Lemma serve_feedback_other rq db :
  (forall body, rq <> PostFeedback body) ->
  feedback (serve rq db) = feedback db.
Proof.
  intros Hrq.
  destruct rq as [now body | rid | now body | body | eid]; simpl.
  - destruct (register_student now body db) as [out|] eqn:H; [| reflexivity].
    rewrite db_after_ok. apply (register_student_frame _ _ _ _ H).
  - destruct (cancel_registration rid db) as [out|] eqn:H; [| reflexivity].
    rewrite db_after_ok. apply (cancel_registration_frame _ _ _ H).
  - destruct (mark_attendance now body db) as [out|] eqn:H; [| reflexivity].
    rewrite db_after_ok. apply (mark_attendance_frame _ _ _ _ H).
  - exfalso. exact (Hrq body eq_refl).
  - destruct (cancel_event eid db) as [out|] eqn:H; [| reflexivity].
    rewrite db_after_ok. apply (cancel_event_frame _ _ _ H).
Qed.

Lemma feedback_consistent_serve rq db :
  feedback_consistent db -> feedback_consistent (serve rq db).
Proof.
  intros (Hk & Hu & Hrows).
  assert (Hkeep : forall f, In f (feedback db) ->
            1 <= Feedback.rating f <= 5
            /\ is_set (get_registration_by_id (serve rq db)
                         (Feedback.registration_id f)) = true
            /\ exists a, In a (attendance (serve rq db))
                         /\ Attendance.registration_id a
                            = Feedback.registration_id f
                         /\ attended (Attendance.status a) = true).
  { intros f Hf. destruct (Hrows f Hf) as (Hr & Hfk & a & Ha & Hrid & Hatt).
    split; [exact Hr|]. split; [apply serve_registration_lookup; exact Hfk|].
    destruct (serve_attended_persists rq db a Ha Hatt) as (a' & Ha' & Hrid' & Hatt').
    exists a'. split; [exact Ha'|]. split; [congruence | exact Hatt']. }
  assert (Hother : feedback (serve rq db) = feedback db ->
                   feedback_consistent (serve rq db)).
  { intros E. unfold feedback_consistent. rewrite E.
    split; [exact Hk|]. split; [exact Hu | exact Hkeep]. }
  destruct rq as [now body | rid | now body | body | eid];
    try (apply Hother; apply serve_feedback_other; discriminate).
  simpl in *. destruct (submit_feedback body db) as [out|] eqn:H;
    [| split; [exact Hk | split; [exact Hu | exact Hrows]]].
  rewrite db_after_ok in *.
  destruct (submit_feedback_shape _ _ _ H)
    as (Hrange & (reg & Hreg) & (a & Ha & Hrid & Hatt) & Hnone & ->).
  unfold feedback_consistent. simpl feedback. simpl fst in Hkeep.
  split; [| split].
  - rewrite map_app. simpl.
    apply NoDup_app; [exact Hk | repeat constructor; simpl; tauto |].
    intros x Hx [<- | []]. exact (next_id_fresh _ Hx).
  - rewrite map_app. simpl.
    apply NoDup_app; [exact Hu | repeat constructor; simpl; tauto |].
    intros x Hx [<- | []]. exact (feedback_key_absent _ _ Hnone Hx).
  - intros f Hf. apply in_app_or in Hf. destruct Hf as [Hf | [<- | []]].
    + exact (Hkeep f Hf).
    + simpl. split; [exact Hrange|]. split.
      * unfold get_registration_by_id in *. simpl. rewrite Hreg. reflexivity.
      * exists a. repeat split; assumption.
Qed.

(** X4. Whatever requests are served, the feedback table keeps distinct keys
    and at most one row per registration, every rating is between 1 and 5,
    and every row belongs to an existing registration whose attendance
    record is present or late -- also after that registration is
    cancelled. *)
Theorem feedback_stays_consistent :
  forall (rqs : list Request) (db : Store),
    feedback_consistent db ->
    feedback_consistent (serve_all rqs db).
Proof.
  induction rqs as [|rq rqs IH]; intros db Hinv; [exact Hinv|].
  simpl. apply IH. apply feedback_consistent_serve. exact Hinv.
Qed.

Lemma fresh_db_consistent sts evs :
  registrations_consistent (fresh_db sts evs)
  /\ attendance_consistent (fresh_db sts evs)
  /\ feedback_consistent (fresh_db sts evs).
Proof.
  split; [| split];
    (split; [constructor | split; [constructor | intros x []]]).
Qed.

Lemma registrations_stay_consistent_witness :
  registrations_consistent two_seat_db
  /\ registrations_consistent (serve_all sample_requests two_seat_db)
  /\ map pair_of (registrations (serve_all sample_requests two_seat_db))
     = [(1, 1)].
Proof.
  split; [apply (fresh_db_consistent _ _)|].
  split; [| reflexivity].
  apply registrations_stay_consistent.
  apply (fresh_db_consistent [sample_student 1; sample_student 2]
                             [sample_event 1 2 0]).
Defined.

Lemma attendance_stays_consistent_witness :
  attendance_consistent two_seat_db
  /\ attendance_consistent (serve_all sample_requests two_seat_db)
  /\ map Attendance.status (attendance (serve_all sample_requests two_seat_db))
     = [Present].
Proof.
  split; [apply (fresh_db_consistent _ _)|].
  split; [| reflexivity].
  apply attendance_stays_consistent.
  apply (fresh_db_consistent [sample_student 1; sample_student 2]
                             [sample_event 1 2 0]).
Defined.

Lemma feedback_stays_consistent_witness :
  feedback_consistent two_seat_db
  /\ feedback_consistent (serve_all sample_requests two_seat_db)
  /\ map Feedback.rating (feedback (serve_all sample_requests two_seat_db))
     = [5].
Proof.
  split; [apply (fresh_db_consistent _ _)|].
  split; [| reflexivity].
  apply feedback_stays_consistent.
  apply (fresh_db_consistent [sample_student 1; sample_student 2]
                             [sample_event 1 2 0]).
Defined.

(* ===================================================================== *)
(** ** How the handlers compose *)

Lemma check_in_other_status db now rid reg :
  get_registration_by_id db rid = Some reg ->
  Registration.status reg <> Registered ->
  check_in now rid db = Raise not_registered_error
  /\ check_out now rid db = Raise not_registered_error.
Proof.
  intros Hreg Hst.
  rewrite check_in_is_handler, check_out_is_handler.
  unfold mark_attendance_handler.
  cbn [AttendanceCreate.registration_id]. rewrite Hreg. cbn [first_or bind].
  destruct (Registration.status reg); try contradiction; split; reflexivity.
Qed.

(** X6. After any served cancellation, the registration can neither check in
    nor check out: both are rejected as not registered. *)
Theorem cancelled_registration_cannot_attend :
  forall (db : Store) (rid : Z) (out : Store * string),
    cancel_registration rid db = Ok out ->
    forall now,
      check_in now rid (fst out) = Raise not_registered_error
      /\ check_out now rid (fst out) = Raise not_registered_error.
Proof.
  intros db rid out Hrun now.
  destruct (get_registration_by_id db rid) as [reg|] eqn:Hreg.
  - destruct (cancel_registration_lookup db rid reg Hreg)
      as (db' & Hrun' & Hreg' & _).
    rewrite Hrun' in Hrun. inversion Hrun; subst out. simpl.
    apply (check_in_other_status db' now rid _ Hreg'). discriminate.
  - unfold cancel_registration in Hrun. rewrite Hreg in Hrun.
    discriminate Hrun.
Qed.

Lemma cancelled_registration_cannot_attend_witness :
  let db := serve_all [PostRegister 0 (RegistrationCreate.mk 1 1)] two_seat_db in
  succeeded (cancel_registration 1 db) = true
  /\ check_in 5 1 (db_after db (cancel_registration 1 db))
     = Raise not_registered_error.
Proof.
  split; [reflexivity|].
  exact (proj1 (cancelled_registration_cannot_attend
                  (serve_all [PostRegister 0 (RegistrationCreate.mk 1 1)]
                             two_seat_db)
                  1 _ eq_refl 5)).
Defined.

(** [submit_feedback] reads the keys of the registrations and the attendance
    and feedback tables, nothing else. *)
Lemma submit_feedback_reads db db' req :
  map Registration.id (registrations db')
  = map Registration.id (registrations db) ->
  attendance db' = attendance db ->
  feedback db' = feedback db ->
  response (submit_feedback req db') = response (submit_feedback req db).
Proof.
  intros Hregs Ha Hf. unfold submit_feedback.
  destruct (rating_must_be_valid (FeedbackCreate.rating req)); cbn [bind];
    [| reflexivity].
  unfold submit_feedback_handler. rewrite Ha, Hf.
  pose proof (registration_lookup_ext db db'
                (FeedbackCreate.registration_id req) Hregs) as Hl.
  destruct (get_registration_by_id db' (FeedbackCreate.registration_id req));
    destruct (get_registration_by_id db (FeedbackCreate.registration_id req));
    simpl in Hl; try discriminate; cbn [first_or bind]; [| reflexivity].
  destruct (find _ (attendance db)); cbn [is_set negb raise_if bind];
    [| reflexivity].
  destruct (find _ (feedback db)); cbn [is_set raise_if bind]; reflexivity.
Qed.

(** X7. Cancelling a registration changes the answer to no feedback
    submission: feedback for a registration that was attended is accepted
    after its cancellation as before, and rejected for the same reason as
    before otherwise. *)
Theorem cancellation_keeps_feedback_gate :
  forall (db : Store) (rid : Z) (out : Store * string),
    cancel_registration rid db = Ok out ->
    forall req,
      response (submit_feedback req (fst out))
      = response (submit_feedback req db).
Proof.
  intros db rid out Hrun req.
  destruct (cancel_registration_frame _ _ _ Hrun) as (_ & Ha & Hf & _ & Hregs).
  apply submit_feedback_reads; try assumption.
  rewrite Hregs. apply map_update_where_proj. reflexivity.
Qed.

Lemma cancellation_keeps_feedback_gate_witness :
  let db := serve_all [PostRegister 0 (RegistrationCreate.mk 1 1);
                       PostAttendance 5 (AttendanceCreate.mk 1 "check_in")]
                      two_seat_db in
  succeeded (cancel_registration 1 db) = true
  /\ response (submit_feedback (FeedbackCreate.mk 1 4 None)
                 (db_after db (cancel_registration 1 db)))
     = Ok (Feedback.mk 1 1 4 None).
Proof.
  split; [reflexivity|].
  exact (cancellation_keeps_feedback_gate
           (serve_all [PostRegister 0 (RegistrationCreate.mk 1 1);
                       PostAttendance 5 (AttendanceCreate.mk 1 "check_in")]
                      two_seat_db)
           1 _ eq_refl (FeedbackCreate.mk 1 4 None)).
Defined.

Lemma check_in_when_checked_in db now rid reg rec :
  get_registration_by_id db rid = Some reg ->
  Registration.status reg = Registered ->
  get_attendance_of db rid = Some rec ->
  is_set (Attendance.check_in_time rec) = true ->
  check_in now rid db = Raise already_checked_in_error.
Proof.
  intros Hreg Hst Ha Hin.
  rewrite (check_in_registered db now rid reg Hreg Hst), Ha, Hin. reflexivity.
Qed.

Lemma check_out_when_open db now rid reg rec :
  get_registration_by_id db rid = Some reg ->
  Registration.status reg = Registered ->
  get_attendance_of db rid = Some rec ->
  is_set (Attendance.check_in_time rec) = true ->
  Attendance.check_out_time rec = None ->
  check_out now rid db
  = Ok (save_attendance (Some rec) (Attendance.set_check_out_time now) rid db).
Proof.
  intros Hreg Hst Ha Hin Hout.
  rewrite (check_out_registered db now rid reg Hreg Hst), Ha.
  cbv zeta. rewrite Hin, Hout. reflexivity.
Qed.

Lemma check_out_when_closed db now rid reg rec :
  get_registration_by_id db rid = Some reg ->
  Registration.status reg = Registered ->
  get_attendance_of db rid = Some rec ->
  is_set (Attendance.check_in_time rec) = true ->
  is_set (Attendance.check_out_time rec) = true ->
  check_out now rid db = Raise already_checked_out_error.
Proof.
  intros Hreg Hst Ha Hin Hout.
  rewrite (check_out_registered db now rid reg Hreg Hst), Ha.
  cbv zeta. rewrite Hin, Hout. reflexivity.
Qed.

(** What a saved record leaves in the database. *)
Lemma save_attendance_after db rid reg f :
  get_registration_by_id db rid = Some reg ->
  (forall a, Attendance.registration_id (f a) = Attendance.registration_id a) ->
  let out := save_attendance (get_attendance_of db rid) f rid db in
  get_registration_by_id (fst out) rid = Some reg
  /\ get_attendance_of (fst out) rid = Some (snd out).
Proof.
  intros Hreg Hf out. split.
  - destruct (save_attendance_frame (get_attendance_of db rid) f rid db)
      as (_ & _ & Hregs & _).
    unfold get_registration_by_id, out. rewrite Hregs. exact Hreg.
  - apply (save_attendance_stored db rid f Hf).
Qed.

(** X5. On a consistent attendance table, attendance is a one-way street.  After
    a served check-in, another check-in is rejected and a check-out (not
    earlier than the check-in) is served: it keeps the check-in time and the
    status and records its own time.  After that, every check-in and every
    check-out of the registration is rejected. *)
Theorem attendance_is_one_way :
  forall (db : Store) (now1 : datetime) (rid : Z) (out1 : Store * Attendance.t),
    attendance_consistent db ->
    check_in now1 rid db = Ok out1 ->
    (forall now, check_in now rid (fst out1) = Raise already_checked_in_error)
    /\ forall now2,
         now1 <= now2 ->
         exists out2,
           check_out now2 rid (fst out1) = Ok out2
           /\ Attendance.check_in_time (snd out2) = Some now1
           /\ Attendance.check_out_time (snd out2) = Some now2
           /\ Attendance.status (snd out2) = Attendance.status (snd out1)
           /\ forall now,
                check_in now rid (fst out2) = Raise already_checked_in_error
                /\ check_out now rid (fst out2)
                   = Raise already_checked_out_error.
Proof.
  intros db now1 rid out1 (_ & _ & Hrows) Hrun.
  unfold check_in in Hrun.
  destruct (mark_attendance_shape _ _ _ _ Hrun) as (reg & Hreg & Hst & Hcase).
  cbn [AttendanceCreate.registration_id AttendanceCreate.action] in Hcase, Hreg.
  destruct Hcase as [(_ & Hnone & st & _ & ->) | (Habs & _)];
    [| discriminate Habs].
  assert (Hnew : get_attendance_of db rid = None).
  { destruct (get_attendance_of db rid) as [a|] eqn:Ha; [| reflexivity].
    exfalso. pose proof (Hnone a eq_refl) as Hci.
    assert (Hin : In a (attendance db))
      by (unfold get_attendance_of in Ha; apply find_some in Ha; apply Ha).
    destruct (Hrows a Hin) as (_ & Hset & _).
    rewrite Hci in Hset. discriminate Hset. }
  destruct (save_attendance_after db rid reg (Attendance.set_check_in now1 st)
              Hreg ltac:(reflexivity)) as [Hreg1 Ha1].
  set (out1 := save_attendance (get_attendance_of db rid)
                 (Attendance.set_check_in now1 st) rid db) in *.
  assert (Hrec1 : snd out1 = Attendance.set_check_in now1 st
                               (Attendance_new db rid))
    by (unfold out1; rewrite Hnew; reflexivity).
  split.
  - intros now.
    apply (check_in_when_checked_in _ now rid reg (snd out1)); try assumption.
    rewrite Hrec1. reflexivity.
  - intros now2 _.
    pose proof (check_out_when_open (fst out1) now2 rid reg (snd out1)
                  Hreg1 Hst Ha1) as Hco.
    rewrite Hrec1 in Hco. specialize (Hco eq_refl eq_refl).
    rewrite <- Hrec1, <- Ha1 in Hco.
    destruct (save_attendance_after (fst out1) rid reg
                (Attendance.set_check_out_time now2) Hreg1 ltac:(reflexivity))
      as [Hreg2 Ha2].
    set (out2 := save_attendance (get_attendance_of (fst out1) rid)
                   (Attendance.set_check_out_time now2) rid (fst out1)) in *.
    assert (Hrec2 : snd out2
                    = Attendance.set_check_out_time now2
                        (Attendance.set_check_in now1 st
                           (Attendance_new db rid)))
      by (unfold out2; rewrite Ha1, Hrec1; reflexivity).
    exists out2. split; [exact Hco|]. rewrite Hrec2, Hrec1.
    split; [reflexivity|]. split; [reflexivity|]. split; [reflexivity|].
    intros now. split.
    + apply (check_in_when_checked_in _ now rid reg _ Hreg2 Hst Ha2).
      rewrite Hrec2. reflexivity.
    + apply (check_out_when_closed _ now rid reg _ Hreg2 Hst Ha2);
        rewrite Hrec2; reflexivity.
Qed.

Lemma attendance_is_one_way_witness :
  let db := serve_all [PostRegister 0 (RegistrationCreate.mk 1 1)] two_seat_db in
  attendance_consistent db
  /\ succeeded (check_in 5 1 db) = true
  /\ check_in 6 1 (db_after db (check_in 5 1 db))
     = Raise already_checked_in_error.
Proof.
  assert (H : attendance_consistent
                (serve_all [PostRegister 0 (RegistrationCreate.mk 1 1)]
                           two_seat_db)).
  { split; [constructor | split; [constructor | intros x []]]. }
  split; [exact H|]. split; [reflexivity|].
  exact (proj1 (attendance_is_one_way _ 5 1 _ H eq_refl) 6).
Defined.





(* ===================================================================== *)
(** ** Cancelling an event *)

Lemma find_update_where_map {A : Type} (p q : A -> bool) (f : A -> A) l :
  (forall x, p (f x) = p x) ->
  find p (update_where q f l)
  = option_map (fun x => if q x then f x else x) (find p l).
Proof.
  intros Hf. induction l as [|x l IH]; simpl; [reflexivity|].
  destruct (q x) eqn:Hq.
  - rewrite Hf. destruct (p x); [simpl; rewrite Hq; reflexivity | exact IH].
  - destruct (p x); [simpl; rewrite Hq; reflexivity | exact IH].
Qed.

(** The event that a lookup finds after [cancel_event]: the one it found
    before, cancelled when it is the event of the request. *)
Lemma get_event_after_cancel db eid i :
  get_event_by_id
    (with_events (update_where (fun e => Event.id e =? eid)
                               (Event_set_status EventCancelled) (events db))
                 db) i
  = option_map (fun e => if Event.id e =? eid
                         then Event_set_status EventCancelled e else e)
               (get_event_by_id db i).
Proof.
  unfold get_event_by_id. simpl.
  apply find_update_where_map. reflexivity.
Qed.

(** X9. After an event is cancelled, every register call for it is rejected
    because the event is not active.  The cancellation leaves the
    registrations and the counter as they were, and check-in and check-out
    answer exactly as before: attendance can still be marked for a cancelled
    event. *)
Theorem cancelled_event_closes_registration :
  forall (db : Store) (eid : Z) (out : Store * string),
    cancel_event eid db = Ok out ->
    (forall now req,
        RegistrationCreate.event_id req = eid ->
        is_set (get_student_by_id db (RegistrationCreate.student_id req)) = true ->
        register_student now req (fst out)
        = Raise (register_error EventIsActive))
    /\ registrations (fst out) = registrations db
    /\ counter_of (fst out) eid = counter_of db eid
    /\ (forall now body,
          response (mark_attendance now body (fst out))
          = response (mark_attendance now body db)).
Proof.
  intros db eid out Hrun.
  destruct (cancel_event_shape _ _ _ Hrun) as (event & He & ->).
  cbn [fst].
  split; [| split; [| split]].
  - intros now req Heid Hs.
    unfold register_student, register_student_session.
    change (get_student_by_id (with_events _ db) ?i)
      with (get_student_by_id db i).
    destruct (get_student_by_id db (RegistrationCreate.student_id req));
      [| discriminate Hs].
    cbn [first_or bind]. rewrite Heid, get_event_after_cancel, He.
    cbn [option_map first_or bind].
    rewrite (find_some_key Event.id eid _ _ He), Z.eqb_refl. reflexivity.
  - reflexivity.
  - unfold counter_of. rewrite get_event_after_cancel.
    destruct (get_event_by_id db eid) as [e|]; [| reflexivity].
    simpl. destruct (Event.id e =? eid); reflexivity.
  - intros now body. unfold mark_attendance.
    destruct (action_must_be_valid (AttendanceCreate.action body));
      cbn [bind]; [| reflexivity].
    unfold mark_attendance_handler.
    change (get_registration_by_id (with_events _ db) ?i)
      with (get_registration_by_id db i).
    change (get_attendance_of (with_events _ db) ?i)
      with (get_attendance_of db i).
    destruct (get_registration_by_id db (AttendanceCreate.registration_id body))
      as [reg|]; cbn [first_or bind]; [| reflexivity].
    destruct (negb (RegistrationStatus_eqb (Registration.status reg) Registered));
      cbn [raise_if bind]; [reflexivity|].
    rewrite get_event_after_cancel.
    assert (Hstart :
              match option_map
                      (fun e => if Event.id e =? eid
                                then Event_set_status EventCancelled e else e)
                      (get_event_by_id db (Registration.event_id reg)) with
              | Some ev => if now >? Event.start_time ev + timedelta_minutes 15
                           then Late else Present
              | None => Present
              end
              = match get_event_by_id db (Registration.event_id reg) with
                | Some ev => if now >? Event.start_time ev + timedelta_minutes 15
                             then Late else Present
                | None => Present
                end).
    { destruct (get_event_by_id db (Registration.event_id reg)) as [ev|];
        [| reflexivity].
      simpl. destruct (Event.id ev =? eid); reflexivity. }
    rewrite Hstart.
    destruct (String.eqb (AttendanceCreate.action body) "check_in").
    + destruct (is_set _); cbn [raise_if bind]; [reflexivity|].
      destruct (get_attendance_of db (AttendanceCreate.registration_id body));
        reflexivity.
    + destruct (String.eqb (AttendanceCreate.action body) "check_out").
      * destruct (negb _); cbn [raise_if bind]; [reflexivity|].
        destruct (is_set _); cbn [raise_if bind]; [reflexivity|].
        destruct (get_attendance_of db (AttendanceCreate.registration_id body));
          reflexivity.
      * destruct (get_attendance_of db (AttendanceCreate.registration_id body));
          reflexivity.
Qed.

Lemma cancelled_event_closes_registration_witness :
  let db := serve_all [PostRegister 0 (RegistrationCreate.mk 1 1)] two_seat_db in
  succeeded (cancel_event 1 db) = true
  /\ register_student 0 (RegistrationCreate.mk 2 1)
                      (db_after db (cancel_event 1 db))
     = Raise (register_error EventIsActive)
  /\ succeeded (check_in 5 1 (db_after db (cancel_event 1 db))) = true.
Proof.
  split; [reflexivity|]. split; [| reflexivity].
  exact (proj1 (cancelled_event_closes_registration
                  (serve_all [PostRegister 0 (RegistrationCreate.mk 1 1)]
                             two_seat_db) 1 _ eq_refl)
               0 (RegistrationCreate.mk 2 1) eq_refl eq_refl).
Defined.

Lemma popularity_report_rows db college_id limit row :
  In row (get_event_popularity_report db college_id limit) ->
  exists e, In e (events db)
            /\ popularity_scope college_id e = true
            /\ row = popularity_row db e.
Proof.
  unfold get_event_popularity_report, sql_limit, popularity_ranking.
  intros H.
  assert (Hin : In row (order_by popularity_before
                          (map (popularity_row db)
                               (filter (popularity_scope college_id)
                                       (events db))))).
  { destruct (limit <? 0); [exact H|].
    rewrite <- (firstn_skipn (Z.to_nat limit)). apply in_or_app. left.
    exact H. }
  apply (Permutation_in _ (order_by_permutation popularity_before _)) in Hin.
  apply in_map_iff in Hin. destruct Hin as (e & <- & He).
  apply filter_In in He. exists e. tauto.
Qed.

(** X10. A cancelled event is in neither report: no row of the popularity report
    and no row of the attendance summary has its id, whatever the college
    filter and the limit. *)
Theorem cancelled_event_leaves_reports :
  forall (db : Store) (eid : Z) (out : Store * string),
    cancel_event eid db = Ok out ->
    (forall college_id limit row,
        In row (get_event_popularity_report (fst out) college_id limit) ->
        PopularityRow.id row <> eid)
    /\ (forall college_id row,
          In row (get_attendance_summary_report (fst out) college_id) ->
          AttendanceSummaryRow.event_id row <> eid).
Proof.
  intros db eid out Hrun.
  destruct (cancel_event_shape _ _ _ Hrun) as (event & _ & ->).
  cbn [fst].
  assert (Hcancelled : forall e,
            In e (update_where (fun e => Event.id e =? eid)
                               (Event_set_status EventCancelled) (events db)) ->
            Event.id e = eid -> Event.status e = EventCancelled).
  { intros e He Hid. apply in_update_where in He.
    destruct He as (x & _ & ->).
    destruct (Event.id x =? eid) eqn:E; [reflexivity|].
    apply Z.eqb_neq in E. contradiction. }
  split.
  - intros college_id limit row Hrow Hid.
    apply popularity_report_rows in Hrow.
    destruct Hrow as (e & He & Hscope & ->). simpl in He, Hid.
    unfold popularity_scope in Hscope.
    rewrite (Hcancelled e He Hid) in Hscope. discriminate Hscope.
  - intros college_id row Hrow Hid.
    apply attendance_summary_rows in Hrow.
    destruct Hrow as (e & He & Hscope & ->). simpl in He, Hid.
    unfold attendance_scope in Hscope.
    rewrite (Hcancelled e He Hid) in Hscope. discriminate Hscope.
Qed.

Lemma cancelled_event_leaves_reports_witness :
  succeeded (cancel_event 1 two_seat_db) = true
  /\ map PopularityRow.id (get_event_popularity_report two_seat_db None 10)
     = [1]
  /\ (forall row,
        In row (get_event_popularity_report
                  (db_after two_seat_db (cancel_event 1 two_seat_db)) None 10) ->
        PopularityRow.id row <> 1)
  /\ get_attendance_summary_report
       (db_after two_seat_db (cancel_event 1 two_seat_db)) None = [].
Proof.
  split; [reflexivity|]. split; [reflexivity|]. split; [| reflexivity].
  exact (proj1 (cancelled_event_leaves_reports two_seat_db 1 _ eq_refl)
               None 10).
Defined.

(* ===================================================================== *)
(** ** Creating an event *)

Lemma EventCreate_valid body :
  EventCreate_errors body = []
  <-> EventCreate.start_time body < EventCreate.end_time body
      /\ 0 < EventCreate.max_capacity body.
Proof.
  unfold EventCreate_errors, end_time_must_be_after_start_time,
    max_capacity_must_be_positive.
  destruct (Z.leb_spec (EventCreate.end_time body) (EventCreate.start_time body));
    destruct (Z.leb_spec (EventCreate.max_capacity body) 0); simpl;
    split; try discriminate; try lia; intros; try reflexivity; lia.
Qed.

Lemma fresh_event_key db :
  get_event_by_id db (next_id (map Event.id (events db))) = None.
Proof.
  unfold get_event_by_id. apply find_none_all.
  intros x Hx. apply Z.eqb_neq. intros Heq.
  apply (next_id_fresh (map Event.id (events db))).
  rewrite <- Heq. apply in_map. exact Hx.
Qed.

Lemma find_app_old {A : Type} (p : A -> bool) l l' x :
  find p l = Some x -> find p (l ++ l') = Some x.
Proof.
  induction l as [|y l IH]; simpl; [discriminate|].
  destruct (p y); [tauto | exact IH].
Qed.




Lemma create_event_handler_shape colleges body db out :
  create_event_handler colleges body db = Ok out ->
  out = (with_events
           (events db
            ++ [Event.mk (next_id (map Event.id (events db)))
                  (EventCreate.college_id body) (EventCreate.title body)
                  (EventCreate.event_type body) (EventCreate.start_time body)
                  (EventCreate.end_time body) (EventCreate.max_capacity body)
                  0 EventActive]) db,
         Event.mk (next_id (map Event.id (events db)))
           (EventCreate.college_id body) (EventCreate.title body)
           (EventCreate.event_type body) (EventCreate.start_time body)
           (EventCreate.end_time body) (EventCreate.max_capacity body)
           0 EventActive).
Proof.
  unfold create_event_handler.
  destruct (get_college_by_id colleges (EventCreate.college_id body));
    cbn [first_or bind]; [| discriminate].
  destruct (EventCreate.end_time body <=? EventCreate.start_time body);
    cbn [raise_if bind]; [discriminate|].
  intros H. inversion H. reflexivity.
Qed.

Lemma create_event_shape colleges body db out :
  create_event colleges body db = inr (Ok out) ->
  0 < EventCreate.max_capacity body
  /\ EventCreate.start_time body < EventCreate.end_time body
  /\ create_event_handler colleges body db = Ok out.
Proof.
  unfold create_event.
  destruct (EventCreate_errors body) eqn:E; [| discriminate].
  apply EventCreate_valid in E. intros H. inversion H. tauto.
Qed.

(** No live registration refers to a key of the events table that is still
    free, when every registration refers to an event that exists. *)
Lemma no_live_registration_of_fresh_event db :
  registrations_consistent db ->
  filter (fun r => Registration.event_id r
                   =? next_id (map Event.id (events db)))
         (registrations db) = [].
Proof.
  intros (_ & _ & Hfk).
  induction (registrations db) as [|r rs IH]; [reflexivity|].
  simpl. destruct (Registration.event_id r =? _) eqn:E.
  - exfalso. apply Z.eqb_eq in E.
    destruct (Hfk r (or_introl eq_refl)) as [_ He].
    rewrite E, fresh_event_key in He. discriminate He.
  - apply IH. intros x Hx. apply Hfk. right. exact Hx.
Qed.

(** X12. Creating an event keeps the capacity counters right: on tables where
    every counter is the number of live registrations of its event, within
    its bounds, and every registration refers to an existing event, the same
    holds after [create_event], the new event included. *)
Theorem create_event_keeps_counters :
  forall (colleges : list College.t) (body : EventCreate.t) (db : Store)
         (out : Store * Event.t),
    counter_invariant db ->
    registrations_consistent db ->
    create_event colleges body db = inr (Ok out) ->
    counter_invariant (fst out) /\ registrations_consistent (fst out).
Proof.
  intros colleges body db out (Hexact & Hbound & Hek & Hrk) Hreg Hrun.
  destruct (create_event_shape _ _ _ _ Hrun) as (Hcap & _ & Hh).
  rewrite (create_event_handler_shape _ _ _ _ Hh). cbn [fst].
  split.
  - split; [| split; [| split]].
    + intros e He. simpl in He. apply in_app_or in He.
      change (live_registrations (with_events _ db) ?i)
        with (live_registrations db i).
      destruct He as [He | [<- | []]]; [exact (Hexact e He)|].
      simpl. unfold live_registrations.
      assert (Hnone : filter (is_live (next_id (map Event.id (events db))))
                             (registrations db) = []).
      { pose proof (no_live_registration_of_fresh_event db Hreg) as Hf.
        induction (registrations db) as [|r rs IH]; [reflexivity|].
        simpl in *. unfold is_live at 1.
        destruct (Registration.event_id r =? _); [discriminate Hf|].
        simpl. apply IH. exact Hf. }
      rewrite Hnone. reflexivity.
    + intros e He. simpl in He. apply in_app_or in He.
      destruct He as [He | [<- | []]]; [exact (Hbound e He)|].
      simpl. lia.
    + unfold event_keys_unique. simpl. rewrite map_app. simpl.
      apply NoDup_app; [exact Hek | repeat constructor; simpl; tauto |].
      intros x Hx [<- | []]. exact (next_id_fresh _ Hx).
    + exact Hrk.
  - destruct Hreg as (Hk & Hp & Hfk).
    split; [exact Hk|]. split; [exact Hp|].
    intros r Hr. destruct (Hfk r Hr) as [Hs He].
    split; [exact Hs|].
    unfold get_event_by_id in *. simpl.
    destruct (find _ (events db)) as [e|] eqn:E; [| discriminate He].
    rewrite (find_app_old _ _ _ _ E). reflexivity.
Qed.

Lemma two_seat_db_counter_invariant : counter_invariant two_seat_db.
Proof.
  split; [| split; [| split]].
  - intros e [<- | []]. reflexivity.
  - intros e [<- | []]. simpl. lia.
  - repeat constructor; simpl; tauto.
  - constructor.
Qed.

Lemma create_event_keeps_counters_witness :
  counter_invariant two_seat_db
  /\ registrations_consistent two_seat_db
  /\ (exists out,
        create_event sample_colleges sample_event_body two_seat_db
        = inr (Ok out)
        /\ counter_invariant (fst out)
        /\ map Event.id (events (fst out)) = [1; 2]).
Proof.
  split; [exact two_seat_db_counter_invariant|].
  split; [apply (fresh_db_consistent _ _)|].
  eexists. split; [reflexivity|]. split; [| reflexivity].
  apply (create_event_keeps_counters sample_colleges sample_event_body
           two_seat_db _ two_seat_db_counter_invariant
           (proj1 (fresh_db_consistent [sample_student 1; sample_student 2]
                                       [sample_event 1 2 0]))
           eq_refl).
Defined.

(** X13. A created event is open: until its start time, every student that
    exists can register for it, and the first registration brings its
    counter to 1. *)
Theorem created_event_accepts_registration :
  forall (colleges : list College.t) (body : EventCreate.t) (db : Store)
         (out : Store * Event.t) (now : datetime) (sid : Z),
    registrations_consistent db ->
    create_event colleges body db = inr (Ok out) ->
    is_set (get_student_by_id db sid) = true ->
    now < EventCreate.start_time body ->
    exists out',
      register_student now (RegistrationCreate.mk sid (Event.id (snd out)))
                       (fst out) = Ok out'
      /\ Registration.status (snd out') = Registered
      /\ Registration.event_id (snd out') = Event.id (snd out)
      /\ counter_of (fst out') (Event.id (snd out)) = Some 1.
Proof.
  intros colleges body db out now sid Hreg Hrun Hs Hnow.
  destruct (create_event_shape _ _ _ _ Hrun) as (Hcap & _ & Hh).
  rewrite (create_event_handler_shape _ _ _ _ Hh). cbn [fst snd Event.id].
  set (eid := next_id (map Event.id (events db))).
  set (e := Event.mk eid (EventCreate.college_id body) (EventCreate.title body)
              (EventCreate.event_type body) (EventCreate.start_time body)
              (EventCreate.end_time body) (EventCreate.max_capacity body)
              0 EventActive).
  set (db1 := with_events (events db ++ [e]) db).
  destruct (get_student_by_id db sid) as [student|] eqn:Hst;
    [| discriminate Hs].
  assert (He : get_event_by_id db1 eid = Some e).
  { unfold get_event_by_id, db1. simpl.
    apply find_app_new; [apply fresh_event_key|]. simpl. apply Z.eqb_refl. }
  assert (Hdup : find (registered_pair sid eid) (registrations db1) = None).
  { unfold db1. simpl. apply find_none_all. intros r Hr.
    unfold registered_pair. apply andb_false_iff. right.
    pose proof (no_live_registration_of_fresh_event db Hreg) as Hf.
    fold eid in Hf.
    destruct (Registration.event_id r =? eid) eqn:E; [| reflexivity].
    exfalso.
    assert (Hin : In r (filter (fun r => Registration.event_id r =? eid)
                               (registrations db)))
      by (apply filter_In; split; assumption).
    rewrite Hf in Hin. destruct Hin. }
  pose proof (register_student_ok now (RegistrationCreate.mk sid eid) db1
                student e Hst He eq_refl Hnow Hdup Hcap) as Hok.
  eexists. split; [exact Hok|].
  split; [reflexivity|]. split; [reflexivity|].
  cbn [RegistrationCreate.event_id RegistrationCreate.student_id
       Event.current_registrations e].
  unfold counter_of, register_student_commit. cbn [fst pending_event_id
    pending_current_registrations].
  rewrite get_event_set_counter_same.
  unfold get_event_by_id in He. cbn [events with_registrations].
  rewrite He. reflexivity.
Qed.

Lemma created_event_accepts_registration_witness :
  registrations_consistent two_seat_db
  /\ 0 < EventCreate.start_time sample_event_body
  /\ (exists out out',
        create_event sample_colleges sample_event_body two_seat_db
        = inr (Ok out)
        /\ register_student 0 (RegistrationCreate.mk 2 (Event.id (snd out)))
                            (fst out) = Ok out'
        /\ counter_of (fst out') 2 = Some 1).
Proof.
  split; [apply (fresh_db_consistent _ _)|]. split; [reflexivity|].
  destruct (created_event_accepts_registration sample_colleges
              sample_event_body two_seat_db _ 0 2
              (proj1 (fresh_db_consistent [sample_student 1; sample_student 2]
                                          [sample_event 1 2 0]))
              eq_refl eq_refl eq_refl)
    as (out' & Hrun & _ & _ & Hc).
  eexists. exists out'. split; [reflexivity|]. split; [exact Hrun | exact Hc].
Defined.

(* ===================================================================== *)
(** ** Creating students *)

Lemma create_student_shape colleges body db out :
  create_student colleges body db = Ok out ->
  is_set (get_college_by_id colleges (StudentCreate.college_id body)) = true
  /\ get_student_of_college db (StudentCreate.college_id body)
                            (StudentCreate.student_id body) = None
  /\ out = (with_students
              (students db
               ++ [Student.mk (next_id (map Student.id (students db)))
                     (StudentCreate.college_id body)
                     (StudentCreate.student_id body)
                     (StudentCreate.name body) (StudentCreate.email body)]) db,
            Student.mk (next_id (map Student.id (students db)))
              (StudentCreate.college_id body) (StudentCreate.student_id body)
              (StudentCreate.name body) (StudentCreate.email body)).
Proof.
  unfold create_student.
  destruct (get_college_by_id colleges (StudentCreate.college_id body));
    cbn [first_or bind]; [| discriminate].
  destruct (get_student_of_college db _ _); cbn [is_set raise_if bind];
    [discriminate|].
  intros H. inversion H. repeat split.
Qed.

Lemma student_key_absent db cid sid :
  get_student_of_college db cid sid = None ->
  ~ In (cid, sid) (map student_key (students db)).
Proof.
  unfold get_student_of_college. intros Hnone Hin.
  apply in_map_iff in Hin. destruct Hin as (s & Heq & Hs).
  pose proof (find_none _ _ Hnone s Hs) as H. simpl in H.
  unfold student_key in Heq. injection Heq as E1 E2.
  rewrite E1, E2, Z.eqb_refl, String.eqb_refl in H. discriminate H.
Qed.

(** X14. [create_student] keeps the student id unique within its college, and
    the primary keys distinct.  The created student is found under its new
    key, and a second request with the same college and student id is
    rejected, whatever its name and email. *)
Theorem create_student_keeps_ids_unique :
  forall (colleges : list College.t) (body : StudentCreate.t) (db : Store)
         (out : Store * Student.t),
    students_consistent db ->
    create_student colleges body db = Ok out ->
    students_consistent (fst out)
    /\ get_student_by_id (fst out) (Student.id (snd out)) = Some (snd out)
    /\ student_key (snd out)
       = (StudentCreate.college_id body, StudentCreate.student_id body)
    /\ forall body',
         StudentCreate.college_id body' = StudentCreate.college_id body ->
         StudentCreate.student_id body' = StudentCreate.student_id body ->
         create_student colleges body' (fst out)
         = Raise (HTTPException 400 "Student ID already exists in this college").
Proof.
  intros colleges body db out (Hk & Hu) Hrun.
  destruct (create_student_shape _ _ _ _ Hrun) as (Hcol & Hnone & ->).
  cbn [fst snd].
  split; [| split; [| split]].
  - split; simpl; rewrite map_app; simpl.
    + apply NoDup_app; [exact Hk | repeat constructor; simpl; tauto |].
      intros x Hx [<- | []]. exact (next_id_fresh _ Hx).
    + apply NoDup_app; [exact Hu | repeat constructor; simpl; tauto |].
      intros x Hx [<- | []]. exact (student_key_absent _ _ _ Hnone Hx).
  - unfold get_student_by_id. simpl.
    apply find_app_new; [| simpl; apply Z.eqb_refl].
    apply find_none_all. intros x Hx. apply Z.eqb_neq. intros Heq.
    apply (next_id_fresh (map Student.id (students db))).
    rewrite <- Heq. apply in_map. exact Hx.
  - reflexivity.
  - intros body' Hc Hs. unfold create_student. rewrite Hc.
    destruct (get_college_by_id colleges (StudentCreate.college_id body));
      [| discriminate Hcol].
    cbn [first_or bind]. rewrite Hs.
    unfold get_student_of_college in *. simpl students.
    rewrite (find_app_new _ _ _ Hnone);
      [reflexivity | simpl; rewrite Z.eqb_refl, String.eqb_refl; reflexivity].
Qed.

Lemma create_student_keeps_ids_unique_witness :
  students_consistent (fresh_db [] [])
  /\ (exists out,
        create_student sample_colleges
          (StudentCreate.mk 1 "S-001" "Ada" "ada@example.org") (fresh_db [] [])
        = Ok out
        /\ create_student sample_colleges
             (StudentCreate.mk 1 "S-001" "Bob" "bob@example.org") (fst out)
           = Raise (HTTPException 400
                      "Student ID already exists in this college")).
Proof.
  assert (H0 : students_consistent (fresh_db [] []))
    by (split; constructor).
  split; [exact H0|].
  eexists. split; [reflexivity|].
  apply (create_student_keeps_ids_unique sample_colleges
           (StudentCreate.mk 1 "S-001" "Ada" "ada@example.org")
           (fresh_db [] []) _ H0 eq_refl); reflexivity.
Defined.

Lemma bulk_rows_create_nothing text college_id db students :
  forall i,
    fst (bulk_rows text college_id db i students) = []
    /\ List.length (snd (bulk_rows text college_id db i students))
       = List.length students.
Proof.
  induction students as [|s rest IH]; intros i; [split; reflexivity|].
  simpl. destruct (IH (S i)) as [Hc He].
  destruct (bulk_rows text college_id db (S i) rest) as [created errors].
  simpl in Hc, He.
  destruct (is_set (get_student_of_college db college_id
                      (StudentCreate.student_id s))); simpl;
    split; try assumption; now rewrite He.
Qed.

(** X15. [bulk_create_students] never creates a student.  Every row whose
    student id is free ends in the [TypeError] of the call
    [Student(college_id=college_id, **student_data.dict())], whose
    dictionary holds [college_id] too, and the handler records it as an
    error line.  For a college that exists the answer has no created
    student, one error per row, and the database is as it was. *)
Theorem bulk_create_students_creates_nothing :
  forall (type_error_text : string) (colleges : list College.t)
         (college_id : Z) (students : list StudentCreate.t) (db : Store),
    is_set (get_college_by_id colleges college_id) = true ->
    exists r,
      bulk_create_students type_error_text colleges college_id students db
      = Ok (db, r)
      /\ created_students r = []
      /\ created_count r = 0%nat
      /\ error_count r = List.length students
      /\ List.length (bulk_errors r) = List.length students.
Proof.
  intros text colleges college_id students db Hcol.
  unfold bulk_create_students.
  destruct (get_college_by_id colleges college_id); [| discriminate Hcol].
  cbn [first_or bind].
  destruct (bulk_rows_create_nothing text college_id db students 0%nat)
    as [Hc He].
  destruct (bulk_rows text college_id db 0 students) as [created errors].
  simpl in Hc, He. subst created.
  eexists. split; [reflexivity|]. simpl. repeat split; exact He.
Qed.

Lemma bulk_create_students_creates_nothing_witness :
  is_set (get_college_by_id sample_colleges 1) = true
  /\ (exists r,
        bulk_create_students "TypeError" sample_colleges 1
          [StudentCreate.mk 1 "S-001" "Ada" "ada@example.org";
           StudentCreate.mk 1 "S-002" "Bob" "bob@example.org"]
          (fresh_db [] []) = Ok (fresh_db [] [], r)
        /\ bulk_errors r = ["Row 1: TypeError"; "Row 2: TypeError"]).
Proof.
  split; [reflexivity|].
  destruct (bulk_create_students_creates_nothing "TypeError" sample_colleges 1
              [StudentCreate.mk 1 "S-001" "Ada" "ada@example.org";
               StudentCreate.mk 1 "S-002" "Bob" "bob@example.org"]
              (fresh_db [] []) eq_refl) as (r & Hrun & _).
  eexists. split; reflexivity.
Defined.

(* ===================================================================== *)
(** ** The feedback summary report *)

(** [ROUND(x, 2)] stays between two whole numbers that [x] lies between. *)
Lemma sqlite_round2_between (x : Q) (a b : Z) :
  0 <= a ->
  (inject_Z a <= x)%Q -> (x <= inject_Z b)%Q ->
  (inject_Z a <= sqlite_round2 x)%Q /\ (sqlite_round2 x <= inject_Z b)%Q.
Proof.
  intros Ha Hl Hu. unfold sqlite_round2.
  assert (H0 : (0 <= x)%Q).
  { apply Qle_trans with (inject_Z a); [| exact Hl].
    change 0%Q with (inject_Z 0). rewrite <- Zle_Qle. exact Ha. }
  apply Qle_bool_iff in H0. rewrite H0.
  assert (Hlo : a * 100 <= Qfloor (x * 100 + (1 # 2))).
  { rewrite <- (Qfloor_Z (a * 100)). apply Qfloor_resp_le.
    rewrite inject_Z_mult. change (inject_Z 100) with 100%Q. lra. }
  assert (Hhi : Qfloor (x * 100 + (1 # 2)) <= b * 100).
  { assert (H1 : Qfloor (x * 100 + (1 # 2))
                 <= Qfloor (inject_Z (b * 100) + (1 # 2))).
    { apply Qfloor_resp_le. rewrite inject_Z_mult.
      change (inject_Z 100) with 100%Q. lra. }
    assert (H2 : Qfloor (inject_Z (b * 100) + (1 # 2)) = b * 100).
    { symmetry. apply Z.le_antisymm.
      - rewrite <- (Qfloor_Z (b * 100)) at 1. apply Qfloor_resp_le.
        generalize (inject_Z (b * 100)). intros q. lra.
      - apply Z.lt_succ_r. rewrite Zlt_Qlt.
        eapply Qle_lt_trans; [apply Qfloor_le|].
        rewrite <- Z.add_1_r, inject_Z_plus. change (inject_Z 1) with 1%Q.
        generalize (inject_Z (b * 100)). intros q. lra. }
    lia. }
  split; unfold Qle, inject_Z; cbn [Qnum Qden]; lia.
Qed.

Lemma sql_count_cons {A : Type} (x : option A) (col : list (option A)) :
  sql_count (x :: col) = (if is_set x then 1 else 0) + sql_count col.
Proof.
  unfold sql_count. simpl. destruct (is_set x); cbn [List.length]; lia.
Qed.

Lemma sql_count_nonneg {A : Type} (col : list (option A)) : 0 <= sql_count col.
Proof. unfold sql_count. lia. Qed.

Lemma rating_counts_add_up col :
  (forall f, In (Some f) col -> 1 <= Feedback.rating f <= 5) ->
  sum_case_rating 5 col + sum_case_rating 4 col + sum_case_rating 3 col
  + sum_case_rating 2 col + sum_case_rating 1 col = sql_count col
  /\ sql_count col <= sum_rating col <= 5 * sql_count col.
Proof.
  induction col as [|x col IH]; intros Hr;
    [split; [reflexivity | unfold sql_count, sum_rating; cbn; lia]|].
  destruct IH as [IH1 IH2]; [intros f Hf; apply Hr; right; exact Hf|].
  rewrite sql_count_cons. unfold sum_case_rating, sum_rating in *.
  cbn [map fold_right]. destruct x as [f|]; cbn [is_set]; [| lia].
  pose proof (Hr f (or_introl eq_refl)) as Hf.
  destruct (Z.eqb_spec (Feedback.rating f) 5);
    destruct (Z.eqb_spec (Feedback.rating f) 4);
    destruct (Z.eqb_spec (Feedback.rating f) 3);
    destruct (Z.eqb_spec (Feedback.rating f) 2);
    destruct (Z.eqb_spec (Feedback.rating f) 1); lia.
Qed.

Lemma feedback_join_in db e f :
  In (Some f) (feedback_join db e) -> In f (feedback db).
Proof.
  unfold feedback_join. intros H. apply in_flat_map in H.
  destruct H as (r & _ & Hf). unfold left_join_feedback in Hf.
  destruct r as [reg|]; [| destruct Hf as [Hf | []]; discriminate Hf].
  destruct (filter _ (feedback db)) as [|f0 fs] eqn:E;
    [destruct Hf as [Hf | []]; discriminate Hf|].
  apply in_map_iff in Hf. destruct Hf as (f' & Heq & Hin).
  inversion Heq; subst f'.
  rewrite <- E in Hin. apply filter_In in Hin. apply Hin.
Qed.

Lemma avg_rating_between col :
  (forall f, In (Some f) col -> 1 <= Feedback.rating f <= 5) ->
  0 < sql_count col ->
  exists q, avg_rating col = Some q /\ (1 <= q)%Q /\ (q <= 5)%Q.
Proof.
  intros Hr Hpos. destruct (rating_counts_add_up col Hr) as [_ [Hlo Hhi]].
  unfold avg_rating.
  replace (sql_count col =? 0) with false by (symmetry; apply Z.eqb_neq; lia).
  eexists. split; [reflexivity|].
  assert (Hc : (0 < inject_Z (sql_count col))%Q)
    by (change 0%Q with (inject_Z 0); rewrite <- Zlt_Qlt; exact Hpos).
  split.
  - apply Qle_shift_div_l; [exact Hc|].
    rewrite Qmult_1_l. rewrite <- Zle_Qle. exact Hlo.
  - apply Qle_shift_div_r; [exact Hc|].
    change 5%Q with (inject_Z 5). rewrite <- inject_Z_mult, <- Zle_Qle.
    exact Hhi.
Qed.

Lemma feedback_summary_rows db college_id row :
  In row (get_feedback_summary_report db college_id)
  <-> exists e, In e (events db)
                /\ attendance_scope college_id e = true
                /\ 0 < sql_count (feedback_join db e)
                /\ row = feedback_summary_row db e.
Proof.
  unfold get_feedback_summary_report. split.
  - intros H.
    apply (Permutation_in _ (order_by_permutation feedback_before _)) in H.
    apply filter_In in H. destruct H as [H Hpos].
    apply in_map_iff in H. destruct H as (e & <- & He).
    apply filter_In in He. exists e.
    simpl in Hpos. apply Z.gtb_lt in Hpos. tauto.
  - intros (e & He & Hscope & Hpos & ->).
    apply (Permutation_in _
             (Permutation_sym (order_by_permutation feedback_before _))).
    apply filter_In. split.
    + apply in_map. apply filter_In. tauto.
    + simpl. apply Z.gtb_lt. exact Hpos.
Qed.

(** X16. On a feedback table with ratings from 1 to 5, every row of the
    feedback summary is an event in scope with at least one feedback; its
    five counts per rating add up to its total, and its average rating is
    not NULL and lies between 1 and 5. *)
Theorem feedback_summary_adds_up :
  forall (db : Store) (college_id : option Z) (row : FeedbackSummaryRow.t),
    (forall f, In f (feedback db) -> 1 <= Feedback.rating f <= 5) ->
    In row (get_feedback_summary_report db college_id) ->
    (exists e, In e (events db)
               /\ attendance_scope college_id e = true
               /\ FeedbackSummaryRow.event_id row = Event.id e)
    /\ 1 <= FeedbackSummaryRow.total_feedback row
    /\ FeedbackSummaryRow.excellent_count row
       + FeedbackSummaryRow.good_count row
       + FeedbackSummaryRow.average_count row
       + FeedbackSummaryRow.poor_count row
       + FeedbackSummaryRow.terrible_count row
       = FeedbackSummaryRow.total_feedback row
    /\ exists q, FeedbackSummaryRow.average_rating row = Some q
                 /\ (1 <= q)%Q /\ (q <= 5)%Q.
Proof.
  intros db college_id row Hr Hrow.
  apply feedback_summary_rows in Hrow.
  destruct Hrow as (e & He & Hscope & Hpos & ->).
  assert (Hcol : forall f, In (Some f) (feedback_join db e) ->
                           1 <= Feedback.rating f <= 5)
    by (intros f Hf; apply Hr; exact (feedback_join_in db e f Hf)).
  split; [exists e; repeat split; assumption|].
  split; [simpl; lia|].
  split; [exact (proj1 (rating_counts_add_up _ Hcol))|].
  destruct (avg_rating_between _ Hcol Hpos) as (q & Hq & Hlo & Hhi).
  simpl. rewrite Hq. simpl. eexists. split; [reflexivity|].
  apply (sqlite_round2_between q 1 5); [lia | exact Hlo | exact Hhi].
Qed.

Lemma feedback_summary_adds_up_witness :
  (forall f, In f (feedback rated_db) -> 1 <= Feedback.rating f <= 5)
  /\ In (feedback_summary_row rated_db (sample_event 1 2 2))
        (get_feedback_summary_report rated_db None)
  /\ 1 <= FeedbackSummaryRow.total_feedback
            (feedback_summary_row rated_db (sample_event 1 2 2))
  /\ map FeedbackSummaryRow.excellent_count
         (get_feedback_summary_report rated_db None) = [1].
Proof.
  assert (H : forall f, In f (feedback rated_db) ->
                        1 <= Feedback.rating f <= 5).
  { intros f [<- | [<- | []]]; simpl; lia. }
  assert (Hin : In (feedback_summary_row rated_db (sample_event 1 2 2))
                   (get_feedback_summary_report rated_db None))
    by (left; reflexivity).
  split; [exact H|]. split; [exact Hin|]. split; [| reflexivity].
  exact (proj1 (proj2 (feedback_summary_adds_up rated_db None _ H Hin))).
Defined.

(* ===================================================================== *)
(** ** The breakdown of events by type *)

Lemma distinct_in keys k : In k (distinct keys) <-> In k keys.
Proof.
  induction keys as [|x keys IH]; simpl; [tauto|].
  rewrite filter_In, IH. split.
  - intros [H | [H _]]; [left | right]; assumption.
  - intros [H | H]; [left; exact H|].
    destruct (String.eqb x k) eqn:E.
    + left. apply String.eqb_eq. exact E.
    + right. split; [exact H | reflexivity].
Qed.

Lemma distinct_NoDup keys : NoDup (distinct keys).
Proof.
  induction keys as [|x keys IH]; simpl; constructor.
  - rewrite filter_In, String.eqb_refl. intros [_ H]. discriminate H.
  - apply NoDup_filter. exact IH.
Qed.

Lemma sum_of_permutation {A : Type} (f : A -> Z) l l' :
  Permutation l l' -> sum_of f l = sum_of f l'.
Proof.
  unfold sum_of. induction 1; simpl; lia.
Qed.

Lemma sum_of_single (ty : string) (v : Z) keys :
  NoDup keys -> In ty keys ->
  sum_of (fun k => if String.eqb ty k then v else 0) keys = v.
Proof.
  unfold sum_of. induction keys as [|k keys IH]; simpl; [tauto|].
  intros Hnd Hin. inversion Hnd as [|? ? Hnotin Hnd']; subst.
  assert (Hzero : forall l, ~ In ty l ->
            fold_right Z.add 0
              (map (fun k => if String.eqb ty k then v else 0) l) = 0).
  { induction l as [|y l IHl]; simpl; [reflexivity|]. intros Hn.
    destruct (String.eqb ty y) eqn:E.
    - exfalso. apply Hn. left. symmetry. apply String.eqb_eq. exact E.
    - rewrite IHl; [reflexivity | tauto]. }
  destruct (String.eqb ty k) eqn:E.
  - apply String.eqb_eq in E. subst k. rewrite Hzero; [lia | exact Hnotin].
  - destruct Hin as [-> | Hin]; [rewrite String.eqb_refl in E; discriminate|].
    rewrite IH; [reflexivity | exact Hnd' | exact Hin].
Qed.

Lemma sum_of_add {A : Type} (f g : A -> Z) l :
  sum_of (fun x => f x + g x) l = sum_of f l + sum_of g l.
Proof.
  unfold sum_of. induction l as [|x l IH]; simpl; lia.
Qed.

(** The groups of a [GROUP BY] split the rows: a sum taken group by group
    is the sum over all rows. *)
Lemma group_sums_add_up (g : Event.t -> Z) evs keys :
  NoDup keys -> (forall e, In e evs -> In (Event.event_type e) keys) ->
  sum_of (fun ty => sum_of g (events_of_type ty evs)) keys = sum_of g evs.
Proof.
  intros Hnd. induction evs as [|e evs IH]; intros Hall.
  - clear Hnd Hall. unfold events_of_type, sum_of. simpl.
    induction keys as [|k keys IHk]; simpl; [reflexivity|].
    rewrite IHk. reflexivity.
  - transitivity
      (sum_of (fun ty => (if String.eqb (Event.event_type e) ty then g e else 0)
                         + sum_of g (events_of_type ty evs)) keys).
    + unfold sum_of at 1 3. f_equal. apply map_ext. intros ty.
      unfold events_of_type. simpl.
      destruct (String.eqb (Event.event_type e) ty); unfold sum_of; simpl; lia.
    + rewrite sum_of_add.
      rewrite IH by (intros e' He'; apply Hall; right; exact He').
      rewrite sum_of_single; [ | exact Hnd | apply Hall; left; reflexivity].
      unfold sum_of. simpl. reflexivity.
Qed.

Lemma breakdown_before_total a b :
  breakdown_before a b = true \/ breakdown_before b a = true.
Proof. unfold breakdown_before. lia. Qed.

Lemma breakdown_before_trans a b c :
  breakdown_before a b = true -> breakdown_before b c = true ->
  breakdown_before a c = true.
Proof. unfold breakdown_before. lia. Qed.

Lemma sum_of_map {A B : Type} (f : B -> Z) (h : A -> B) l :
  sum_of f (map h l) = sum_of (fun x => f (h x)) l.
Proof. unfold sum_of. rewrite map_map. reflexivity. Qed.

Lemma sum_of_ones {A : Type} (l : list A) :
  sum_of (fun _ => 1) l = Z.of_nat (List.length l).
Proof. unfold sum_of. induction l as [|x l IH]; cbn [map fold_right List.length]; lia. Qed.

(** X17. The breakdown by type splits the active events of the college: no
    type is listed twice, every event in scope falls under the row of its
    type and every row has an event; the numbers of events of the rows add
    up to the number of events in scope and their registrations to the sum
    of the counters; the rows come by decreasing registrations. *)
Theorem event_type_breakdown_splits_the_active_events :
  forall (db : Store) (college_id : option Z),
    NoDup (map EventTypeRow.event_type (get_event_type_breakdown db college_id))
    /\ sum_of EventTypeRow.total_events (get_event_type_breakdown db college_id)
       = Z.of_nat (List.length (filter (popularity_scope college_id) (events db)))
    /\ sum_of EventTypeRow.total_registrations
              (get_event_type_breakdown db college_id)
       = sum_registrations (filter (popularity_scope college_id) (events db))
    /\ (forall e, In e (events db) -> popularity_scope college_id e = true ->
          exists row, In row (get_event_type_breakdown db college_id)
                      /\ EventTypeRow.event_type row = Event.event_type e)
    /\ (forall row, In row (get_event_type_breakdown db college_id) ->
          1 <= EventTypeRow.total_events row
          /\ exists e, In e (events db)
                       /\ popularity_scope college_id e = true
                       /\ Event.event_type e = EventTypeRow.event_type row)
    /\ StronglySorted
         (fun a b => EventTypeRow.total_registrations b
                     <= EventTypeRow.total_registrations a)
         (get_event_type_breakdown db college_id).
Proof.
  intros db college_id. unfold get_event_type_breakdown.
  set (evs := filter (popularity_scope college_id) (events db)).
  set (keys := distinct (map Event.event_type evs)).
  pose proof (order_by_permutation breakdown_before
                (map (breakdown_row evs) keys)) as Hperm.
  assert (Hkeys : forall e, In e evs -> In (Event.event_type e) keys).
  { intros e He. apply distinct_in. apply in_map. exact He. }
  assert (Hnd : NoDup keys) by apply distinct_NoDup.
  split.
  { eapply Permutation_NoDup;
      [apply Permutation_sym, Permutation_map, Hperm|].
    rewrite map_map. cbn [breakdown_row EventTypeRow.event_type].
    rewrite map_id. exact Hnd. }
  split.
  { rewrite (sum_of_permutation _ _ _ Hperm), sum_of_map.
    cbn [breakdown_row EventTypeRow.total_events].
    rewrite <- sum_of_ones.
    rewrite <- (group_sums_add_up (fun _ => 1) evs keys Hnd Hkeys).
    unfold sum_of at 1 2. f_equal. apply map_ext. intros ty.
    symmetry. apply (sum_of_ones (events_of_type ty evs)). }
  split.
  { rewrite (sum_of_permutation _ _ _ Hperm), sum_of_map.
    cbn [breakdown_row EventTypeRow.total_registrations].
    exact (group_sums_add_up Event.current_registrations evs keys Hnd Hkeys). }
  split.
  { intros e He Hscope.
    exists (breakdown_row evs (Event.event_type e)). split; [|reflexivity].
    apply (Permutation_in _ (Permutation_sym Hperm)).
    apply in_map. apply Hkeys. apply filter_In. split; assumption. }
  split.
  { intros row Hrow. apply (Permutation_in _ Hperm) in Hrow.
    apply in_map_iff in Hrow. destruct Hrow as (ty & <- & Hty).
    apply (proj1 (distinct_in _ _)) in Hty. apply in_map_iff in Hty.
    destruct Hty as (e & Hety & He).
    assert (Hg : In e (events_of_type ty evs)).
    { apply filter_In. split; [exact He|]. apply String.eqb_eq. exact Hety. }
    split.
    - cbn [breakdown_row EventTypeRow.total_events].
      destruct (events_of_type ty evs); [destruct Hg|].
      cbn [List.length]. lia.
    - exists e. apply filter_In in He. destruct He as [He Hscope].
      repeat split; assumption. }
  eapply StronglySorted_impl;
    [| apply (order_by_sorted breakdown_before breakdown_before_total
                              breakdown_before_trans)].
  intros a b H. unfold breakdown_before in H. lia.
Qed.

(* ===================================================================== *)
(** ** The event statistics endpoint *)


Lemma filter_all_false {A : Type} (p : A -> bool) l :
  (forall x, In x l -> p x = false) -> filter p l = [].
Proof.
  induction l as [|x l IH]; simpl; [reflexivity|]. intros H.
  rewrite (H x) by (left; reflexivity). apply IH.
  intros y Hy. apply H. right. exact Hy.
Qed.





(* ===================================================================== *)
(** ** Listing registrations *)

Lemma filter_key_unique {A : Type} (key : A -> Z) (k : Z) l :
  NoDup (map key l) ->
  filter (fun x => k =? key x) l
  = match find (fun x => k =? key x) l with Some x => [x] | None => [] end.
Proof.
  induction l as [|x l IH]; simpl; [reflexivity|].
  intros Hnd. inversion Hnd as [|? ? Hnotin Hnd']; subst.
  destruct (k =? key x) eqn:E.
  - f_equal. apply filter_all_false. intros y Hy.
    apply Z.eqb_neq. intros Hk. apply Hnotin.
    apply Z.eqb_eq in E. rewrite <- E, Hk. apply in_map. exact Hy.
  - apply IH. exact Hnd'.
Qed.



Lemma NoDup_map_filter {A B : Type} (key : A -> B) (p : A -> bool) l :
  NoDup (map key l) -> NoDup (map key (filter p l)).
Proof.
  induction l as [|x l IH]; simpl; [tauto|].
  intros Hnd. inversion Hnd as [|? ? Hnotin Hnd']; subst.
  destruct (p x); [|apply IH; exact Hnd'].
  simpl. constructor; [|apply IH; exact Hnd'].
  intros Hin. apply Hnotin. apply in_map_iff in Hin.
  destruct Hin as (y & Hy & Hiny). apply filter_In in Hiny.
  rewrite <- Hy. apply in_map. tauto.
Qed.




Lemma given_int_spec o n : given_int o = Some n -> o = Some n /\ n <> 0.
Proof.
  destruct o as [m|]; simpl; [|discriminate].
  destruct (m =? 0) eqn:E; [discriminate|].
  intros H. injection H as ->. apply Z.eqb_neq in E. tauto.
Qed.



Lemma filter_length_le {A : Type} (p : A -> bool) l :
  (List.length (filter p l) <= List.length l)%nat.
Proof.
  induction l as [|x l IH]; simpl; [lia|]. destruct (p x); simpl; lia.
Qed.










(* ===================================================================== *)
(** ** The participation of students *)

Section ParticipationJoin.

Variable db : Store.
Hypothesis one_attendance_per_registration : attendance_unique db.

(** The attendance record of a registration, if it has one. *)
Let attendance_of (r : Registration.t) : option Attendance.t :=
  find (fun a => Registration.id r =? Attendance.registration_id a)
       (attendance db).

Lemma left_join_attendance_one r :
  left_join_attendance db (Some r) = [(Some r, attendance_of r)].
Proof.
  unfold left_join_attendance, attendance_of.
  rewrite (filter_key_unique Attendance.registration_id _ _
             one_attendance_per_registration).
  destruct (find _ _); reflexivity.
Qed.

Lemma join_attendance_rows rs :
  flat_map (left_join_attendance db) (map Some rs)
  = map (fun r => (Some r, attendance_of r)) rs.
Proof.
  induction rs as [|r rs IH]; [reflexivity|].
  cbn [map flat_map]. rewrite left_join_attendance_one, IH. reflexivity.
Qed.

Lemma joined_event_ids rs :
  flat_map (fun v : option Z => match v with Some z => [z] | None => [] end)
    (map (fun row : option Registration.t * option Attendance.t =>
            option_map Registration.event_id (fst row))
         (map (fun r => (Some r, attendance_of r)) rs))
  = map Registration.event_id rs.
Proof.
  induction rs as [|r rs IH]; [reflexivity|].
  cbn [map flat_map fst option_map app]. rewrite IH. reflexivity.
Qed.

Lemma joined_attendance_ids rs :
  flat_map (fun v : option Z => match v with Some z => [z] | None => [] end)
    (map (fun row : option Registration.t * option Attendance.t =>
            option_map Attendance.registration_id (snd row))
         (map (fun r => (Some r, attendance_of r)) rs))
  = map Registration.id (filter (fun r => is_set (attendance_of r)) rs).
Proof.
  induction rs as [|r rs IH]; [reflexivity|].
  cbn [map flat_map snd filter]. rewrite IH.
  destruct (attendance_of r) as [a|] eqn:Ha; [|reflexivity].
  cbn [option_map is_set map app]. f_equal.
  unfold attendance_of in Ha. apply find_some in Ha. lia.
Qed.

Lemma joined_attended_count rs :
  0 <= sum_case_attended
         (map snd (map (fun r => (Some r, attendance_of r)) rs))
    <= Z.of_nat (List.length (filter (fun r => is_set (attendance_of r)) rs)).
Proof.
  unfold sum_case_attended.
  induction rs as [|r rs IH]; cbn [map fold_right filter snd List.length];
    [lia|].
  destruct (attendance_of r) as [a|]; cbn [is_set].
  - destruct (attended (Attendance.status a)); cbn [List.length]; lia.
  - lia.
Qed.

End ParticipationJoin.

Lemma event_ids_of_one_student (sid : Z) rs :
  NoDup (map pair_of rs) ->
  (forall r, In r rs -> Registration.student_id r = sid) ->
  NoDup (map Registration.event_id rs).
Proof.
  induction rs as [|r rs IH]; simpl; [constructor|].
  intros Hnd Hall. inversion Hnd as [|? ? Hnotin Hnd']; subst.
  constructor.
  - intros Hin. apply Hnotin. apply in_map_iff in Hin.
    destruct Hin as (r' & He & Hr'). apply in_map_iff. exists r'.
    split; [|exact Hr']. unfold pair_of.
    rewrite He, (Hall r' (or_intror Hr')), (Hall r (or_introl eq_refl)).
    reflexivity.
  - apply IH; [exact Hnd'|]. intros r' Hr'. apply Hall. right. exact Hr'.
Qed.

Lemma sql_limit_in {A : Type} (limit : Z) (l : list A) x :
  In x (sql_limit limit l) -> In x l.
Proof.
  unfold sql_limit. destruct (limit <? 0); [tauto|]. intros H.
  rewrite <- (firstn_skipn (Z.to_nat limit) l). apply in_or_app. left. exact H.
Qed.

Lemma participation_report_rows db colleges college_id limit row :
  In row (get_student_participation_report db colleges college_id limit) ->
  exists s c, In s (students db)
              /\ student_scope college_id s = true
              /\ get_college_by_id colleges (Student.college_id s) = Some c
              /\ 0 < ParticipationRow.total_registrations row
              /\ row = participation_row db s c.
Proof.
  unfold get_student_participation_report. intros H.
  apply sql_limit_in in H.
  apply (Permutation_in _ (order_by_permutation participation_before _)) in H.
  apply filter_In in H. destruct H as [H Hpos].
  apply in_map_iff in H. destruct H as ([s c] & <- & Hsc).
  apply in_flat_map in Hsc. destruct Hsc as (s' & Hs' & Hj).
  unfold join_college in Hj.
  destruct (get_college_by_id colleges (Student.college_id s')) as [c'|] eqn:Hc;
    [|destruct Hj].
  destruct Hj as [Hj | []]. injection Hj as -> ->.
  apply filter_In in Hs'. exists s, c. cbn [fst snd].
  apply Z.gtb_lt in Hpos. repeat split; tauto.
Qed.

(** X21. On tables with one row per registration key, per (student, event) pair
    and per attended registration, every row of the participation report
    is a student with at least one registration; its total is the number
    of the student's registrations, cancelled ones included; the events
    attended are at most the attendance records, which are at most the
    registrations; and the attendance rate is not NULL and lies between 0
    and 100. *)
Theorem participation_rate_is_a_percentage :
  forall (db : Store) (colleges : list College.t) (college_id : option Z)
         (limit : Z) (row : ParticipationRow.t),
    registration_keys_unique db ->
    NoDup (map pair_of (registrations db)) ->
    attendance_unique db ->
    In row (get_student_participation_report db colleges college_id limit) ->
    ParticipationRow.total_registrations row
    = Z.of_nat (List.length
                  (registrations_of_student db (ParticipationRow.id row)))
    /\ 1 <= ParticipationRow.total_registrations row
    /\ 0 <= ParticipationRow.events_attended row
    /\ ParticipationRow.events_attended row
       <= ParticipationRow.total_attendance row
    /\ ParticipationRow.total_attendance row
       <= ParticipationRow.total_registrations row
    /\ exists q, ParticipationRow.attendance_rate row = Some q
                 /\ (0 <= q)%Q /\ (q <= 100)%Q.
Proof.
  intros db colleges college_id limit row Hkeys Hpairs Hatt Hrow.
  apply participation_report_rows in Hrow.
  destruct Hrow as (s & c & Hs & Hscope & Hc & Hpos & ->).
  cbn [participation_row ParticipationRow.id ParticipationRow.total_registrations
       ParticipationRow.events_attended ParticipationRow.total_attendance
       ParticipationRow.attendance_rate] in *.
  set (rs := registrations_of_student db (Student.id s)).
  assert (Hjoin : participation_join db s
                  = map (fun r =>
                           (Some r,
                            find (fun a => Registration.id r
                                           =? Attendance.registration_id a)
                                 (attendance db))) rs).
  { unfold participation_join, left_join_student_registrations.
    fold (registrations_of_student db (Student.id s)). fold rs.
    destruct rs as [|r0 rs0] eqn:Hrs.
    - exfalso. unfold participation_join, left_join_student_registrations in Hpos.
      fold (registrations_of_student db (Student.id s)) in Hpos.
      fold rs in Hpos. rewrite Hrs in Hpos.
      unfold count_distinct in Hpos. simpl in Hpos. lia.
    - apply (join_attendance_rows db Hatt). }
  rewrite Hjoin in *. clear Hjoin.
  unfold count_distinct in *.
  rewrite (joined_event_ids db rs) in *.
  rewrite (joined_attendance_ids db rs).
  assert (Hev : NoDup (map Registration.event_id rs)).
  { apply (event_ids_of_one_student (Student.id s)).
    - apply NoDup_map_filter. exact Hpairs.
    - intros r Hr. apply filter_In in Hr. lia. }
  assert (Hids : NoDup (map Registration.id
                   (filter (fun r => is_set
                              (find (fun a => Registration.id r
                                              =? Attendance.registration_id a)
                                    (attendance db))) rs))).
  { do 2 apply NoDup_map_filter. exact Hkeys. }
  rewrite (nodup_fixed_point Z.eq_dec Hev) in *.
  rewrite (nodup_fixed_point Z.eq_dec Hids).
  rewrite !length_map in *.
  pose proof (joined_attended_count db rs) as [Hlo Hhi].
  pose proof (filter_length_le
                (fun r => is_set
                            (find (fun a => Registration.id r
                                            =? Attendance.registration_id a)
                                  (attendance db))) rs) as Hle.
  split; [reflexivity|]. split; [lia|]. split; [exact Hlo|].
  split; [exact Hhi|]. split; [lia|].
  set (n := Z.of_nat (List.length rs)) in *.
  set (k := sum_case_attended _) in *.
  assert (Hkn : k <= n) by lia.
  unfold sqlite_div.
  replace (n =? 0) with false by (symmetry; apply Z.eqb_neq; lia).
  cbn [sqlite_round2_null option_map]. eexists. split; [reflexivity|].
  assert (Hn : (0 < inject_Z n)%Q)
    by (change 0%Q with (inject_Z 0); rewrite <- Zlt_Qlt; exact Hpos).
  apply (sqlite_round2_between _ 0 100); [lia | |].
  - apply Qle_shift_div_l; [exact Hn|].
    rewrite Qmult_0_l. change 100%Q with (inject_Z 100).
    rewrite <- inject_Z_mult. change 0%Q with (inject_Z 0).
    rewrite <- Zle_Qle. lia.
  - apply Qle_shift_div_r; [exact Hn|].
    change 100%Q with (inject_Z 100).
    rewrite <- !inject_Z_mult, <- Zle_Qle. lia.
Qed.

Lemma participation_rate_is_a_percentage_witness :
  registration_keys_unique rated_db
  /\ NoDup (map pair_of (registrations rated_db))
  /\ attendance_unique rated_db
  /\ In (participation_row rated_db (sample_student 1) (College.mk 1 "College"))
        (get_student_participation_report rated_db sample_colleges None 20)
  /\ 1 <= ParticipationRow.total_registrations
            (participation_row rated_db (sample_student 1)
                               (College.mk 1 "College"))
  /\ map ParticipationRow.events_attended
         (get_student_participation_report rated_db sample_colleges None 20)
     = [1; 1].
Proof.
  assert (Hk : registration_keys_unique rated_db).
  { unfold registration_keys_unique. simpl.
    repeat constructor; simpl; intuition discriminate. }
  assert (Hp : NoDup (map pair_of (registrations rated_db))).
  { simpl. repeat constructor; simpl; intuition discriminate. }
  assert (Ha : attendance_unique rated_db).
  { unfold attendance_unique. simpl.
    repeat constructor; simpl; intuition discriminate. }
  assert (Hin : In (participation_row rated_db (sample_student 1)
                                      (College.mk 1 "College"))
                   (get_student_participation_report rated_db sample_colleges
                                                     None 20))
    by (left; reflexivity).
  split; [exact Hk|]. split; [exact Hp|]. split; [exact Ha|].
  split; [exact Hin|]. split; [| reflexivity].
  exact (proj1 (proj2 (participation_rate_is_a_percentage
                         rated_db sample_colleges None 20 _ Hk Hp Ha Hin))).
Defined.
